(** * gastitelegram: a Telegram expense bot, embedded and verified

    The bot (src/index.js and the command modules under src/gastitelegram/)
    is straight-line [async]/[await] code over three remote services and one
    token file.  This development embeds

    - the JavaScript values the handlers inspect (truthiness, [!==],
      [parseFloat], [<], [toUpperCase]);
    - the token store, the auth refresher, the expense recorder, the listing
      formatter and the narrative summary, as programs of a small
      state / trace / exception monad;

    and proves the properties of the specification about them.  The later
    parts add the earlier listing command (src/unnamed/part_000) and the
    result formatter of the query module (src/unnamed/part_001), and prove
    what the code shows beyond the specification: which functions never
    throw, what the chat is told, what reaches the model, how the token
    passes from one command to the next. *)

From Stdlib Require Import ZArith List Bool Ascii String Lia Arith.
From Stdlib Require Import Permutation Sorted.
From Stdlib Require Import Floats.SpecFloat.
From Stdlib Require DecimalString.
Import ListNotations.

Local Open Scope string_scope.
Local Open Scope Z_scope.

(* ================================================================== *)
(** * JavaScript values *)
(* ================================================================== *)

Module JS.

(** A JavaScript number is an IEEE 754 binary64 value; [spec_float] is the
    Standard Library's inductive description of them. *)
Definition number := spec_float.

Definition prec : Z := 53.
Definition emax : Z := 1024.

Definition pos_zero : number := S754_zero false.
Definition neg_zero : number := S754_zero true.
Definition NaN : number := S754_nan.

(** [Math.abs], unary minus, [<] and [===] on numbers. *)
Definition Math_abs (x : number) : number := SFabs x.
Definition neg (x : number) : number := SFopp x.
Definition num_lt (x y : number) : bool := SFltb x y.
Definition num_eq (x y : number) : bool := SFeqb x y.

Definition of_Z (z : Z) : number := binary_normalize prec emax z 0 false.

(** The values that reach the handlers: fields of decoded JSON bodies and of
    Telegram messages.  Arrays and nested objects never occur in the fields
    the code reads and are left out. *)
Inductive value :=
| VUndef                    (* undefined: the field is absent *)
| VNull
| VBool (b : bool)
| VNum (x : number)
| VStr (s : string).

(** ToBoolean: what [!v], [v && ...] and [v || ...] test. *)
Definition truthy (v : value) : bool :=
  match v with
  | VUndef | VNull => false
  | VBool b => b
  | VNum (S754_zero _) | VNum S754_nan => false
  | VNum _ => true
  | VStr s => negb (String.eqb s "")
  end.

(** [a || b] *)
Definition or_else (a b : value) : value := if truthy a then a else b.

(** [a === b] (IsStrictlyEqual). *)
Definition strict_eq (a b : value) : bool :=
  match a, b with
  | VUndef, VUndef => true
  | VNull, VNull => true
  | VBool x, VBool y => Bool.eqb x y
  | VNum x, VNum y => num_eq x y
  | VStr x, VStr y => String.eqb x y
  | _, _ => false
  end.

(** [a !== b] *)
Definition strict_neq (a b : value) : bool := negb (strict_eq a b).

(** ** Reading numbers out of strings

    [parseFloat] and the ToNumber conversion behind [<] both read a
    StrDecimalLiteral; they differ in what they accept around it. *)

(** White space, within ASCII: tab, line feed, vertical tab, form feed,
    carriage return, space. *)
Definition is_space (c : ascii) : bool :=
  match nat_of_ascii c with
  | 9%nat | 10%nat | 11%nat | 12%nat | 13%nat | 32%nat => true
  | _ => false
  end.

Fixpoint trim_start (l : list ascii) : list ascii :=
  match l with
  | c :: r => if is_space c then trim_start r else l
  | [] => []
  end.

Definition trim_end (l : list ascii) : list ascii :=
  rev (trim_start (rev l)).

Definition digit_of (c : ascii) : option Z :=
  let n := Z.of_nat (nat_of_ascii c) in
  if (48 <=? n) && (n <=? 57) then Some (n - 48) else None.

(** Longest run of decimal digits at the head of [l]: the digits read so
    far as a number, how many there were, and the rest. *)
Fixpoint take_digits (acc : Z) (count : Z) (l : list ascii)
  : Z * Z * list ascii :=
  match l with
  | c :: r =>
      match digit_of c with
      | Some d => take_digits (10 * acc + d) (count + 1) r
      | None => (acc, count, l)
      end
  | [] => (acc, count, [])
  end.

Definition take_sign (l : list ascii) : bool * list ascii :=
  match l with
  | "-"%char :: r => (true, r)
  | "+"%char :: r => (false, r)
  | _ => (false, l)
  end.

Fixpoint strip_prefix (p l : list ascii) : option (list ascii) :=
  match p, l with
  | [], _ => Some l
  | a :: p', b :: l' => if Ascii.eqb a b then strip_prefix p' l' else None
  | _ :: _, [] => None
  end.

(** ExponentPart, optional: consumed only when complete. *)
Definition take_exponent (l : list ascii) : Z * list ascii :=
  match l with
  | c :: r =>
      if Ascii.eqb c "e" || Ascii.eqb c "E" then
        let '(s, r1) := take_sign r in
        let '(e, n, r2) := take_digits 0 0 r1 in
        if n =? 0 then (0, l) else ((if s then - e else e), r2)
      else (0, l)
  | [] => (0, [])
  end.

(** The binary64 nearest to [m * 10 ^ e10] (ties to even). *)
Definition of_decimal (s : bool) (m e10 : Z) : number :=
  match m with
  | Z0 => S754_zero s
  | Zpos p =>
      if 0 <=? e10
      then binary_normalize prec emax ((if s then -1 else 1) * (m * 10 ^ e10)) 0 s
      else
        match 10 ^ (- e10) with
        | Zpos q => SFdiv prec emax (S754_finite s p 0) (S754_finite false q 0)
        | _ => S754_nan
        end
  | Zneg _ => S754_nan
  end.

(** The longest prefix of [l] that is a StrDecimalLiteral, as a number,
    with what follows it; [None] when no prefix is one. *)
Definition read_decimal (l : list ascii) : option (number * list ascii) :=
  let '(s, r0) := take_sign l in
  match strip_prefix (list_ascii_of_string "Infinity") r0 with
  | Some r => Some (S754_infinity s, r)
  | None =>
      let '(ip, ni, r1) := take_digits 0 0 r0 in
      let '(m, nf, r2) :=
        match r1 with
        | "."%char :: rf =>
            let '(m', nf', r') := take_digits ip 0 rf in
            if (ni =? 0) && (nf' =? 0) then (ip, 0, r1) else (m', nf', r')
        | _ => (ip, 0, r1)
        end in
      if (ni =? 0) && (nf =? 0) then None
      else
        let '(e, r3) := take_exponent r2 in
        Some (of_decimal s m (e - nf), r3)
  end.

(** [parseFloat] of a string: leading white space is skipped, the longest
    decimal prefix is read, trailing characters are ignored. *)
Definition parseFloat_string (s : string) : number :=
  match read_decimal (trim_start (list_ascii_of_string s)) with
  | Some (x, _) => x
  | None => NaN
  end.

(** Digits of a [0x], [0o] or [0b] literal. *)
Definition radix_digit_of (radix : Z) (c : ascii) : option Z :=
  let n := Z.of_nat (nat_of_ascii c) in
  let d :=
    if (48 <=? n) && (n <=? 57) then n - 48
    else if (97 <=? n) && (n <=? 102) then n - 87
    else if (65 <=? n) && (n <=? 70) then n - 55
    else 99 in
  if d <? radix then Some d else None.

Fixpoint read_radix (radix acc : Z) (l : list ascii) : option Z :=
  match l with
  | [] => Some acc
  | c :: r =>
      match radix_digit_of radix c with
      | Some d => read_radix radix (radix * acc + d) r
      | None => None
      end
  end.

Definition read_non_decimal (l : list ascii) : option number :=
  match l with
  | "0"%char :: c :: ((_ :: _) as r) =>
      let radix :=
        if Ascii.eqb c "x" || Ascii.eqb c "X" then 16
        else if Ascii.eqb c "o" || Ascii.eqb c "O" then 8
        else if Ascii.eqb c "b" || Ascii.eqb c "B" then 2
        else 0 in
      if radix =? 0 then None
      else option_map of_Z (read_radix radix 0 r)
  | _ => None
  end.

(** StringToNumber: white space is trimmed on both sides, the empty string
    is [+0], and the whole remainder must be one numeric literal. *)
Definition toNumber_string (s : string) : number :=
  match trim_end (trim_start (list_ascii_of_string s)) with
  | [] => pos_zero
  | l =>
      match read_non_decimal l with
      | Some x => x
      | None =>
          match read_decimal l with
          | Some (x, []) => x
          | _ => NaN
          end
      end
  end.

(** ToNumber. *)
Definition toNumber (v : value) : number :=
  match v with
  | VUndef => NaN
  | VNull => pos_zero
  | VBool true => of_Z 1
  | VBool false => pos_zero
  | VNum x => x
  | VStr s => toNumber_string s
  end.

(** [parseFloat(v)] reads the string form of [v].  A number prints to a
    decimal that reads back as itself, except that [-0] prints as ["0"];
    [undefined], [null], [true] and [false] print to words that start no
    number. *)
Definition parseFloat (v : value) : number :=
  match v with
  | VNum (S754_zero _) => pos_zero
  | VNum x => x
  | VStr s => parseFloat_string s
  | VUndef | VNull | VBool _ => NaN
  end.

(** [a < 0] for an arbitrary left operand: both sides go through ToNumber. *)
Definition lt_zero (v : value) : bool := num_lt (toNumber v) pos_zero.

(** [String.prototype.toUpperCase] on ASCII text, the text of currency
    codes: the letters a to z become A to Z.  The bytes of characters outside
    ASCII are kept as they are, where the host maps letters such as "ñ" too;
    what is proved of the result is stated for ASCII text. *)
Definition upper_ascii (c : ascii) : ascii :=
  let n := nat_of_ascii c in
  if (97 <=? n)%nat && (n <=? 122)%nat then ascii_of_nat (n - 32) else c.

Fixpoint toUpperCase (s : string) : string :=
  match s with
  | EmptyString => EmptyString
  | String c r => String (upper_ascii c) (toUpperCase r)
  end.

(** [s.startsWith(p)] *)
Definition startsWith (s p : string) : bool := String.prefix p s.

(** What [JSON.parse(JSON.stringify(v))] yields for a field value:
    non-finite numbers are written as [null], [-0] as [0]. *)
Definition json_roundtrip (v : value) : value :=
  match v with
  | VNum (S754_zero _) => VNum pos_zero
  | VNum (S754_infinity _) | VNum S754_nan => VNull
  | _ => v
  end.

End JS.

(* ================================================================== *)
(** * Effects: services, token file, trace *)
(* ================================================================== *)

Import JS.

Definition nl : string := String (ascii_of_nat 10) EmptyString.

(** ** Message texts

    A template literal is kept as the sequence of its parts.  Text that the
    code writes, and string values it interpolates, are literal; the parts
    that the host formats (numbers, dates) stay symbolic. *)
Inductive piece :=
| Lit (s : string)
| Num (x : number)                    (* String(x) *)
| LocaleNum (locale : string) (two_decimals : bool) (x : number)
                                      (* x.toLocaleString(locale, ...) *)
| Fixed2 (x : number)                 (* x.toFixed(2) *)
| LocaleDay (date : Z)                (* toLocaleDateString('es-AR', day/month) *)
| IsoDay (date : Z).                  (* toISOString().split('T')[0] *)

Definition message := list piece.

(** [`${v}`] *)
Definition interp (v : value) : piece :=
  match v with
  | VStr s => Lit s
  | VNum x => Num x
  | VUndef => Lit "undefined"
  | VNull => Lit "null"
  | VBool true => Lit "true"
  | VBool false => Lit "false"
  end.

(** The host's formatting of the symbolic parts. *)
Record host := {
  numberToString : number -> string;
  toLocaleString : string -> bool -> number -> string;
  toFixed2 : number -> string;
  toLocaleDay : Z -> string;
  toIsoDay : Z -> string
}.

Definition render_piece (h : host) (p : piece) : string :=
  match p with
  | Lit s => s
  | Num x => numberToString h x
  | LocaleNum l d x => toLocaleString h l d x
  | Fixed2 x => toFixed2 h x
  | LocaleDay d => toLocaleDay h d
  | IsoDay d => toIsoDay h d
  end.

Fixpoint render (h : host) (m : message) : string :=
  match m with
  | [] => ""
  | p :: r => render_piece h p ++ render h r
  end.

(** ** Replies of the remote services *)

Inductive reply (A : Type) :=
| Unreachable                           (* fetch rejects *)
| Refused (status : Z) (body : string)  (* response.ok is false *)
| Malformed                             (* the body does not decode *)
| Accepted (body : A).
Arguments Unreachable {A}.
Arguments Refused {A} status body.
Arguments Malformed {A}.
Arguments Accepted {A} body.

(** Body of the token endpoint. *)
Record token_body := {
  access_token : value;
  refresh_token : value
}.

(** The object the expense model answers with, once the code fences are
    stripped and [JSON.parse] has read it. *)
Record expense_json := {
  error : value;
  amount : value;
  description : value;
  currency : value;
  category : value
}.

(** A row of the backend's transaction list: [tx_date] is the instant
    [new Date(tx.date)] denotes, in milliseconds, and the description is
    text.  Rows with a date that denotes no instant or
    a description that is no text are outside the model. *)
Record transaction := {
  tx_date : Z;
  tx_description : string;
  tx_amount : value;
  tx_currency : string;
  tx_category : option string;          (* [None]: absent or null *)
  tx_type : option string
}.

Record summary_row := {
  s_currency : string;
  s_expenses : value
}.

(** Body of the listing and period RPCs. *)
Record api_response := {
  transactions : option (list transaction);
  summary : option (list summary_row)
}.

(** The fixed system instructions: of index.js, and of the two revisions of
    resumen.js. *)
Inductive prompt :=
| SYSTEM_PROMPT
| SYSTEM_PROMPT_RESUMEN
| SYSTEM_PROMPT_RESUMEN_2.

(** What the process is configured with, and how the outside world answers
    during one inbound message.  Every handler makes each kind of call at
    most once, so one reply per kind describes a run. *)
Record services := {
  GASTI_INITIAL_REFRESH_TOKEN : value;
  GASTI_USER_EMAIL : value;
  GASTI_USER_ID : value;
  clock_iso : string;                         (* new Date().toISOString() *)
  fs_write_ok : bool;                         (* mkdir and writeFile succeed *)
  token_endpoint : reply token_body;
  expense_model : reply (option expense_json);
  summary_model : reply string;
  transactions_endpoint : reply unit;
  rpc_endpoint : reply (option api_response);
  telegram_message_id : Z
}.

(** The token file [gasti_token.json]. *)
Inductive file_state :=
| FileAbsent
| FileUnreadable                    (* I/O error, or not the JSON of an object *)
| FileToken (refreshToken : value).

Record transaction_payload := {
  p_description : value;
  p_amount : number;
  p_category : value;
  p_type : string;
  p_date : string;
  p_currency : string;
  p_user_email : value;
  p_user_id : value
}.

(** Calls that leave the process, and [console.error]. *)
Inductive event :=
| SendMessage (chat : Z) (text : message)
| EditMessageText (chat message_id : Z) (text : message)
| ChatCompletion (system : prompt) (user : message)
| TokenRequest (refresh : value)
| WriteTokenFile (token : value)
| CreateTransaction (bearer : value) (payload : transaction_payload)
| Rpc (name : string) (bearer : value)
| ConsoleError (what : string).

(** ** The monad of a handler *)

Inductive outcome (A : Type) :=
| Return (a : A)
| Throw (err : string).
Arguments Return {A} a.
Arguments Throw {A} err.

Definition io (A : Type) : Type :=
  services -> file_state -> outcome A * file_state * list event.

Definition ret {A} (a : A) : io A := fun _ fs => (Return a, fs, []).

Definition throw {A} (err : string) : io A := fun _ fs => (Throw err, fs, []).

Definition bind {A B} (c : io A) (k : A -> io B) : io B :=
  fun sv fs =>
    match c sv fs with
    | (Return a, fs1, ev1) =>
        let '(r, fs2, ev2) := k a sv fs1 in (r, fs2, (ev1 ++ ev2)%list)
    | (Throw e, fs1, ev1) => (Throw e, fs1, ev1)
    end.

(** [try { body } catch (error) { handler }] *)
Definition try_catch {A} (body : io A) (handler : string -> io A) : io A :=
  fun sv fs =>
    match body sv fs with
    | (Return a, fs1, ev1) => (Return a, fs1, ev1)
    | (Throw e, fs1, ev1) =>
        let '(r, fs2, ev2) := handler e sv fs1 in (r, fs2, (ev1 ++ ev2)%list)
    end.

Declare Scope io_scope.
Delimit Scope io_scope with io.
Notation "x <- c ;; k" := (bind c (fun x => k))
  (at level 61, c at next level, right associativity) : io_scope.
Notation "c ;;; k" := (bind c (fun _ => k))
  (at level 61, right associativity) : io_scope.
Local Open Scope io_scope.

Definition emit (e : event) : io unit := fun _ fs => (Return tt, fs, [e]).
Definition ask {A} (f : services -> A) : io A := fun sv fs => (Return (f sv), fs, []).

Definition result_of {A} (r : outcome A * file_state * list event) : outcome A :=
  fst (fst r).
Definition file_of {A} (r : outcome A * file_state * list event) : file_state :=
  snd (fst r).
Definition events_of {A} (r : outcome A * file_state * list event) : list event :=
  snd r.

(** *** Primitives *)

Definition console_error (what : string) : io unit := emit (ConsoleError what).

(** [bot.sendMessage]: resolves to the sent message, of which the handlers
    only read [message_id].  The calls to the messaging platform are recorded
    as issued; their promises are taken to resolve.  A run in which Telegram
    rejects a call is outside the model: the properties below say which
    calls are made and what the chat is told when the messages go through,
    and none of them says that a handler returns whatever Telegram does. *)
Definition sendMessage (chat : Z) (text : message) : io Z :=
  emit (SendMessage chat text) ;;; ask telegram_message_id.

Definition editMessageText (chat message_id : Z) (text : message) : io unit :=
  emit (EditMessageText chat message_id text).

(** [fs.access] then [fs.readFile] then [JSON.parse] then [.refreshToken]:
    rejects unless the file holds an object. *)
Definition fs_read_token : io value :=
  fun _ fs =>
    match fs with
    | FileToken v => (Return v, fs, [])
    | FileAbsent => (Throw "ENOENT", fs, [])
    | FileUnreadable => (Throw "EIO", fs, [])
    end.

(** [fs.mkdir] then [fs.writeFile] of the stringified token record. *)
Definition fs_write_token (v : value) : io unit :=
  fun sv fs =>
    if fs_write_ok sv
    then (Return tt, FileToken (json_roundtrip v), [WriteTokenFile v])
    else (Throw "EACCES", fs, [WriteTokenFile v]).

(** [fetch(url, ...)]: the call leaves the process; the promise rejects when
    the service cannot be reached and otherwise resolves to a response. *)
Definition fetch {A} (call : event) (endpoint : services -> reply A) : io (reply A) :=
  emit call ;;;
  r <- ask endpoint ;;
  match r with
  | Unreachable => throw "FetchError"
  | _ => ret r
  end.

(** [response.ok] *)
Definition response_ok {A} (r : reply A) : bool :=
  match r with
  | Refused _ _ => false
  | _ => true
  end.

(** [await response.json()], and the reads that dereference the body. *)
Definition response_json {A} (r : reply A) : io A :=
  match r with
  | Accepted body => ret body
  | _ => throw "SyntaxError"
  end.

(** [v.toUpperCase()]: a TypeError unless [v] is a string. *)
Definition toUpperCase_of (v : value) : io string :=
  match v with
  | VStr s => ret (toUpperCase s)
  | _ => throw "TypeError"
  end.

(* ================================================================== *)
(** * src/index.js *)
(* ================================================================== *)

(** ** Token store *)

Definition readRefreshToken : io value :=
  try_catch fs_read_token
            (fun _ => ask GASTI_INITIAL_REFRESH_TOKEN).

Definition writeRefreshToken (newToken : value) : io unit :=
  try_catch (fs_write_token newToken)
            (fun _ => console_error
               "Error fatal: No se pudo escribir el nuevo refresh token en el archivo:").

(** ** Auth refresher *)

Record token_data := {
  accessToken : value;
  newRefreshToken : value
}.

Definition getNewAccessToken (refreshToken : value) : io (option token_data) :=
  try_catch
    (response <- fetch (TokenRequest refreshToken) token_endpoint ;;
     if negb (response_ok response) then
       console_error "Error de la API de Gasti/Supabase." ;;;
       throw "No se pudo refrescar el token de Gasti.pro."
     else
       data <- response_json response ;;
       ret (Some {| accessToken := access_token data;
                    newRefreshToken := refresh_token data |}))
    (fun _ => console_error "Error al obtener el access_token:" ;;; ret None).

(** ** Transaction submission *)

Definition sendTransaction (accessToken : value) (expenseData : expense_json)
  : io bool :=
  cur <- toUpperCase_of (or_else (currency expenseData) (VStr "USD")) ;;
  now <- ask clock_iso ;;
  email <- ask GASTI_USER_EMAIL ;;
  uid <- ask GASTI_USER_ID ;;
  let transactionPayload :=
    {| p_description := description expenseData;
       p_amount := neg (Math_abs (parseFloat (amount expenseData)));
       p_category := category expenseData;
       p_type := "expense";
       p_date := now;
       p_currency := cur;
       p_user_email := email;
       p_user_id := uid |} in
  try_catch
    (response <- fetch (CreateTransaction accessToken transactionPayload)
                       transactions_endpoint ;;
     if negb (response_ok response) then
       console_error "Error de Gasti.pro:" ;;; ret false
     else ret true)
    (fun _ => console_error "Error al enviar la transacción:" ;;; ret false).

(** ** Expense parsing by the model *)

Definition parseExpenseWithAI (text : string) : io (option expense_json) :=
  try_catch
    (response <- fetch (ChatCompletion SYSTEM_PROMPT [Lit text]) expense_model ;;
     if negb (response_ok response) then
       console_error "Error en la respuesta de la API de DeepSeek:" ;;; ret None
     else
       content <- response_json response ;;
       match content with
       | None => throw "SyntaxError"
       | Some parsedContent =>
           if truthy (error parsedContent) then ret None
           else ret (Some parsedContent)
       end)
    (fun _ => console_error "Error fatal al procesar con DeepSeek:" ;;; ret None).

(** ** The refresh block

    Every command handler carries the same four statements: read the stored
    token, exchange it, fail when no access token came back, and store the
    returned refresh token when it is set and is not the one just read.
    Only the text of the failure differs. *)
Definition refresh_session (failure : string) : io value :=
  currentRefreshToken <- readRefreshToken ;;
  tokenData <- getNewAccessToken currentRefreshToken ;;
  match tokenData with
  | None => throw failure
  | Some tokenData =>
      if negb (truthy (accessToken tokenData)) then throw failure
      else
        (if truthy (newRefreshToken tokenData)
            && strict_neq (newRefreshToken tokenData) currentRefreshToken
         then writeRefreshToken (newRefreshToken tokenData)
         else ret tt) ;;;
        ret (accessToken tokenData)
  end.

(** ** The message handler *)

Record telegram_message := {
  chat_id : Z;
  text : option string          (* [None]: the message carries no text *)
}.

Definition THINKING : message := [Lit "🤔 Analizando tu gasto..."].
Definition ANALYSIS_DONE : message := [Lit "Análisis completado."].
Definition NOT_UNDERSTOOD : message :=
  [Lit "😕 No pude entender los detalles de ese gasto. ¿Podrías intentarlo de nuevo con otro formato?"].
Definition REGISTERED : message := [Lit "🎉 ¡Gasto registrado con éxito!"].
Definition SYSTEM_ERROR : message :=
  [Lit "🔥 ¡Ups! Hubo un error en mi sistema. Ya estoy avisado y lo revisaré. Por favor, intenta de nuevo más tarde."].
Definition WELCOME : message :=
  [Lit ("¡Hola! Soy tu asistente de gastos con IA. Descríbeme tus gastos de forma natural y yo los registraré."
        ++ nl ++ nl ++
        "Por ejemplo: 'Compré zapatillas nuevas por 50000 pesos' o 'Cena con amigos 45.50 usd'")].

Definition confirmation (expense : expense_json) (cur : string) : message :=
  [Lit ("✅ ¡Entendido! Registrando en Gasti.pro:" ++ nl ++ nl ++ "📝 **Descripción:** ");
   interp (description expense);
   Lit (nl ++ "💰 **Monto:** ");
   interp (amount expense); Lit " "; Lit cur;
   Lit (nl ++ "🏷️ **Categoría:** ");
   interp (category expense)].

(** What the handler does with the outcome of the parse step
    (index.js, from the test of [expense] to the success message). *)
Definition record_parsed (chatId : Z) (expense : option expense_json) : io unit :=
  let ask_again := sendMessage chatId NOT_UNDERSTOOD ;;; ret tt in
  match expense with
  | None => ask_again
  | Some expense =>
      if negb (truthy (amount expense)) || negb (truthy (description expense))
      then ask_again
      else
        cur <- toUpperCase_of (or_else (currency expense) (VStr "USD")) ;;
        sendMessage chatId (confirmation expense cur) ;;;
        accessToken <- refresh_session
          "Fallo al obtener token de Gasti.pro. Verifica las credenciales y la conexión." ;;
        success <- sendTransaction accessToken expense ;;
        if negb success then throw "Fallo al enviar la transacción a Gasti.pro."
        else sendMessage chatId REGISTERED ;;; ret tt
  end.

(** The branch of the handler for text that is no command. *)
Definition expense_recorder (chatId : Z) (text : string) : io unit :=
  thinkingMessage <- sendMessage chatId THINKING ;;
  expense <- parseExpenseWithAI text ;;
  editMessageText chatId thinkingMessage ANALYSIS_DONE ;;;
  record_parsed chatId expense.

Definition on_error (chatId : Z) (err : string) : io unit :=
  console_error "[ERROR en el chat]" ;;;
  sendMessage chatId SYSTEM_ERROR ;;; ret tt.

(** [bot.on('message', ...)].  [handleGastosCommand] is what
    [require('./gastitelegram/gastos')] provides. *)
Definition on_message (handleGastosCommand : telegram_message -> io unit)
                      (msg : telegram_message) : io unit :=
  let chatId := chat_id msg in
  match text msg with
  | None => ret tt
  | Some text =>
      if negb (truthy (VStr text)) then ret tt
      else
        try_catch
          (if startsWith text "/start" then
             sendMessage chatId WELCOME ;;; ret tt
           else if startsWith text "/gastos" then
             handleGastosCommand msg
           else
             expense_recorder chatId text)
          (on_error chatId)
  end.

(* ================================================================== *)
(** * The listing command ([/gastos]) *)
(* ================================================================== *)

(** [Array.prototype.sort] is stable; with a consistent comparator its
    result is the stable sort, computed here by insertion.  [after a b] says
    that the comparator is positive on [(a, b)]. *)
Section Sort.
Context {A : Type} (after : A -> A -> bool).

Fixpoint insert_sorted (x : A) (l : list A) : list A :=
  match l with
  | [] => [x]
  | y :: r => if after x y then y :: insert_sorted x r else x :: l
  end.

Fixpoint array_sort (l : list A) : list A :=
  match l with
  | [] => []
  | x :: r => insert_sorted x (array_sort r)
  end.
End Sort.

(** [(a, b) => new Date(b.date) - new Date(a.date)] is positive exactly
    when [b] is the later of the two. *)
Definition by_date_desc (a b : transaction) : bool := tx_date a <? tx_date b.

(** Decimal digits of an integer, as [String(n)] prints them. *)
Definition decimal (n : Z) : string :=
  DecimalString.NilZero.string_of_int (Z.to_int n).

Definition length_of {A} (l : list A) : Z := Z.of_nat (List.length l).

(** [tx.category || fallback] *)
Definition category_or (c : option string) (fallback : string) : string :=
  match c with
  | Some s => if String.eqb s "" then fallback else s
  | None => fallback
  end.

Definition NO_RECENT : message := [Lit "No se encontraron gastos recientes."].

Definition summary_line (s : summary_row) : message :=
  [Lit "*"; Lit (s_currency s); Lit ":* ";
   LocaleNum "es-AR" false (parseFloat (s_expenses s)); Lit nl].

Definition entry (tx : transaction) : message :=
  [Lit "🗓️ *"; LocaleDay (tx_date tx); Lit "* - ";
   Lit (category_or (tx_category tx) "Sin categoría"); Lit nl;
   Lit "   └ "; Lit (tx_description tx); Lit ": *";
   LocaleNum "es-AR" false (Math_abs (toNumber (tx_amount tx)));
   Lit " "; Lit (tx_currency tx); Lit ("*" ++ nl ++ nl)].

Definition and_more (n : Z) : message :=
  [Lit "_... y "; Lit (decimal n); Lit " más._"].

Definition heading (summary : option (list summary_row)) : message :=
  ([Lit ("📊 *Resumen de Gastos del Mes*" ++ nl ++ nl)]
   ++ match summary with
      | Some ((_ :: _) as rows) => flat_map summary_line rows ++ [Lit nl]
      | _ => []
      end
   ++ [Lit ("*Últimos gastos registrados:*" ++ nl ++ nl)])%list.

(** The text that the revisions of [formatApiResponse] share; they differ
    in the list they take the first ten rows of: [transactions] itself, or a
    sorted copy of it.  The note counts the rows of [transactions] in both. *)
Definition format_with (order : list transaction -> list transaction)
                       (apiResponse : option api_response) : message :=
  match apiResponse with
  | Some {| transactions := Some ((_ :: _) as txs); summary := summary |} =>
      (heading summary
       ++ flat_map entry (firstn 10 (order txs))
       ++ (if 10 <? length_of txs then and_more (length_of txs - 10) else []))%list
  | _ => NO_RECENT
  end.

(** ** src/gastitelegram/resumen.js, third module: rows in the order the
       backend sent them

    [formatApiResponse] has the same text in src/unnamed/part_000. *)
Module Gastos.

(** [transactions.slice(0, 10)] *)
Definition shown (txs : list transaction) : list transaction :=
  firstn 10 txs.

Definition formatApiResponse (apiResponse : option api_response) : message :=
  format_with (fun txs => txs) apiResponse.

Definition getMonthlyExpenses (accessToken : value) : io (option api_response) :=
  response <- fetch (Rpc "get_transactions_summary" accessToken) rpc_endpoint ;;
  if negb (response_ok response) then
    console_error "Error al llamar a la RPC de Gasti.pro." ;;;
    throw "Error al llamar a la RPC de Gasti.pro."
  else
    response_json response.

Definition handleGastosCommand (msg : telegram_message) : io unit :=
  let chatId := chat_id msg in
  thinkingMessage <- sendMessage chatId [Lit "Buscando tus gastos en Gasti.pro..."] ;;
  try_catch
    (accessToken <- refresh_session
       "Fallo al obtener token de Gasti.pro para ver los gastos." ;;
     apiResponse <- getMonthlyExpenses accessToken ;;
     editMessageText chatId thinkingMessage (formatApiResponse apiResponse))
    (fun error =>
       console_error "Error procesando el comando /gastos:" ;;;
       editMessageText chatId thinkingMessage
         [Lit "🔥 ¡Ups! Hubo un error y no pude obtener tus gastos. Revisa los logs del servidor."] ;;;
       throw error).

End Gastos.

(** ** src/unnamed/part_001: rows sorted by date, latest first *)
Module GastosByDate.

(** [[...transactions].sort(...)] then [.slice(0, 10)] *)
Definition sortedTransactions (txs : list transaction) : list transaction :=
  array_sort by_date_desc txs.

Definition shown (txs : list transaction) : list transaction :=
  firstn 10 (sortedTransactions txs).

Definition formatApiResponse (apiResponse : option api_response) : message :=
  format_with sortedTransactions apiResponse.

Definition getMonthlyExpenses (accessToken : value) : io (option api_response) :=
  response <- fetch (Rpc "get_user_transactions_by_period" accessToken) rpc_endpoint ;;
  if negb (response_ok response) then
    console_error "Error al llamar a la RPC de Gasti.pro." ;;;
    throw "Error al llamar a la RPC de Gasti.pro."
  else
    response_json response.

Definition handleGastosCommand (msg : telegram_message) : io unit :=
  let chatId := chat_id msg in
  thinkingMessage <- sendMessage chatId [Lit "Buscando tus gastos en Gasti.pro..."] ;;
  try_catch
    (accessToken <- refresh_session
       "Fallo al obtener token de Gasti.pro para ver los gastos." ;;
     apiResponse <- getMonthlyExpenses accessToken ;;
     editMessageText chatId thinkingMessage (formatApiResponse apiResponse))
    (fun error =>
       console_error "Error procesando el comando /gastos:" ;;;
       editMessageText chatId thinkingMessage
         [Lit "🔥 ¡Ups! Hubo un error y no pude obtener tus gastos. Revisa los logs del servidor."] ;;;
       throw error).

End GastosByDate.

(* ================================================================== *)
(** * The narrative summary ([/resumen]) *)
(* ================================================================== *)

Definition num_add (x y : number) : number := SFadd prec emax x y.
Definition num_sub (x y : number) : number := SFsub prec emax x y.

(** [x || d] on numbers *)
Definition num_or (x d : number) : number := if truthy (VNum x) then x else d.

(** [s.trim()] *)
Definition trim (s : string) : string :=
  string_of_list_ascii (trim_end (trim_start (list_ascii_of_string s))).

(** [s.replace(/\n/g, ' ')] *)
Fixpoint unbreak (s : string) : string :=
  match s with
  | EmptyString => EmptyString
  | String c r =>
      String (if Ascii.eqb c (ascii_of_nat 10) then " "%char else c) (unbreak r)
  end.

(** [parts.join('\n')] *)
Fixpoint join_lines (parts : list message) : message :=
  match parts with
  | [] => []
  | [p] => p
  | p :: r => (p ++ Lit nl :: join_lines r)%list
  end.

Definition SUMMARY_ERROR : message :=
  [Lit "🔥 ¡Ups! Hubo un error al generar el resumen. Revisa los logs del servidor."].

(** ** src/gastitelegram/resumen.js, first module: the rows go to the model *)
Module Resumen.

Definition NOTHING_TO_ANALYZE : message :=
  [Lit "No hay transacciones para analizar. Registra algunos gastos primero."].

Definition getAllTransactions (accessToken : value) : io (list transaction) :=
  response <- fetch (Rpc "get_user_transactions_by_period" accessToken) rpc_endpoint ;;
  if negb (response_ok response) then
    console_error "Error al llamar a la RPC para obtener todas las transacciones." ;;;
    throw "Error al llamar a la RPC para obtener todas las transacciones."
  else
    data <- response_json response ;;
    match data with
    | None => throw "TypeError"
    | Some data =>
        ret (match transactions data with Some txs => txs | None => [] end)
    end.

Definition formatted (tx : transaction) : message :=
  [IsoDay (tx_date tx); Lit ", "; Lit (unbreak (tx_description tx)); Lit ", ";
   Num (Math_abs (toNumber (tx_amount tx))); Lit ", ";
   Lit (tx_currency tx); Lit ", ";
   Lit (category_or (tx_category tx) "Sin categoría")].

Definition userPrompt (txs : list transaction) : message :=
  ([Lit ("Aquí están mis transacciones de gastos:" ++ nl ++ nl)]
   ++ join_lines (map formatted txs)
   ++ [Lit (nl ++ nl ++ "Por favor, genera el resumen financiero detallado siguiendo las instrucciones que te di.")])%list.

Definition analyzeExpensesWithAI (txs : list transaction) : io message :=
  if length_of txs =? 0 then ret NOTHING_TO_ANALYZE
  else
    response <- fetch (ChatCompletion SYSTEM_PROMPT_RESUMEN (userPrompt txs))
                      summary_model ;;
    if negb (response_ok response) then
      console_error "Error en la respuesta de la API de DeepSeek para el resumen." ;;;
      throw "Error en la respuesta de la API de DeepSeek para el resumen."
    else
      content <- response_json response ;;
      ret [Lit (trim content)].

Definition handleResumenCommand (msg : telegram_message) : io unit :=
  let chatId := chat_id msg in
  thinkingMessage <- sendMessage chatId
    [Lit "🧠 Analizando tus gastos con IA... Esto puede tardar un momento."] ;;
  try_catch
    (accessToken <- refresh_session
       "Fallo al obtener token de Gasti.pro para generar el resumen." ;;
     allTransactions <- getAllTransactions accessToken ;;
     aiSummary <- analyzeExpensesWithAI allTransactions ;;
     editMessageText chatId thinkingMessage aiSummary)
    (fun error =>
       console_error "Error procesando el comando /resumen:" ;;;
       editMessageText chatId thinkingMessage SUMMARY_ERROR ;;;
       throw error).

End Resumen.

(** ** src/gastitelegram/resumen.js, second module: local aggregates, then
       the model narrates them *)
Module ResumenAggregates.

Definition NOTHING_TO_ANALYZE : message :=
  [Lit "No se encontraron transacciones para analizar."].

(** [{...tx, type: tx.amount < 0 ? 'expense' : 'income',
          amount: parseFloat(tx.amount) || 0}] *)
Definition normalize (tx : transaction) : transaction :=
  {| tx_date := tx_date tx;
     tx_description := tx_description tx;
     tx_amount := VNum (num_or (parseFloat (tx_amount tx)) pos_zero);
     tx_currency := tx_currency tx;
     tx_category := tx_category tx;
     tx_type := if lt_zero (tx_amount tx) then Some "expense" else Some "income" |}.

Definition getAllTransactions (accessToken : value) : io (list transaction) :=
  response <- fetch (Rpc "get_user_transactions_by_period" accessToken) rpc_endpoint ;;
  if negb (response_ok response) then
    console_error "Error al llamar a la RPC para obtener todas las transacciones." ;;;
    throw "Error al llamar a la RPC para obtener todas las transacciones."
  else
    data <- response_json response ;;
    match data with
    | None => throw "TypeError"
    | Some data =>
        ret (map normalize
                 (match transactions data with Some txs => txs | None => [] end))
    end.

(** [t => t.type === name] *)
Definition has_type (name : string) (t : transaction) : bool :=
  match tx_type t with
  | Some s => String.eqb s name
  | None => false
  end.

Definition gastos_of (txs : list transaction) := filter (has_type "expense") txs.
Definition ingresos_of (txs : list transaction) := filter (has_type "income") txs.

Definition in_currency (cur : string) (t : transaction) : bool :=
  String.eqb (tx_currency t) cur.

(** [Math.abs(parseFloat(gasto.amount)) || 0] *)
Definition monto_gasto (t : transaction) : number :=
  num_or (Math_abs (parseFloat (tx_amount t))) pos_zero.

(** [parseFloat(ingreso.amount) || 0] *)
Definition monto_ingreso (t : transaction) : number :=
  num_or (parseFloat (tx_amount t)) pos_zero.

(** The running [total += monto] of a [forEach]. *)
Definition total (monto : transaction -> number) (l : list transaction) : number :=
  fold_left (fun acc t => num_add acc (monto t)) l pos_zero.

(** [categorias[categoria] = (categorias[categoria] || 0) + monto], on the
    own keys of the object in the order they were first set.  This is the
    object for category names that are no member of [Object.prototype]: a
    name such as "constructor" or "__proto__" reads the inherited member
    instead of [undefined], and a name that is a canonical number is listed
    before the others; what is proved of the categories assumes the former
    away and does not depend on the order of the keys. *)
Fixpoint accumulate (k : string) (x : number) (l : list (string * number)) :=
  match l with
  | [] => [(k, num_add pos_zero x)]
  | (k', v) :: r =>
      if String.eqb k k' then (k', num_add (num_or v pos_zero) x) :: r
      else (k', v) :: accumulate k x r
  end.

(** For rows whose categories are own keys of the object, see
    [accumulate]. *)
Definition getTopCategorias (listaGastos : list transaction)
  : list (string * number) :=
  let categorias :=
    fold_left (fun acc gasto =>
                 accumulate (category_or (tx_category gasto) "Sin Categoría")
                            (monto_gasto gasto) acc)
              listaGastos [] in
  firstn 5 (array_sort
              (fun a b => num_lt pos_zero (num_sub (snd b) (snd a)))
              categorias).

Definition money (x : number) : piece := LocaleNum "en-US" true x.

(** The block of aggregates, as text in parts.  It is what the code returns
    for rows whose categories are own keys of the object, see [accumulate];
    for a USD expense in a category named like a member of
    [Object.prototype] the code throws where it formats the total. *)
Definition analizarTransacciones (transacciones : list transaction) : message :=
  if length_of transacciones =? 0 then NOTHING_TO_ANALYZE
  else
    let gastos := gastos_of transacciones in
    let ingresos := ingresos_of transacciones in
    let gastosUSD := filter (in_currency "USD") gastos in
    let gastosARS := filter (in_currency "ARS") gastos in
    let totalGastosUSD := total monto_gasto gastosUSD in
    let totalGastosARS := total monto_gasto gastosARS in
    let totalIngresosUSD := total monto_ingreso (filter (in_currency "USD") ingresos) in
    let totalIngresosARS := total monto_ingreso (filter (in_currency "ARS") ingresos) in
    let balanceNetoUSD := num_sub totalIngresosUSD totalGastosUSD in
    let balanceNetoARS := num_sub totalIngresosARS totalGastosARS in
    let topCategoriasUSD := getTopCategorias gastosUSD in
    let topCategoriasARS := getTopCategorias gastosARS in
    ([Lit ("=== RESUMEN FINANCIERO ===" ++ nl);
      Lit "Total gastado en USD: "; money totalGastosUSD; Lit nl;
      Lit "Total ingresos en USD: "; money totalIngresosUSD; Lit nl;
      Lit "Balance neto en USD: "; money balanceNetoUSD; Lit (nl ++ nl);
      Lit "Total gastado en ARS: "; money totalGastosARS; Lit nl;
      Lit "Total ingresos en ARS: "; money totalIngresosARS; Lit nl;
      Lit "Balance neto en ARS: "; money balanceNetoARS; Lit (nl ++ nl);
      Lit ("=== ESTADÍSTICAS ADICIONALES ===" ++ nl);
      Lit "Número total de transacciones: ";
      Lit (decimal (length_of transacciones)); Lit nl;
      Lit "Transacciones de gasto: "; Lit (decimal (length_of gastos)); Lit nl;
      Lit "Transacciones de ingreso: "; Lit (decimal (length_of ingresos));
      Lit (nl ++ nl)]
     ++ match topCategoriasUSD with
        | [] => []
        | _ =>
            Lit ("=== TOP 5 CATEGORÍAS DE GASTO EN USD ===" ++ nl)
            :: flat_map (fun '(categoria, monto) =>
                           [Lit categoria; Lit ": "; Fixed2 monto; Lit nl])
                        topCategoriasUSD
        end
     ++ match topCategoriasARS with
        | [] => []
        | _ =>
            Lit (nl ++ "=== TOP 5 CATEGORÍAS DE GASTO EN ARS ===" ++ nl)
            :: flat_map (fun '(categoria, monto) =>
                           [Lit categoria; Lit ": "; money monto; Lit nl])
                        topCategoriasARS
        end)%list.

(** The summary is inspected as the string it is, hence the host. *)
Definition analyzeDataWithAI (h : host) (dataSummary : message) : io message :=
  let text := render h dataSummary in
  if negb (truthy (VStr text)) || startsWith text "No se encontraron"
  then ret dataSummary
  else
    response <- fetch (ChatCompletion SYSTEM_PROMPT_RESUMEN_2 dataSummary)
                      summary_model ;;
    if negb (response_ok response) then
      console_error "Error en la respuesta de la API de DeepSeek para el resumen." ;;;
      throw "Error en la respuesta de la API de DeepSeek para el resumen."
    else
      content <- response_json response ;;
      ret [Lit (trim content)].

Definition handleResumenCommand (h : host) (msg : telegram_message) : io unit :=
  let chatId := chat_id msg in
  thinkingMessage <- sendMessage chatId [Lit "🔍 Recopilando datos... Un momento."] ;;
  try_catch
    (accessToken <- refresh_session
       "Fallo al obtener token de Gasti.pro para generar el resumen." ;;
     allTransactions <- getAllTransactions accessToken ;;
     editMessageText chatId thinkingMessage
       [Lit "⚙️ Procesando y calculando totales..."] ;;;
     let dataSummary := analizarTransacciones allTransactions in
     editMessageText chatId thinkingMessage
       [Lit "🧠 Generando análisis y consejos con IA..."] ;;;
     aiSummary <- analyzeDataWithAI h dataSummary ;;
     editMessageText chatId thinkingMessage aiSummary)
    (fun error =>
       console_error "Error procesando el comando /resumen:" ;;;
       editMessageText chatId thinkingMessage SUMMARY_ERROR ;;;
       throw error).

End ResumenAggregates.

(* ================================================================== *)
(** * Vocabulary of the properties *)
(* ================================================================== *)

(** ** Token store and refresh *)

(** The token file is missing or cannot be read. *)
Definition unavailable (fs : file_state) : bool :=
  match fs with
  | FileToken _ => false
  | _ => true
  end.

(** What the token endpoint hands to the handlers. *)
Definition refreshed (sv : services) : option token_data :=
  match token_endpoint sv with
  | Accepted data =>
      Some {| accessToken := access_token data;
              newRefreshToken := refresh_token data |}
  | _ => None
  end.

(** The token the handler reads before it refreshes. *)
Definition stored_token (sv : services) (fs : file_state) : value :=
  match fs with
  | FileToken v => v
  | _ => GASTI_INITIAL_REFRESH_TOKEN sv
  end.

(** Whether the refresh block stores the token it got back. *)
Definition rotates (td : token_data) (current : value) : bool :=
  truthy (newRefreshToken td) && strict_neq (newRefreshToken td) current.

(** The tokens handed to [fs.writeFile] during a run. *)
Fixpoint token_writes (evs : list event) : list value :=
  match evs with
  | [] => []
  | WriteTokenFile v :: r => v :: token_writes r
  | _ :: r => token_writes r
  end.

(** The tokens sent to the token endpoint during a run. *)
Fixpoint token_requests (evs : list event) : list value :=
  match evs with
  | [] => []
  | TokenRequest v :: r => v :: token_requests r
  | _ :: r => token_requests r
  end.

(** ** Command flows *)

(** The flows that carry a refresh block: recording, the two revisions of
    the listing, the two revisions of the summary. *)
Inductive command :=
| Record_expense (chatId : Z) (text : string)
| List_expenses (msg : telegram_message)
| List_expenses_by_date (msg : telegram_message)
| Summarize (msg : telegram_message)
| Summarize_aggregates (h : host) (msg : telegram_message).

Definition run (c : command) : io unit :=
  match c with
  | Record_expense chatId text => expense_recorder chatId text
  | List_expenses msg => Gastos.handleGastosCommand msg
  | List_expenses_by_date msg => GastosByDate.handleGastosCommand msg
  | Summarize msg => Resumen.handleResumenCommand msg
  | Summarize_aggregates h msg => ResumenAggregates.handleResumenCommand h msg
  end.

(** The text consists of white space only. *)
Definition whitespace_only (t : string) : bool :=
  forallb is_space (list_ascii_of_string t).

(** ** Expense recorder *)

(** Number of transaction-creation calls in a trace. *)
Fixpoint submissions (evs : list event) : nat :=
  match evs with
  | [] => 0
  | CreateTransaction _ _ :: r => S (submissions r)
  | _ :: r => submissions r
  end.

(** What the parse step hands to the handler. *)
Definition parsed (sv : services) : option expense_json :=
  match expense_model sv with
  | Accepted (Some parsedContent) =>
      if truthy (error parsedContent) then None else Some parsedContent
  | _ => None
  end.

(** The payload [sendTransaction] builds for an expense, when it gets to
    build one. *)
Definition payload_of (sv : services) (e : expense_json) (cur : string)
  : transaction_payload :=
  {| p_description := description e;
     p_amount := neg (Math_abs (parseFloat (amount e)));
     p_category := category e;
     p_type := "expense";
     p_date := clock_iso sv;
     p_currency := cur;
     p_user_email := GASTI_USER_EMAIL sv;
     p_user_id := GASTI_USER_ID sv |}.

(** Whether the continuation gets as far as the creation call. *)
Definition submits (sv : services) (oe : option expense_json) : bool :=
  match oe with
  | Some e =>
      truthy (amount e) && truthy (description e)
      && match or_else (currency e) (VStr "USD") with
         | VStr _ => true
         | _ => false
         end
      && match refreshed sv with
         | Some td => truthy (accessToken td)
         | None => false
         end
  | None => false
  end.

(** The text is made of ASCII characters. *)
Definition ascii_only (s : string) : bool :=
  forallb (fun c => (nat_of_ascii c <? 128)%nat) (list_ascii_of_string s).

(** [c'] is the capital of [c]: the character 32 places before a letter of
    a to z, and [c] itself when [c] is no such letter. *)
Definition capital_of (c c' : ascii) : Prop :=
  let n := nat_of_ascii c in
  if (97 <=? n)%nat && (n <=? 122)%nat
  then nat_of_ascii c' = (n - 32)%nat
  else c' = c.

(** The field holds the number zero. *)
Definition is_zero (v : value) : bool :=
  match v with
  | VNum (S754_zero _) => true
  | _ => false
  end.

(** The field is absent, null or the empty string. *)
Definition absent_or_empty (v : value) : bool :=
  match v with
  | VUndef | VNull => true
  | VStr s => String.eqb s ""
  | _ => false
  end.

(** ** Listing *)

(** [later_first a b]: [a] may stand before [b] in a list that runs from
    the latest date to the earliest. *)
Definition later_first (a b : transaction) : Prop := tx_date b <= tx_date a.

(** The note as the chat receives it. *)
Definition more_text (n : Z) : string := "_... y " ++ decimal n ++ " más._".

(** [s] ends with [suffix]. *)
Definition EndsWith (s suffix : string) : Prop :=
  exists before, s = before ++ suffix.

(** The rows of a response, none when it carries no list. *)
Definition rows (apiResponse : option api_response) : list transaction :=
  match apiResponse with
  | Some {| transactions := Some txs |} => txs
  | _ => []
  end.

Fixpoint last_char (s : string) : option ascii :=
  match s with
  | EmptyString => None
  | String c EmptyString => Some c
  | String _ r => last_char r
  end.

(** ** Summary *)

(** The amount of a row, when it is a number. *)
Definition amount_number (tx : transaction) : number :=
  match tx_amount tx with
  | VNum x => x
  | _ => NaN
  end.

(** Number of calls to the completion API in a trace. *)
Fixpoint completions (evs : list event) : nat :=
  match evs with
  | [] => 0
  | ChatCompletion _ _ :: r => S (completions r)
  | _ :: r => completions r
  end.

(** The body of the period RPC lists no row. *)
Definition no_rows (data : api_response) : bool :=
  match transactions data with
  | Some (_ :: _) => false
  | _ => true
  end.

(* ================================================================== *)
(** * Sample inputs *)
(* ================================================================== *)

Definition chat_message (chatId : Z) (t : string) : telegram_message :=
  {| chat_id := chatId; text := Some t |}.

Definition listing (txs : list transaction) : option api_response :=
  Some {| transactions := Some txs; summary := None |}.

Definition empty_listing : option api_response := listing [].

(** A configured process and its surroundings: whether the disk takes
    writes, the refresh token the backend returns with the access token,
    and the answers of the expense model and of the RPC. *)
Definition setup (writable : bool) (returned_refresh_token : value)
                 (model : reply (option expense_json))
                 (rpc : reply (option api_response)) : services :=
  {| GASTI_INITIAL_REFRESH_TOKEN := VStr "seed-token";
     GASTI_USER_EMAIL := VStr "user@example.com";
     GASTI_USER_ID := VStr "user-1";
     clock_iso := "2025-07-23T12:00:00.000Z";
     fs_write_ok := writable;
     token_endpoint :=
       Accepted {| access_token := VStr "access-1";
                   refresh_token := returned_refresh_token |};
     expense_model := model;
     summary_model := Unreachable;
     transactions_endpoint := Accepted tt;
     rpc_endpoint := rpc;
     telegram_message_id := 100 |}.

(** "Cena con amigos 45.50 usd", as the model reads it. *)
Definition cena_con_amigos : expense_json :=
  {| error := VUndef;
     amount := VNum (parseFloat_string "45.50");
     description := VStr "Cena con amigos";
     currency := VStr "usd";
     category := VStr "🍽️ Comida" |}.

(** The model answers with an amount of zero. *)
Definition free_lunch : expense_json :=
  {| error := VUndef;
     amount := VNum pos_zero;
     description := VStr "Almuerzo";
     currency := VStr "ARS";
     category := VStr "🍽️ Comida" |}.

(** A backend that rotates the refresh token on every exchange. *)
Definition rotating_backend : services :=
  setup true (VStr "rotated-1") Unreachable (Accepted empty_listing).

(** The same, the disk being read-only and the RPC out of reach. *)
Definition read_only_disk : services :=
  setup false (VStr "rotated-1") Unreachable Unreachable.

(** A backend that answers the exchange with an empty refresh token. *)
Definition blank_rotation : services :=
  setup true (VStr "") Unreachable (Accepted empty_listing).

(** All services up, the model reading the dinner. *)
Definition dinner : services :=
  setup true (VStr "rotated-1") (Accepted (Some cena_con_amigos))
        (Accepted empty_listing).

(** The dinner again, on a disk that cannot be written. *)
Definition read_only_dinner : services :=
  setup false (VStr "rotated-1") (Accepted (Some cena_con_amigos))
        (Accepted empty_listing).

(** "Compré zapatillas nuevas por 50000 pesos", the model giving the
    currency in lower case. *)
Definition zapatillas : expense_json :=
  {| error := VUndef;
     amount := VNum (of_Z 50000);
     description := VStr "Zapatillas nuevas";
     currency := VStr "ars";
     category := VStr "👕 Ropa" |}.

(** The model answers with the amount as text, and the text is "0". *)
Definition free_lunch_as_text : expense_json :=
  {| error := VUndef;
     amount := VStr "0";
     description := VStr "Almuerzo";
     currency := VStr "ARS";
     category := VStr "🍽️ Comida" |}.

Definition free_lunch_as_text_services : services :=
  setup true (VStr "rotated-1") (Accepted (Some free_lunch_as_text))
        (Accepted empty_listing).

Definition free_lunch_services : services :=
  setup true (VStr "rotated-1") (Accepted (Some free_lunch))
        (Accepted empty_listing).

Definition row (date : Z) (what : string) (cost : Z) : transaction :=
  {| tx_date := date;
     tx_description := what;
     tx_amount := VNum (of_Z cost);
     tx_currency := "ARS";
     tx_category := Some "🛒 Supermercado";
     tx_type := Some "expense" |}.

(** 1 July 2025 and 23 July 2025, as instants. *)
Definition first_of_july : transaction := row 1751328000000 "Yerba" (-3500).
Definition late_july : transaction := row 1753228800000 "Asado" (-42000).

(** A row whose amount came as text with a decimal comma. *)
Definition comma_row : transaction :=
  {| tx_date := 1753228800000;
     tx_description := "Asado";
     tx_amount := VStr "-12,50";
     tx_currency := "ARS";
     tx_category := Some "🍽️ Comida";
     tx_type := None |}.

(** A host that prints every number and every date as a question mark. *)
Definition terse_host : host :=
  {| numberToString := fun _ => "?";
     toLocaleString := fun _ _ _ => "?";
     toFixed2 := fun _ => "?";
     toLocaleDay := fun _ => "?";
     toIsoDay := fun _ => "?" |}.

(* ================================================================== *)
(** * Further modules of the repository *)
(* ================================================================== *)

(** ** src/unnamed/part_000: the listing command that keeps its errors *)
Module GastosQuiet.

Definition formatApiResponse (apiResponse : option api_response) : message :=
  format_with (fun txs => txs) apiResponse.

(** Every failure ends in [return null]; so does a body that is [null]. *)
Definition getMonthlyExpenses (accessToken : value) : io (option api_response) :=
  try_catch
    (response <- fetch (Rpc "get_monthly_summary" accessToken) rpc_endpoint ;;
     if negb (response_ok response) then
       console_error "Error al llamar a la RPC de Gasti.pro." ;;; ret None
     else
       response_json response)
    (fun _ =>
       console_error "Error en la petición RPC para obtener gastos:" ;;; ret None).

Definition LISTING_ERROR : message :=
  [Lit "🔥 ¡Ups! Hubo un error y no pude obtener tus gastos. Revisa los logs del servidor."].

Definition handleGastosCommand (msg : telegram_message) : io unit :=
  let chatId := chat_id msg in
  thinkingMessage <- sendMessage chatId [Lit "Buscando tus gastos en Gasti.pro..."] ;;
  try_catch
    (accessToken <- refresh_session
       "Fallo al obtener token de Gasti.pro para ver los gastos." ;;
     apiResponse <- getMonthlyExpenses accessToken ;;
     match apiResponse with
     | None =>
         throw "La respuesta de la API de gastos estaba vacía o hubo un error."
     | Some _ =>
         editMessageText chatId thinkingMessage (formatApiResponse apiResponse)
     end)
    (fun _ =>
       console_error "Error procesando el comando /gastos:" ;;;
       editMessageText chatId thinkingMessage LISTING_ERROR).

End GastosQuiet.

(** ** src/unnamed/part_001, second module: results of a query *)
Module InfoQuery.

(** The fields of the query object that [formatResults] reads. *)
Record query_params := {
  date_from : value;
  date_to : value;
  q_type : value;
  q_category : option string           (* [None]: absent or null *)
}.

(** Parts of the result message: those of the other messages, the period
    dates and the balances. *)
Inductive result_piece :=
| Plain (p : piece)
| PeriodDate (d : value)   (* new Date(d).toLocaleDateString('es-AR') *)
| Balance (locale code : string) (x : number).
                           (* x.toLocaleString(locale, currency style) *)

(** [a > 0] for an arbitrary left operand. *)
Definition gt_zero (v : value) : bool := num_lt pos_zero (toNumber v).

(** [x !== 0] on numbers *)
Definition num_neq_zero (x : number) : bool := negb (num_eq x pos_zero).

Section Results.

(** [new RegExp(source, 'i')]: [None] when the source is no regular
    expression, otherwise its [test]. *)
Variable RegExp_i : string -> option (string -> bool).

(** [queryParams.category] when it is set. *)
Definition wanted_category (queryParams : query_params) : option string :=
  match q_category queryParams with
  | Some c => if String.eqb c "" then None else Some c
  | None => None
  end.

(** The two filters, by type and then by category. *)
Definition filtered (transactions : list transaction) (queryParams : query_params)
  : outcome (list transaction) :=
  let by_type :=
    if strict_eq (q_type queryParams) (VStr "expense")
    then filter (fun t => lt_zero (tx_amount t)) transactions
    else if strict_eq (q_type queryParams) (VStr "income")
    then filter (fun t => gt_zero (tx_amount t)) transactions
    else transactions in
  match wanted_category queryParams with
  | None => Return by_type
  | Some c =>
      match RegExp_i c with
      | None => Throw "SyntaxError"
      | Some test =>
          Return (filter (fun t =>
                            match tx_category t with
                            | Some tc => negb (String.eqb tc "") && test tc
                            | None => false
                            end) by_type)
      end
  end.

Definition results_heading (queryParams : query_params) : list result_piece :=
  ([Plain (Lit ("🔎 *Resultados para tu consulta*" ++ nl ++ nl));
    Plain (Lit "*Período:* "); PeriodDate (date_from queryParams);
    Plain (Lit " al "); PeriodDate (date_to queryParams); Plain (Lit nl);
    Plain (Lit "*Tipo:* ");
    Plain (interp (or_else (q_type queryParams) (VStr "Todos"))); Plain (Lit nl)]
   ++ match wanted_category queryParams with
      | Some c => [Plain (Lit "*Categoría:* "); Plain (Lit c); Plain (Lit nl)]
      | None => []
      end
   ++ [Plain (Lit nl)])%list.

Definition result_entry (tx : transaction) : list result_piece :=
  let amount := parseFloat (tx_amount tx) in
  [Plain (Lit (if num_lt amount pos_zero then "🔻" else "🔼"));
   Plain (Lit " *"); Plain (LocaleDay (tx_date tx)); Plain (Lit "* - ");
   Plain (Lit (tx_description tx)); Plain (Lit nl);
   Plain (Lit "   └ ");
   Plain (Lit (category_or (tx_category tx) "Sin categoría")); Plain (Lit ": *");
   Plain (LocaleNum "es-AR" false (Math_abs amount)); Plain (Lit " ");
   Plain (Lit (tx_currency tx)); Plain (Lit ("*" ++ nl ++ nl))].

(** The running [total += amount] over the rows of one currency. *)
Definition balance (cur : string) (l : list transaction) : number :=
  fold_left (fun acc tx =>
               if String.eqb (tx_currency tx) cur
               then num_add acc (parseFloat (tx_amount tx)) else acc)
            l pos_zero.

Definition NO_MATCH : list result_piece :=
  [Plain (Lit "No se encontraron transacciones que coincidan con tu búsqueda.")].

Definition formatResults (transactions : list transaction)
                         (queryParams : query_params)
  : outcome (list result_piece) :=
  match filtered transactions queryParams with
  | Throw err => Throw err
  | Return [] => Return (results_heading queryParams ++ NO_MATCH)%list
  | Return rows =>
      let totalARS := balance "ARS" rows in
      let totalUSD := balance "USD" rows in
      Return (results_heading queryParams
              ++ flat_map result_entry rows
              ++ [Plain (Lit ("*Resumen del Período:*" ++ nl))]
              ++ (if num_neq_zero totalUSD
                  then [Plain (Lit "*Balance en USD:* ");
                        Balance "en-US" "USD" totalUSD; Plain (Lit nl)]
                  else [])
              ++ (if num_neq_zero totalARS
                  then [Plain (Lit "*Balance en ARS:* ");
                        Balance "es-AR" "ARS" totalARS; Plain (Lit nl)]
                  else [])
              ++ [Plain (Lit "*Total de transacciones:* ");
                  Plain (Lit (decimal (length_of rows)))])%list
  end.

End Results.

End InfoQuery.

(* ================================================================== *)
(** * Vocabulary of the further properties *)
(* ================================================================== *)

(** The texts sent to the chat as new messages during a run. *)
Fixpoint chat_messages (evs : list event) : list message :=
  match evs with
  | [] => []
  | SendMessage _ m :: r => m :: chat_messages r
  | _ :: r => chat_messages r
  end.

(** The texts put into an already sent message during a run. *)
Fixpoint edits (evs : list event) : list message :=
  match evs with
  | [] => []
  | EditMessageText _ _ m :: r => m :: edits r
  | _ :: r => edits r
  end.

(** The words written to the error console during a run. *)
Fixpoint console_errors (evs : list event) : list string :=
  match evs with
  | [] => []
  | ConsoleError what :: r => what :: console_errors r
  | _ :: r => console_errors r
  end.

(** The response carries an ok status. *)
Definition answered_ok {A} (r : reply A) : bool :=
  match r with
  | Accepted _ | Malformed => true
  | _ => false
  end.

(** The parse step gave an expense with an amount and a description. *)
Definition understood (sv : services) : option expense_json :=
  match parsed sv with
  | Some e => if truthy (amount e) && truthy (description e) then Some e else None
  | None => None
  end.

(** The refresh block gets an access token. *)
Definition session (sv : services) : option value :=
  match refreshed sv with
  | Some td => if truthy (accessToken td) then Some (accessToken td) else None
  | None => None
  end.

(** The rows of a list that carry a given instant. *)
Definition at_instant (d : Z) (txs : list transaction) : list transaction :=
  filter (fun tx => tx_date tx =? d) txs.

(** What the listing command obtains: the body of the RPC, when the refresh
    gave an access token and the RPC answered with a body that decodes. *)
Definition listed (sv : services) : option (option api_response) :=
  match session sv, rpc_endpoint sv with
  | Some _, Accepted body => Some body
  | _, _ => None
  end.

(** The model's answer carries an [error] field that is set. *)
Definition flagged (sv : services) : bool :=
  match expense_model sv with
  | Accepted (Some parsedContent) => truthy (error parsedContent)
  | _ => false
  end.

(** The calls to the completion API in a trace: prompt and user text. *)
Fixpoint model_calls (evs : list event) : list (prompt * message) :=
  match evs with
  | [] => []
  | ChatCompletion p m :: r => (p, m) :: model_calls r
  | _ :: r => model_calls r
  end.

(** The rows the period RPC hands to a command, none when it fails. *)
Definition fetched (sv : services) : list transaction :=
  match listed sv with
  | Some body => rows body
  | None => []
  end.

(** The object [categorias] after the [forEach], from any start. *)
Definition tally (listaGastos : list transaction) (start : list (string * number)) :=
  fold_left (fun acc gasto =>
               ResumenAggregates.accumulate (category_or (tx_category gasto) "Sin Categoría")
                          (ResumenAggregates.monto_gasto gasto) acc)
            listaGastos start.

(** The names every object inherits from [Object.prototype]. *)
Definition Object_prototype_members : list string :=
  ["constructor"; "hasOwnProperty"; "isPrototypeOf"; "propertyIsEnumerable";
   "toLocaleString"; "toString"; "valueOf"; "__proto__";
   "__defineGetter__"; "__defineSetter__"; "__lookupGetter__"; "__lookupSetter__"].

(** Read on a fresh object, the key gives [undefined]. *)
Definition own_key (k : string) : bool :=
  negb (existsb (String.eqb k) Object_prototype_members).

(** No row has a category named like an inherited member. *)
Definition own_categories (txs : list transaction) : Prop :=
  Forall (fun t => own_key (category_or (tx_category t) "Sin Categoría") = true) txs.

(** The narrative the model gives, when it answers. *)
Definition narrative (sv : services) : option message :=
  match summary_model sv with
  | Accepted content => Some [Lit (trim content)]
  | _ => None
  end.

(** What the summary command ends with: the fixed text when the period has
    no row, the narrative when the model gives one; [None] when the command
    fails on the way. *)
Definition summary_verdict (nothing : message) (sv : services) : option message :=
  match listed sv with
  | Some (Some data) => if no_rows data then Some nothing else narrative sv
  | _ => None
  end.

(** The numbers a message prints, in order. *)
Fixpoint amounts_of (m : message) : list number :=
  match m with
  | [] => []
  | Num x :: r | LocaleNum _ _ x :: r | Fixed2 x :: r => x :: amounts_of r
  | _ :: r => amounts_of r
  end.

(* ================================================================== *)
(** * Properties *)
(* ================================================================== *)

(** Unfolding a handler down to the primitives of the monad. *)
Ltac io_unfold :=
  unfold on_message, on_error, expense_recorder, record_parsed, refresh_session,
    sendTransaction, parseExpenseWithAI, getNewAccessToken,
    readRefreshToken, writeRefreshToken, fetch, response_json, response_ok,
    toUpperCase_of, sendMessage, editMessageText, console_error,
    fs_read_token, fs_write_token, try_catch, bind, ret, throw, emit, ask,
    result_of, file_of, events_of in *.

(** ** Sequencing, seen from the trace *)

Lemma events_bind {A B} (c : io A) (k : A -> io B) sv fs :
  events_of (bind c k sv fs)
  = (events_of (c sv fs)
     ++ match result_of (c sv fs) with
        | Return a => events_of (k a sv (file_of (c sv fs)))
        | Throw _ => []
        end)%list.
Proof.
  unfold bind, events_of, result_of, file_of.
  destruct (c sv fs) as [[[a|err] fs1] ev1]; simpl.
  - destruct (k a sv fs1) as [[r fs2] ev2]. reflexivity.
  - rewrite app_nil_r. reflexivity.
Qed.

Lemma result_bind {A B} (c : io A) (k : A -> io B) sv fs :
  result_of (bind c k sv fs)
  = match result_of (c sv fs) with
    | Return a => result_of (k a sv (file_of (c sv fs)))
    | Throw err => Throw err
    end.
Proof.
  unfold bind, events_of, result_of, file_of.
  destruct (c sv fs) as [[[a|err] fs1] ev1]; simpl; [|reflexivity].
  destruct (k a sv fs1) as [[r fs2] ev2]. reflexivity.
Qed.

Lemma file_bind {A B} (c : io A) (k : A -> io B) sv fs :
  file_of (bind c k sv fs)
  = match result_of (c sv fs) with
    | Return a => file_of (k a sv (file_of (c sv fs)))
    | Throw _ => file_of (c sv fs)
    end.
Proof.
  unfold bind, events_of, result_of, file_of.
  destruct (c sv fs) as [[[a|err] fs1] ev1]; simpl; [|reflexivity].
  destruct (k a sv fs1) as [[r fs2] ev2]. reflexivity.
Qed.

Lemma events_try_catch {A} (body : io A) (handler : string -> io A) sv fs :
  events_of (try_catch body handler sv fs)
  = (events_of (body sv fs)
     ++ match result_of (body sv fs) with
        | Return _ => []
        | Throw err => events_of (handler err sv (file_of (body sv fs)))
        end)%list.
Proof.
  unfold try_catch, events_of, result_of, file_of.
  destruct (body sv fs) as [[[a|err] fs1] ev1]; simpl.
  - rewrite app_nil_r. reflexivity.
  - destruct (handler err sv fs1) as [[r fs2] ev2]. reflexivity.
Qed.

Lemma fetch_events {A} call (endpoint : services -> reply A) sv fs :
  events_of (fetch call endpoint sv fs) = [call].
Proof.
  unfold fetch, bind, emit, ask, ret, throw, events_of.
  destruct (endpoint sv); reflexivity.
Qed.

Lemma sendMessage_run chatId m sv fs :
  sendMessage chatId m sv fs
  = (Return (telegram_message_id sv), fs, [SendMessage chatId m]).
Proof. reflexivity. Qed.

Lemma editMessageText_run chatId mid m sv fs :
  editMessageText chatId mid m sv fs
  = (Return tt, fs, [EditMessageText chatId mid m]).
Proof. reflexivity. Qed.

Ltac io_simpl := cbn [result_of file_of events_of fst snd app] in *.

(** ** Token store *)

Lemma read_degrades_to_seed sv fs :
  unavailable fs = true ->
  readRefreshToken sv fs = (Return (GASTI_INITIAL_REFRESH_TOKEN sv), fs, []).
Proof.
  destruct fs; simpl; intros H; try discriminate; reflexivity.
Qed.

Lemma read_returns_stored sv v :
  readRefreshToken sv (FileToken v) = (Return v, FileToken v, []).
Proof. reflexivity. Qed.

Lemma write_failure_is_logged sv fs tok :
  fs_write_ok sv = false ->
  writeRefreshToken tok sv fs =
  (Return tt, fs,
   [WriteTokenFile tok;
    ConsoleError "Error fatal: No se pudo escribir el nuevo refresh token en el archivo:"]).
Proof.
  intros H. unfold writeRefreshToken, try_catch, fs_write_token, console_error, emit.
  rewrite H. reflexivity.
Qed.

Lemma write_success_stores sv fs tok :
  fs_write_ok sv = true ->
  writeRefreshToken tok sv fs =
  (Return tt, FileToken (json_roundtrip tok), [WriteTokenFile tok]).
Proof.
  intros H. unfold writeRefreshToken, try_catch, fs_write_token.
  rewrite H. reflexivity.
Qed.

Lemma getNewAccessToken_result tok sv fs :
  result_of (getNewAccessToken tok sv fs) = Return (refreshed sv)
  /\ file_of (getNewAccessToken tok sv fs) = fs.
Proof.
  unfold refreshed. io_unfold. destruct (token_endpoint sv); simpl; auto.
Qed.

Lemma token_writes_app a b :
  token_writes (a ++ b) = (token_writes a ++ token_writes b)%list.
Proof.
  induction a as [|e a IH]; simpl; [reflexivity|].
  destruct e; simpl; rewrite IH; reflexivity.
Qed.

Lemma token_requests_app a b :
  token_requests (a ++ b) = (token_requests a ++ token_requests b)%list.
Proof.
  induction a as [|e a IH]; simpl; [reflexivity|].
  destruct e; simpl; rewrite IH; reflexivity.
Qed.

(** The refresh block, in closed form. *)
Lemma refresh_session_spec failure sv fs :
  let cur := stored_token sv fs in
  let r := refresh_session failure sv fs in
  token_requests (events_of r) = [cur]
  /\ match refreshed sv with
     | Some td =>
         if truthy (accessToken td) then
           result_of r = Return (accessToken td)
           /\ token_writes (events_of r)
              = (if rotates td cur then [newRefreshToken td] else [])
           /\ file_of r
              = (if rotates td cur && fs_write_ok sv
                 then FileToken (json_roundtrip (newRefreshToken td)) else fs)
         else result_of r = Throw failure
              /\ token_writes (events_of r) = [] /\ file_of r = fs
     | None => result_of r = Throw failure
               /\ token_writes (events_of r) = [] /\ file_of r = fs
     end.
Proof.
  unfold refreshed, rotates, stored_token. io_unfold.
  destruct fs; simpl;
    (destruct (token_endpoint sv) as [| | |data]; simpl; [auto | auto | auto |]);
    (destruct (truthy (access_token data)); simpl; [|auto]);
    (match goal with
     | |- context [truthy (refresh_token data) && ?b] =>
         destruct (truthy (refresh_token data) && b); simpl
     end; [|auto]);
    destruct (fs_write_ok sv); simpl; auto.
Qed.

(** ** The command flows *)

Ltac io_unfold_flow :=
  unfold run, expense_recorder, record_parsed,
    Gastos.handleGastosCommand, Gastos.getMonthlyExpenses,
    GastosByDate.handleGastosCommand, GastosByDate.getMonthlyExpenses,
    Resumen.handleResumenCommand, Resumen.getAllTransactions,
    Resumen.analyzeExpensesWithAI,
    ResumenAggregates.handleResumenCommand, ResumenAggregates.getAllTransactions,
    ResumenAggregates.analyzeDataWithAI,
    sendTransaction, parseExpenseWithAI, fetch, response_json, response_ok,
    toUpperCase_of, sendMessage, editMessageText, console_error,
    try_catch, bind, ret, throw, emit, ask, result_of, file_of, events_of in *.

Ltac tokens_done :=
  simpl; rewrite ?token_requests_app, ?token_writes_app; simpl;
  rewrite ?app_nil_r; auto.

(** Name the outcome of the refresh block and go on with what follows it. *)
Ltac at_refresh :=
  right;
  match goal with
  | |- context [refresh_session ?f ?sv ?fs] =>
      exists f; destruct (refresh_session f sv fs) as [[[? | ?] ?] ?];
      [ | solve [tokens_done] ]
  end.

(** A flow either stops before its refresh block, leaving the token file
    alone, or runs the block once; nothing else in a flow touches the file. *)
Lemma flow_token_trace c sv fs :
  (token_requests (events_of (run c sv fs)) = []
   /\ token_writes (events_of (run c sv fs)) = []
   /\ file_of (run c sv fs) = fs)
  \/ exists failure,
       token_requests (events_of (run c sv fs))
       = token_requests (events_of (refresh_session failure sv fs))
       /\ token_writes (events_of (run c sv fs))
          = token_writes (events_of (refresh_session failure sv fs))
       /\ file_of (run c sv fs) = file_of (refresh_session failure sv fs).
Proof.
  destruct c; io_unfold_flow.
  - (* recording: the block is reached only with a usable expense *)
    destruct (expense_model sv) as [| | |[e|]]; simpl; auto.
    destruct (truthy (error e)); simpl; auto.
    destruct (negb (truthy (amount e)) || negb (truthy (description e))); simpl; auto.
    destruct (or_else (currency e) (VStr "USD")); simpl; auto.
    at_refresh.
    destruct (transactions_endpoint sv); tokens_done.
  - at_refresh. destruct (rpc_endpoint sv); tokens_done.
  - at_refresh. destruct (rpc_endpoint sv); tokens_done.
  - at_refresh.
    destruct (rpc_endpoint sv) as [| | |[data|]]; tokens_done.
    destruct (length_of _ =? 0); tokens_done.
    destruct (summary_model sv); tokens_done.
  - at_refresh.
    destruct (rpc_endpoint sv) as [| | |[data|]]; tokens_done.
    match goal with
    | |- context [if ?b then _ else _] => destruct b
    end; tokens_done.
    destruct (summary_model sv); tokens_done.
Qed.

Lemma readRefreshToken_result sv fs :
  readRefreshToken sv fs = (Return (stored_token sv fs), fs, []).
Proof. destruct fs; reflexivity. Qed.

(** ** C1: persistence of a rotated refresh token *)

(** C1, as amended.  In every command flow that reaches a successful token
    refresh, the returned refresh token is handed to the token store exactly
    when it is set (truthy: present and non-empty) and differs from the token
    read before the refresh, and at most that one write is made.  When the
    write succeeds, a following read returns what the file then holds of the
    new token, which is the token itself when it is a string.  When the
    returned token equals the one read, or is absent or empty, nothing is
    written and the file is unchanged. *)
Theorem rotated_token_is_persisted :
  forall c sv fs cur td,
    result_of (readRefreshToken sv fs) = Return cur ->
    token_requests (events_of (run c sv fs)) <> [] ->
    refreshed sv = Some td ->
    truthy (accessToken td) = true ->
    let r := run c sv fs in
    let new := newRefreshToken td in
    (token_writes (events_of r) = [new]
     <-> truthy new = true /\ strict_neq new cur = true)
    /\ (token_writes (events_of r) = [new] \/ token_writes (events_of r) = [])
    /\ (token_writes (events_of r) = [new] -> fs_write_ok sv = true ->
        readRefreshToken sv (file_of r)
        = (Return (json_roundtrip new), file_of r, [])
        /\ forall s, new = VStr s -> json_roundtrip new = new)
    /\ (strict_eq new cur = true \/ truthy new = false ->
        token_writes (events_of r) = [] /\ file_of r = fs).
Proof.
  intros c sv fs cur td Hcur Hreq Htd Hacc r new.
  rewrite readRefreshToken_result in Hcur. simpl in Hcur.
  injection Hcur as Hcur.
  assert (exists failure,
             token_writes (events_of r)
             = token_writes (events_of (refresh_session failure sv fs))
             /\ file_of r = file_of (refresh_session failure sv fs))
    as [failure [Hw Hf]].
  { destruct (flow_token_trace c sv fs) as [[H _]|[failure [_ [H1 H2]]]].
    - contradiction.
    - exists failure. auto. }
  pose proof (refresh_session_spec failure sv fs) as [_ S].
  cbv zeta in S. rewrite Htd, Hacc, Hcur in S.
  destruct S as [_ [Sw Sf]]. rewrite <- Hw in Sw. rewrite <- Hf in Sf.
  unfold rotates in *. fold new in Sw, Sf.
  unfold strict_neq in *.
  destruct (truthy new) eqn:Ht; destruct (strict_eq new cur) eqn:He;
    simpl in *; rewrite Sw; rewrite ?Sf.
  all: repeat split; intros; auto; try discriminate;
    repeat match goal with
           | H : _ /\ _ |- _ => destruct H
           | H : _ \/ _ |- _ => destruct H
           end; try discriminate.
  - match goal with H : fs_write_ok sv = true |- _ => rewrite H end. reflexivity.
  - match goal with H : new = VStr _ |- _ => rewrite H end. reflexivity.
Qed.

Lemma rotated_token_is_persisted_witness :
  let r := run (List_expenses (chat_message 7 "/gastos")) rotating_backend FileAbsent in
  token_writes (events_of r) = [VStr "rotated-1"]
  /\ readRefreshToken rotating_backend (file_of r)
     = (Return (VStr "rotated-1"), file_of r, []).
Proof.
  pose proof (rotated_token_is_persisted
                (List_expenses (chat_message 7 "/gastos"))
                rotating_backend FileAbsent (VStr "seed-token")
                {| accessToken := VStr "access-1"; newRefreshToken := VStr "rotated-1" |}
                eq_refl) as T.
  cbv zeta in T.
  destruct T as [W [_ [R _]]]; try reflexivity.
  - vm_compute. discriminate.
  - cbv zeta. split.
    + apply W. split; reflexivity.
    + apply R; [apply W; split; reflexivity | reflexivity].
Defined.

(** The returned token differs from the one read, the refresh succeeded, and
    yet nothing is written: "written if and only if it differs" fails. *)
Lemma differing_token_not_written :
  let r := run (List_expenses (chat_message 7 "/gastos")) blank_rotation FileAbsent in
  let cur := VStr "seed-token" in
  let new := VStr "" in
  result_of (readRefreshToken blank_rotation FileAbsent) = Return cur
  /\ token_requests (events_of r) = [cur]
  /\ refreshed blank_rotation
     = Some {| accessToken := VStr "access-1"; newRefreshToken := new |}
  /\ strict_neq new cur = true
  /\ token_writes (events_of r) = []
  /\ ~ (token_writes (events_of r) = [new] <-> strict_neq new cur = true).
Proof.
  cbv zeta. repeat split; try reflexivity.
  intros [_ H]. specialize (H eq_refl). vm_compute in H. discriminate.
Qed.

(** ** C6: messages without text *)

Lemma startsWith_slash t p :
  startsWith t (String "/" p) = true -> whitespace_only t = false.
Proof.
  unfold startsWith, whitespace_only.
  destruct t as [|c t]; [discriminate|].
  cbn [String.prefix list_ascii_of_string forallb].
  destruct (Ascii.ascii_dec "/" c) as [<-|]; [reflexivity | discriminate].
Qed.

(** Non-empty text made of white space alone is no command: it is handed to
    the expense recorder. *)
Lemma whitespace_text_is_recorded g chatId t sv fs :
  t <> "" ->
  whitespace_only t = true ->
  on_message g (chat_message chatId t) sv fs
  = try_catch (expense_recorder chatId t) (on_error chatId) sv fs.
Proof.
  intros Hne Hw. unfold on_message, chat_message. cbn [text chat_id].
  assert (truthy (VStr t) = true) as ->.
  { simpl. destruct (String.eqb_spec t ""); [contradiction | reflexivity]. }
  cbn [negb].
  destruct (startsWith t "/start") eqn:E1.
  { apply startsWith_slash in E1. congruence. }
  destruct (startsWith t "/gastos") eqn:E2.
  { apply startsWith_slash in E2. congruence. }
  reflexivity.
Qed.

(** C6, as amended.  A message that carries no text, or whose text is the
    empty string, is dropped by the dispatcher: the handler returns at once,
    nothing is sent to the chat, no service is called and the token file is
    not touched.  Text that consists of white space only is not empty: the
    dispatcher runs the expense recorder on it, as on any other text that is
    no command. *)
Theorem empty_text_is_ignored :
  forall g chatId sv fs,
    on_message g {| chat_id := chatId; text := None |} sv fs = (Return tt, fs, [])
    /\ on_message g (chat_message chatId "") sv fs = (Return tt, fs, [])
    /\ (forall t,
           t <> "" -> whitespace_only t = true ->
           on_message g (chat_message chatId t) sv fs
           = try_catch (expense_recorder chatId t) (on_error chatId) sv fs).
Proof.
  intros. split; [reflexivity|]. split; [reflexivity|].
  intros t Hne Hw. apply whitespace_text_is_recorded; assumption.
Qed.

Lemma empty_text_is_ignored_witness :
  on_message Gastos.handleGastosCommand (chat_message 7 "") rotating_backend FileAbsent
  = (Return tt, FileAbsent, [])
  /\ on_message Gastos.handleGastosCommand (chat_message 7 " ")
                rotating_backend FileAbsent
     = try_catch (expense_recorder 7 " ") (on_error 7) rotating_backend FileAbsent.
Proof.
  destruct (empty_text_is_ignored Gastos.handleGastosCommand 7
                                  rotating_backend FileAbsent) as [_ [E W]].
  split; [exact E|]. apply W; [discriminate | reflexivity].
Defined.

(** Text made of white space alone is text: a single blank gets the
    "analysing" reply and is sent to the expense model. *)
Lemma blank_text_is_processed :
  let evs := events_of (on_message Gastos.handleGastosCommand
                                   (chat_message 7 " ") rotating_backend FileAbsent) in
  whitespace_only " " = true
  /\ In (SendMessage 7 THINKING) evs
  /\ In (ChatCompletion SYSTEM_PROMPT [Lit " "]) evs.
Proof.
  cbv zeta. split; [reflexivity|]. vm_compute. split; [left | right; left]; reflexivity.
Qed.

(** ** The expense recorder *)

Lemma submissions_app a b :
  submissions (a ++ b) = (submissions a + submissions b)%nat.
Proof.
  induction a as [|e a IH]; simpl; [reflexivity|].
  destruct e; simpl; rewrite IH; reflexivity.
Qed.

Lemma submissions_none evs :
  submissions evs = 0%nat -> forall b p, ~ In (CreateTransaction b p) evs.
Proof.
  induction evs as [|e evs IH]; simpl; intros H b p HI; [contradiction|].
  destruct HI as [E|I].
  - subst e. discriminate.
  - destruct e; try discriminate; eapply IH; eauto.
Qed.

Lemma parseExpenseWithAI_result t sv fs :
  result_of (parseExpenseWithAI t sv fs) = Return (parsed sv)
  /\ file_of (parseExpenseWithAI t sv fs) = fs
  /\ submissions (events_of (parseExpenseWithAI t sv fs)) = 0%nat.
Proof.
  unfold parsed. io_unfold.
  destruct (expense_model sv) as [| | |[e|]]; simpl; auto.
  destruct (truthy (error e)); simpl; auto.
Qed.

Lemma refresh_session_submits_nothing failure sv fs :
  submissions (events_of (refresh_session failure sv fs)) = 0%nat.
Proof.
  io_unfold.
  destruct fs; simpl;
    (destruct (token_endpoint sv) as [| | |data]; simpl; auto);
    (destruct (truthy (access_token data)); simpl; auto);
    (match goal with
     | |- context [truthy (refresh_token data) && ?b] =>
         destruct (truthy (refresh_token data) && b); simpl; auto
     end);
    destruct (fs_write_ok sv); simpl; auto.
Qed.

Lemma refresh_session_result failure sv fs :
  result_of (refresh_session failure sv fs)
  = match refreshed sv with
    | Some td => if truthy (accessToken td) then Return (accessToken td)
                 else Throw failure
    | None => Throw failure
    end.
Proof.
  pose proof (refresh_session_spec failure sv fs) as [_ S]. cbv zeta in S.
  destruct (refreshed sv) as [td|]; [destruct (truthy (accessToken td))|];
    destruct S as [S _]; exact S.
Qed.

(** [sendTransaction] makes one call when the currency can be upper-cased
    and none otherwise. *)
Lemma sendTransaction_events tok e sv fs :
  match or_else (currency e) (VStr "USD") with
  | VStr s =>
      submissions (events_of (sendTransaction tok e sv fs)) = 1%nat
      /\ forall b p,
           In (CreateTransaction b p) (events_of (sendTransaction tok e sv fs)) ->
           b = tok /\ p = payload_of sv e (toUpperCase s)
  | _ => events_of (sendTransaction tok e sv fs) = []
  end.
Proof.
  io_unfold. unfold payload_of.
  destruct (or_else (currency e) (VStr "USD")); simpl; auto.
  destruct (transactions_endpoint sv); simpl; split; auto;
    intros b p H;
    repeat match goal with
           | H : _ \/ _ |- _ => destruct H
           | H : False |- _ => contradiction
           | H : CreateTransaction _ _ = CreateTransaction _ _ |- _ =>
               injection H as <- <-
           | H : _ = CreateTransaction _ _ |- _ => discriminate H
           end; auto.
Qed.

Lemma negated_abs_is_negative x :
  truthy (VNum x) = true -> num_lt (neg (Math_abs x)) pos_zero = true.
Proof.
  destruct x as [s|s| |s m e]; simpl; intros H; try discriminate; reflexivity.
Qed.

Lemma toUpperCase_length s : String.length (toUpperCase s) = String.length s.
Proof. induction s as [|c r IH]; simpl; [|rewrite IH]; reflexivity. Qed.

Lemma upper_ascii_capital c : capital_of c (upper_ascii c).
Proof.
  unfold capital_of, upper_ascii. cbv zeta.
  destruct ((97 <=? nat_of_ascii c)%nat && (nat_of_ascii c <=? 122)%nat) eqn:E;
    [|reflexivity].
  apply nat_ascii_embedding. apply andb_prop in E. destruct E as [_ E].
  apply Nat.leb_le in E. lia.
Qed.

Lemma toUpperCase_get s : forall i c,
  String.get i s = Some c ->
  String.get i (toUpperCase s) = Some (upper_ascii c).
Proof.
  induction s as [|c0 r IH]; intros i c H; [discriminate H|].
  destruct i as [|i]; simpl in *.
  - injection H as ->. reflexivity.
  - apply IH, H.
Qed.

(** C3. Every payload that [sendTransaction] submits for an expense has as
    amount the negated absolute value of the parsed amount, which is below
    zero whenever that amount is a number other than zero; as currency the
    upper-cased currency of the expense, or "USD" when the expense has none;
    and the literal "expense" as type.  Upper-cased, for a currency written
    in ASCII: the text of the same length in which every letter of a to z is
    replaced by its capital and every other character is kept. *)
Theorem submitted_payload_is_normalized :
  forall tok e sv fs bearer p,
    In (CreateTransaction bearer p) (events_of (sendTransaction tok e sv fs)) ->
    p_amount p = neg (Math_abs (parseFloat (amount e)))
    /\ (forall x, amount e = VNum x ->
        p_amount p = neg (Math_abs x)
        /\ (truthy (VNum x) = true -> num_lt (p_amount p) pos_zero = true))
    /\ (forall s, currency e = VStr s -> s <> "" -> ascii_only s = true ->
        String.length (p_currency p) = String.length s
        /\ forall i c, String.get i s = Some c ->
                       exists c', String.get i (p_currency p) = Some c'
                                  /\ capital_of c c')
    /\ (truthy (currency e) = false -> p_currency p = "USD")
    /\ p_type p = "expense".
Proof.
  intros tok e sv fs bearer p H.
  pose proof (sendTransaction_events tok e sv fs) as S.
  destruct (or_else (currency e) (VStr "USD")) as [| | | |s] eqn:Ecur;
    try (rewrite S in H; contradiction).
  destruct S as [_ S]. destruct (S _ _ H) as [_ ->]. simpl.
  split; [reflexivity|]. split; [|split; [|split; [|reflexivity]]].
  - intros x Hx. rewrite Hx. split.
    + destruct x; reflexivity.
    + intros Ht.
      assert (parseFloat (VNum x) = x) as ->
          by (destruct x; simpl in *; try discriminate; reflexivity).
      apply negated_abs_is_negative, Ht.
  - intros s' Hs Hne _. unfold or_else in Ecur. rewrite Hs in Ecur. simpl in Ecur.
    destruct (String.eqb_spec s' ""); [contradiction|].
    simpl in Ecur. injection Ecur as <-.
    split; [apply toUpperCase_length|].
    intros i c Hc. exists (upper_ascii c).
    split; [apply toUpperCase_get, Hc | apply upper_ascii_capital].
  - intros Hf. unfold or_else in Ecur. rewrite Hf in Ecur.
    injection Ecur as <-. reflexivity.
Qed.

Lemma submitted_payload_is_normalized_witness :
  let p := payload_of rotating_backend cena_con_amigos "USD" in
  let q := payload_of rotating_backend zapatillas "ARS" in
  In (CreateTransaction (VStr "access-1") p)
     (events_of (sendTransaction (VStr "access-1") cena_con_amigos
                                 rotating_backend FileAbsent))
  /\ p_amount p = S754_finite true 6403555720167424 (-47)
  /\ num_lt (p_amount p) pos_zero = true
  /\ p_currency p = "USD"
  /\ p_type p = "expense"
  /\ In (CreateTransaction (VStr "access-1") q)
        (events_of (sendTransaction (VStr "access-1") zapatillas
                                    rotating_backend FileAbsent))
  /\ String.length (p_currency q) = 3%nat
  /\ (exists c', String.get 0 (p_currency q) = Some c' /\ capital_of "a" c')
  /\ p_currency q = "ARS".
Proof.
  cbv zeta.
  assert (In (CreateTransaction (VStr "access-1")
                (payload_of rotating_backend cena_con_amigos "USD"))
             (events_of (sendTransaction (VStr "access-1") cena_con_amigos
                                         rotating_backend FileAbsent))) as H
      by (left; reflexivity).
  assert (In (CreateTransaction (VStr "access-1")
                (payload_of rotating_backend zapatillas "ARS"))
             (events_of (sendTransaction (VStr "access-1") zapatillas
                                         rotating_backend FileAbsent))) as H'
      by (left; reflexivity).
  split; [exact H|].
  destruct (submitted_payload_is_normalized _ _ _ _ _ _ H) as [A [N [C [_ T]]]].
  destruct (submitted_payload_is_normalized _ _ _ _ _ _ H') as [_ [_ [C' _]]].
  destruct (C' "ars" eq_refl ltac:(discriminate) eq_refl) as [L G].
  split; [reflexivity|]. split; [apply (N (parseFloat_string "45.50")); reflexivity|].
  split; [reflexivity|]. split; [exact T|]. split; [exact H'|].
  split; [exact L|]. split; [apply (G 0%nat "a"%char); reflexivity | reflexivity].
Defined.

Lemma sendTransaction_result tok e sv fs :
  match or_else (currency e) (VStr "USD") with
  | VStr _ => exists ok, result_of (sendTransaction tok e sv fs) = Return ok
  | _ => result_of (sendTransaction tok e sv fs) = Throw "TypeError"
  end
  /\ file_of (sendTransaction tok e sv fs) = fs.
Proof.
  io_unfold.
  destruct (or_else (currency e) (VStr "USD")); simpl; auto.
  destruct (transactions_endpoint sv); simpl; eauto.
Qed.

(** The events of the handler's continuation after the parse step. *)
Lemma record_parsed_creates chatId oe sv fs b p :
  In (CreateTransaction b p) (events_of (record_parsed chatId oe sv fs)) ->
  exists e td s,
    oe = Some e
    /\ truthy (amount e) = true /\ truthy (description e) = true
    /\ or_else (currency e) (VStr "USD") = VStr s
    /\ refreshed sv = Some td /\ truthy (accessToken td) = true
    /\ b = accessToken td
    /\ p = payload_of sv e (toUpperCase s).
Proof.
  unfold record_parsed. destruct oe as [e|].
  2:{ simpl. intros [H|[]]. discriminate. }
  destruct (truthy (amount e)) eqn:Ha; simpl.
  2:{ intros [H|[]]. discriminate. }
  destruct (truthy (description e)) eqn:Hd; simpl.
  2:{ intros [H|[]]. discriminate. }
  rewrite events_bind.
  pose proof (sendTransaction_events) as ST.
  destruct (or_else (currency e) (VStr "USD")) as [| | | |s] eqn:Ecur; simpl;
    try contradiction.
  rewrite events_bind. simpl. intros [H|H]; [discriminate|].
  rewrite events_bind, refresh_session_result in H.
  apply in_app_or in H. destruct H as [H|H].
  { exfalso. eapply submissions_none; [|exact H].
    apply refresh_session_submits_nothing. }
  destruct (refreshed sv) as [td|]; [|contradiction].
  destruct (truthy (accessToken td)) eqn:Hacc; [|contradiction].
  rewrite events_bind in H. apply in_app_or in H.
  match type of H with
  | In _ (events_of (sendTransaction ?tok e sv ?f)) \/ _ =>
      specialize (ST tok e sv f); rewrite Ecur in ST; destruct ST as [_ ST];
      pose proof (sendTransaction_result tok e sv f) as [SR _];
      rewrite Ecur in SR; destruct SR as [ok SR]
  end.
  destruct H as [H|H].
  - destruct (ST _ _ H) as [-> ->]. exists e, td, s. auto 10.
  - rewrite SR in H. destruct ok; simpl in H.
    + destruct H as [H|[]]. discriminate.
    + contradiction.
Qed.

Lemma expense_recorder_events chatId t sv fs :
  events_of (expense_recorder chatId t sv fs)
  = (SendMessage chatId THINKING
     :: events_of (parseExpenseWithAI t sv fs)
     ++ EditMessageText chatId (telegram_message_id sv) ANALYSIS_DONE
     :: events_of (record_parsed chatId (parsed sv) sv fs))%list.
Proof.
  unfold expense_recorder.
  pose proof (parseExpenseWithAI_result t sv fs) as [Pr [Pf _]].
  rewrite events_bind, sendMessage_run. io_simpl. f_equal.
  rewrite events_bind, Pr, Pf. f_equal.
  rewrite events_bind, editMessageText_run. io_simpl. reflexivity.
Qed.

Lemma expense_recorder_creates chatId t sv fs b p :
  In (CreateTransaction b p) (events_of (expense_recorder chatId t sv fs)) ->
  exists e td s,
    parsed sv = Some e
    /\ truthy (amount e) = true /\ truthy (description e) = true
    /\ or_else (currency e) (VStr "USD") = VStr s
    /\ refreshed sv = Some td /\ truthy (accessToken td) = true
    /\ b = accessToken td
    /\ p = payload_of sv e (toUpperCase s).
Proof.
  rewrite expense_recorder_events. intros [H|H]; [discriminate|].
  apply in_app_or in H. destruct H as [H|[H|H]]; [|discriminate|].
  - exfalso. eapply submissions_none; [|exact H].
    apply parseExpenseWithAI_result.
  - apply record_parsed_creates in H. exact H.
Qed.

Lemma record_parsed_submissions chatId oe sv fs :
  submissions (events_of (record_parsed chatId oe sv fs))
  = if submits sv oe then 1%nat else 0%nat.
Proof.
  unfold record_parsed, submits. destruct oe as [e|]; [|reflexivity].
  destruct (truthy (amount e)); [|reflexivity].
  destruct (truthy (description e)); [|reflexivity]. simpl.
  rewrite events_bind.
  pose proof (sendTransaction_events) as ST.
  destruct (or_else (currency e) (VStr "USD")) as [| | | |s] eqn:Ecur; simpl;
    try reflexivity.
  rewrite events_bind, sendMessage_run. io_simpl. cbn [submissions].
  rewrite events_bind, refresh_session_result, submissions_app,
    refresh_session_submits_nothing.
  destruct (refreshed sv) as [td|]; [|reflexivity].
  destruct (truthy (accessToken td)); [|reflexivity].
  rewrite events_bind, submissions_app.
  match goal with
  | |- context [sendTransaction ?tok e sv ?f] =>
      specialize (ST tok e sv f); rewrite Ecur in ST; destruct ST as [-> _];
      pose proof (sendTransaction_result tok e sv f) as [SR _];
      rewrite Ecur in SR; destruct SR as [ok ->]
  end.
  destruct ok; reflexivity.
Qed.

Lemma expense_recorder_submissions chatId t sv fs :
  submissions (events_of (expense_recorder chatId t sv fs))
  = if submits sv (parsed sv) then 1%nat else 0%nat.
Proof.
  rewrite expense_recorder_events. cbn [submissions].
  rewrite submissions_app. cbn [submissions].
  rewrite record_parsed_submissions.
  pose proof (parseExpenseWithAI_result t sv fs) as [_ [_ ->]]. reflexivity.
Qed.

(** What [bot.on('message')] does with text that is no command. *)
Lemma on_message_records g msg t sv fs :
  text msg = Some t ->
  startsWith t "/start" = false ->
  startsWith t "/gastos" = false ->
  on_message g msg sv fs
  = if truthy (VStr t)
    then try_catch (expense_recorder (chat_id msg) t) (on_error (chat_id msg)) sv fs
    else (Return tt, fs, []).
Proof.
  intros Ht H1 H2. unfold on_message. rewrite Ht.
  destruct (truthy (VStr t)); simpl; [|reflexivity].
  rewrite H1, H2. reflexivity.
Qed.

Lemma on_message_submissions g msg t sv fs :
  text msg = Some t ->
  startsWith t "/start" = false ->
  startsWith t "/gastos" = false ->
  submissions (events_of (on_message g msg sv fs))
  = if truthy (VStr t) && submits sv (parsed sv) then 1%nat else 0%nat.
Proof.
  intros Ht H1 H2. rewrite (on_message_records g msg t sv fs Ht H1 H2).
  destruct (truthy (VStr t)); [|reflexivity]. simpl andb.
  rewrite events_try_catch, submissions_app, expense_recorder_submissions.
  destruct (result_of (expense_recorder (chat_id msg) t sv fs)); simpl;
    rewrite Nat.add_0_r; reflexivity.
Qed.

(** C2. While the handler processes one message as an expense, it makes
    either no transaction-creation call or exactly one.  One call implies
    that the parse step produced an expense with amount and description and
    that the token refresh produced an access token; a failed parse, a
    missing amount or description, and a failed refresh each leave the run
    with no call at all. *)
Theorem at_most_one_submission :
  forall g msg t sv fs,
    text msg = Some t ->
    startsWith t "/start" = false ->
    startsWith t "/gastos" = false ->
    let n := submissions (events_of (on_message g msg sv fs)) in
    (n = 0 \/ n = 1)%nat
    /\ (n = 1%nat ->
        exists e td,
          parsed sv = Some e
          /\ truthy (amount e) = true /\ truthy (description e) = true
          /\ refreshed sv = Some td /\ truthy (accessToken td) = true)
    /\ (parsed sv = None -> n = 0%nat)
    /\ (forall e, parsed sv = Some e ->
                  truthy (amount e) = false \/ truthy (description e) = false ->
                  n = 0%nat)
    /\ ((forall td, refreshed sv = Some td -> truthy (accessToken td) = false) ->
        n = 0%nat).
Proof.
  intros g msg t sv fs Ht H1 H2 n. subst n.
  rewrite (on_message_submissions g msg t sv fs Ht H1 H2).
  unfold submits.
  destruct (truthy (VStr t)); simpl; [|repeat split; auto; discriminate].
  destruct (parsed sv) as [e|]; [|repeat split; auto; discriminate].
  destruct (truthy (amount e)) eqn:Ha; destruct (truthy (description e)) eqn:Hd;
    simpl; try (repeat split; auto; discriminate).
  assert (forall e' : expense_json,
             Some e = Some e' ->
             truthy (amount e') = false \/ truthy (description e') = false ->
             1%nat = 0%nat) as Hno
      by (intros e' E [H|H]; injection E as <-; congruence).
  destruct (or_else (currency e) (VStr "USD")); simpl;
    try (repeat split; auto; discriminate).
  destruct (refreshed sv) as [td|]; simpl;
    [|repeat split; auto; discriminate].
  destruct (truthy (accessToken td)) eqn:Hacc; simpl;
    [|repeat split; auto; discriminate].
  repeat split; auto.
  - intros _. exists e, td. auto.
  - discriminate.
  - intros H. specialize (H td eq_refl). congruence.
Qed.

Lemma at_most_one_submission_witness :
  submissions
    (events_of (on_message Gastos.handleGastosCommand
                           (chat_message 7 "Cena con amigos 45.50 usd")
                           dinner FileAbsent)) = 1%nat
  /\ parsed dinner = Some cena_con_amigos
  /\ exists td, refreshed dinner = Some td /\ truthy (accessToken td) = true.
Proof.
  destruct (at_most_one_submission
              Gastos.handleGastosCommand
              (chat_message 7 "Cena con amigos 45.50 usd")
              "Cena con amigos 45.50 usd" dinner FileAbsent
              eq_refl eq_refl eq_refl) as [_ [One _]].
  assert (submissions
            (events_of (on_message Gastos.handleGastosCommand
                                   (chat_message 7 "Cena con amigos 45.50 usd")
                                   dinner FileAbsent)) = 1%nat) as N
      by (vm_compute; reflexivity).
  split; [exact N|].
  destruct (One N) as [e [td [P [_ [_ [R A]]]]]].
  split; [reflexivity|]. exists td. split; assumption.
Defined.

(** ** C10: expenses the handler cannot use *)

Lemma unusable_is_falsy v :
  is_zero v || absent_or_empty v = true -> truthy v = false.
Proof.
  destruct v as [| |b|x|s]; simpl; try discriminate; auto.
  - destruct x; simpl; try discriminate; auto.
  - intros ->. reflexivity.
Qed.

Lemma truthy_is_not_zero v : truthy v = true -> is_zero v = false.
Proof.
  destruct v as [| |b|x|s]; simpl; auto. destruct x; simpl; auto.
Qed.

(** C10, as amended.  The handler tests the fields of the parsed expense for
    truthiness.  When the amount is falsy (absent, null, the empty text or
    the number zero among others) or the description is, it goes on exactly
    as after a failed parse: it sends the "could not understand" prompt and
    nothing else, and the run creates no transaction.  An amount given as
    text that is not empty is truthy whatever number it reads as: with a
    description the expense is not treated as a failed parse, and the run
    creates its transaction once the currency can be upper-cased and an
    access token is obtained.  Hence every transaction a run creates comes
    from an expense whose amount and description are truthy; the amount
    submitted is the negated absolute value of what [parseFloat] reads, and
    is strictly below zero when the field is a number. *)
Theorem unusable_expense_is_not_recorded :
  forall chatId t sv fs,
    (forall e,
        parsed sv = Some e ->
        is_zero (amount e) || absent_or_empty (amount e)
        || absent_or_empty (description e) = true
        \/ truthy (amount e) = false \/ truthy (description e) = false ->
        record_parsed chatId (Some e) sv fs = record_parsed chatId None sv fs
        /\ record_parsed chatId (Some e) sv fs
           = (Return tt, fs, [SendMessage chatId NOT_UNDERSTOOD])
        /\ In (SendMessage chatId NOT_UNDERSTOOD)
              (events_of (expense_recorder chatId t sv fs))
        /\ submissions (events_of (expense_recorder chatId t sv fs)) = 0%nat)
    /\ (forall e s,
           parsed sv = Some e ->
           amount e = VStr s -> s <> "" ->
           truthy (description e) = true ->
           record_parsed chatId (Some e) sv fs <> record_parsed chatId None sv fs
           /\ ((exists c, or_else (currency e) (VStr "USD") = VStr c) ->
               (exists td, refreshed sv = Some td /\ truthy (accessToken td) = true) ->
               submissions (events_of (expense_recorder chatId t sv fs)) = 1%nat))
    /\ (forall bearer p,
           In (CreateTransaction bearer p)
              (events_of (expense_recorder chatId t sv fs)) ->
           exists e,
             parsed sv = Some e
             /\ truthy (amount e) = true
             /\ truthy (description e) = true
             /\ is_zero (amount e) = false
             /\ absent_or_empty (amount e) = false
             /\ p_amount p = neg (Math_abs (parseFloat (amount e)))
             /\ (forall x, amount e = VNum x ->
                           num_lt (p_amount p) pos_zero = true)).
Proof.
  intros chatId t sv fs. split; [|split].
  - intros e P U.
    assert (negb (truthy (amount e)) || negb (truthy (description e)) = true) as F.
    { apply orb_true_iff. destruct U as [U|[U|U]].
      - apply orb_true_iff in U. destruct U as [U|U].
        + left. rewrite (unusable_is_falsy _ U). reflexivity.
        + right. rewrite (unusable_is_falsy (description e)); [reflexivity|].
          rewrite U. apply orb_true_r.
      - left. rewrite U. reflexivity.
      - right. rewrite U. reflexivity. }
    assert (record_parsed chatId (Some e) sv fs
            = (Return tt, fs, [SendMessage chatId NOT_UNDERSTOOD])) as R
        by (unfold record_parsed; rewrite F; reflexivity).
    split; [rewrite R; reflexivity|]. split; [exact R|]. split.
    + rewrite expense_recorder_events, P, R. right. apply in_or_app. right.
      right. left. reflexivity.
    + rewrite expense_recorder_submissions, P. unfold submits.
      apply orb_true_iff in F. destruct F as [F|F];
        apply negb_true_iff in F; rewrite F; simpl; rewrite ?andb_false_r;
        reflexivity.
  - intros e s P Ha Hne Hd.
    assert (truthy (amount e) = true) as Hta.
    { rewrite Ha. simpl. destruct (String.eqb_spec s ""); [contradiction|].
      reflexivity. }
    split.
    + unfold record_parsed. rewrite Hta, Hd. cbn [negb orb].
      destruct (or_else (currency e) (VStr "USD")) as [| | | |c];
        try (intros E; discriminate E).
      intros E. apply (f_equal events_of) in E.
      rewrite events_bind in E. simpl in E.
      rewrite events_bind, sendMessage_run in E. io_simpl.
      simpl in E. injection E as E _. discriminate E.
    + intros [c Hc] [td [Htd Hacc]].
      rewrite expense_recorder_submissions, P. unfold submits.
      rewrite Hta, Hd, Hc, Htd, Hacc. reflexivity.
  - intros bearer p H.
    destruct (expense_recorder_creates _ _ _ _ _ _ H)
      as [e [td [s [P [Ha [Hd [_ [_ [_ [_ ->]]]]]]]]]].
    exists e. split; [exact P|]. split; [exact Ha|]. split; [exact Hd|].
    split; [apply truthy_is_not_zero, Ha|].
    split; [|split; [reflexivity|]].
    + destruct (amount e) as [| |b|x|s']; simpl in *; try discriminate; auto.
      destruct (String.eqb s' ""); simpl in *; [discriminate | reflexivity].
    + intros x Hx. simpl. rewrite Hx in *.
      assert (parseFloat (VNum x) = x) as ->
          by (destruct x; simpl in *; try discriminate; reflexivity).
      apply negated_abs_is_negative, Ha.
Qed.

Lemma unusable_expense_is_not_recorded_witness :
  events_of (expense_recorder 7 "almuerzo gratis" free_lunch_services FileAbsent)
  = [SendMessage 7 THINKING;
     ChatCompletion SYSTEM_PROMPT [Lit "almuerzo gratis"];
     EditMessageText 7 100 ANALYSIS_DONE;
     SendMessage 7 NOT_UNDERSTOOD]
  /\ record_parsed 7 (Some free_lunch) free_lunch_services FileAbsent
     = record_parsed 7 None free_lunch_services FileAbsent
  /\ submissions
       (events_of (expense_recorder 7 "almuerzo gratis" free_lunch_services FileAbsent))
     = 0%nat.
Proof.
  destruct (unusable_expense_is_not_recorded
              7 "almuerzo gratis" free_lunch_services FileAbsent) as [U _].
  destruct (U free_lunch eq_refl (or_introl eq_refl)) as [Same [_ [_ None]]].
  split; [reflexivity|]. split; assumption.
Defined.

(** The model gives the amount as the text "0": the amount is zero, and yet
    the expense is confirmed, a transaction of amount -0 is created and the
    chat is told that the expense is registered. *)
Lemma text_zero_is_recorded :
  let r := expense_recorder 7 "almuerzo gratis" free_lunch_as_text_services
                            FileAbsent in
  let p := payload_of free_lunch_as_text_services free_lunch_as_text "ARS" in
  parsed free_lunch_as_text_services = Some free_lunch_as_text
  /\ amount free_lunch_as_text = VStr "0"
  /\ parseFloat (amount free_lunch_as_text) = pos_zero
  /\ toNumber (amount free_lunch_as_text) = pos_zero
  /\ events_of r
     = [SendMessage 7 THINKING;
        ChatCompletion SYSTEM_PROMPT [Lit "almuerzo gratis"];
        EditMessageText 7 100 ANALYSIS_DONE;
        SendMessage 7 (confirmation free_lunch_as_text "ARS");
        TokenRequest (VStr "seed-token");
        WriteTokenFile (VStr "rotated-1");
        CreateTransaction (VStr "access-1") p;
        SendMessage 7 REGISTERED]
  /\ p_amount p = neg_zero
  /\ num_lt (p_amount p) pos_zero = false
  /\ submissions (events_of r) = 1%nat
  /\ ~ In (SendMessage 7 NOT_UNDERSTOOD) (events_of r).
Proof.
  cbv zeta. repeat split; try (vm_compute; reflexivity).
  vm_compute. intros H.
  repeat (destruct H as [H|H]; [discriminate H|]). exact H.
Qed.

(** ** The listing formatter *)

Section SortFacts.
Context {A : Type} (after : A -> A -> bool).

Lemma insert_sorted_perm x l : Permutation (x :: l) (insert_sorted after x l).
Proof.
  induction l as [|y r IH]; simpl; [apply Permutation_refl|].
  destruct (after x y).
  - eapply perm_trans; [apply perm_swap|]. apply perm_skip, IH.
  - apply Permutation_refl.
Qed.

Lemma array_sort_perm l : Permutation l (array_sort after l).
Proof.
  induction l as [|x r IH]; simpl; [apply perm_nil|].
  eapply perm_trans; [apply perm_skip, IH | apply insert_sorted_perm].
Qed.

Lemma array_sort_length l : List.length (array_sort after l) = List.length l.
Proof. symmetry. apply Permutation_length, array_sort_perm. Qed.

(** When "not after" is a total preorder, the result is in order. *)
Variable le : A -> A -> Prop.
Hypothesis le_trans : forall a b c, le a b -> le b c -> le a c.
Hypothesis not_after_le : forall a b, after a b = false -> le a b.
Hypothesis after_le : forall a b, after a b = true -> le b a.

Lemma insert_sorted_keeps_order x l :
  StronglySorted le l -> StronglySorted le (insert_sorted after x l).
Proof.
  induction 1 as [|y r Hs IH Hall]; simpl.
  - constructor; constructor.
  - destruct (after x y) eqn:E.
    + constructor; [exact IH|].
      eapply Permutation_Forall; [apply insert_sorted_perm|].
      constructor; [apply after_le, E | exact Hall].
    + constructor; [constructor; assumption|].
      constructor; [apply not_after_le, E|].
      eapply Forall_impl; [|exact Hall].
      intros z Hz. eapply le_trans; [apply not_after_le, E | exact Hz].
Qed.

Lemma array_sort_in_order l : StronglySorted le (array_sort after l).
Proof.
  induction l as [|x r IH]; simpl; [constructor|].
  apply insert_sorted_keeps_order, IH.
Qed.
End SortFacts.

Lemma sortedTransactions_in_order txs :
  StronglySorted later_first (GastosByDate.sortedTransactions txs).
Proof.
  apply array_sort_in_order; unfold later_first, by_date_desc.
  - intros a b c H1 H2. lia.
  - intros a b H. apply Z.ltb_ge in H. exact H.
  - intros a b H. apply Z.ltb_lt in H. lia.
Qed.

Lemma StronglySorted_split {A} (R : A -> A -> Prop) (l : list A) n :
  StronglySorted R l ->
  StronglySorted R (firstn n l)
  /\ Forall (fun x => Forall (R x) (skipn n l)) (firstn n l).
Proof.
  intros H. revert n. induction H as [|x r Hs IH Hall]; intros n.
  - rewrite firstn_nil. split; constructor.
  - destruct n as [|n]; simpl; [split; constructor|].
    destruct (IH n) as [S F]. split.
    + constructor; [exact S|].
      rewrite <- (firstn_skipn n r) in Hall. apply Forall_app in Hall. tauto.
    + constructor; [|exact F].
      rewrite <- (firstn_skipn n r) in Hall. apply Forall_app in Hall. tauto.
Qed.

(** The revision that sorts shows at most ten rows, latest first, and no
    row it leaves out is later than a row it shows. *)
Lemma by_date_shows_the_latest txs :
  let shown := GastosByDate.shown txs in
  (List.length shown <= 10)%nat
  /\ List.length shown = Nat.min 10 (List.length txs)
  /\ StronglySorted later_first shown
  /\ exists rest,
       Permutation txs (shown ++ rest)
       /\ Forall (fun s => Forall (fun o => tx_date o <= tx_date s) rest) shown.
Proof.
  unfold GastosByDate.shown. cbv zeta.
  pose proof (sortedTransactions_in_order txs) as S.
  destruct (StronglySorted_split later_first _ 10 S) as [S1 S2].
  split; [apply firstn_le_length|].
  split; [rewrite length_firstn; unfold GastosByDate.sortedTransactions;
          rewrite array_sort_length; reflexivity|].
  split; [exact S1|].
  exists (skipn 10 (GastosByDate.sortedTransactions txs)). split.
  - rewrite firstn_skipn. apply array_sort_perm.
  - exact S2.
Qed.

(** C4, on the revision of [formatApiResponse] in
    src/gastitelegram/resumen.js (the same text is in src/unnamed/part_000):
    the rows are rendered in the order the backend sent them.  Sent the
    earlier row first, the formatter shows the earlier row first; sent ten
    early rows and then a late one, it does not show the late one at all.
    The revision of src/unnamed/part_001 sorts, and shows the late row
    first. *)
Theorem listing_keeps_backend_order :
  Gastos.formatApiResponse (listing [first_of_july; late_july])
  = (heading None ++ entry first_of_july ++ entry late_july)%list
  /\ Gastos.shown [first_of_july; late_july] = [first_of_july; late_july]
  /\ ~ StronglySorted later_first (Gastos.shown [first_of_july; late_july])
  /\ ~ In late_july (Gastos.shown (repeat first_of_july 10 ++ [late_july]))
  /\ GastosByDate.shown [first_of_july; late_july] = [late_july; first_of_july]
  /\ hd_error (GastosByDate.shown (repeat first_of_july 10 ++ [late_july]))
     = Some late_july.
Proof.
  split; [vm_compute; reflexivity|]. split; [reflexivity|].
  split; [|split; [|split]].
  - intros H. inversion H as [|a l _ F]; subst.
    inversion F as [|b l' L _]; subst.
    unfold later_first in L. vm_compute in L. apply L. reflexivity.
  - simpl. intros H.
    repeat (destruct H as [H|H]; [discriminate H|]). exact H.
  - reflexivity.
  - reflexivity.
Qed.

(** *** The "and N more" note *)

Lemma append_assoc (a b c : string) : (a ++ b) ++ c = a ++ (b ++ c).
Proof. induction a as [|x a IH]; simpl; [reflexivity | rewrite IH; reflexivity]. Qed.

Lemma append_empty_r (a : string) : a ++ "" = a.
Proof. induction a as [|x a IH]; simpl; [reflexivity | rewrite IH; reflexivity]. Qed.

Lemma last_char_none s : last_char s = None -> s = "".
Proof.
  induction s as [|c r IH]; [reflexivity|]. simpl.
  destruct r; [discriminate|]. intros H. specialize (IH H). discriminate IH.
Qed.

Lemma last_char_cons c s : s <> "" -> last_char (String c s) = last_char s.
Proof. destruct s; [congruence | reflexivity]. Qed.

Lemma last_char_append a b :
  last_char (a ++ b)
  = match last_char b with
    | Some c => Some c
    | None => last_char a
    end.
Proof.
  induction a as [|x a IH]; cbn [append].
  - destruct (last_char b); reflexivity.
  - destruct (last_char b) eqn:Eb.
    + rewrite last_char_cons, IH; [reflexivity|].
      destruct a; simpl; [|discriminate]. intros ->. discriminate Eb.
    + apply last_char_none in Eb. subst b. rewrite append_empty_r. reflexivity.
Qed.

Lemma EndsWith_last_char s suffix c :
  EndsWith s suffix -> last_char suffix = Some c -> last_char s = Some c.
Proof.
  intros [before ->] H. rewrite last_char_append, H. reflexivity.
Qed.

Lemma render_app h (a b : message) :
  render h (a ++ b)%list = render h a ++ render h b.
Proof.
  induction a as [|p a IH]; simpl; [reflexivity|].
  rewrite IH, append_assoc. reflexivity.
Qed.

Lemma render_and_more h n : render h (and_more n) = more_text n.
Proof. reflexivity. Qed.

Lemma last_char_more_text n : last_char (more_text n) = Some "_"%char.
Proof. unfold more_text. rewrite !last_char_append. reflexivity. Qed.

Lemma last_char_entries h l :
  l <> [] -> last_char (render h (flat_map entry l)) = Some (ascii_of_nat 10).
Proof.
  induction l as [|x r IH]; [congruence|]. intros _.
  cbn [flat_map]. rewrite render_app, last_char_append.
  destruct r as [|y r'].
  - cbn [flat_map render last_char]. unfold entry. cbn [render render_piece].
    rewrite !last_char_append. reflexivity.
  - rewrite IH by discriminate. reflexivity.
Qed.

Lemma firstn_nonempty {A} (l : list A) n : l <> [] -> firstn (S n) l <> [].
Proof. destruct l; [congruence | discriminate]. Qed.

(** The property for any revision, given that its ordering drops no row. *)
Lemma and_more_exactly_over_ten h order apiResponse :
  (forall l, List.length (order l) = List.length l) ->
  let out := render h (format_with order apiResponse) in
  let n := length_of (rows apiResponse) in
  (EndsWith out (more_text (n - 10)) <-> 10 < n)
  /\ (n <= 10 -> forall k, ~ EndsWith out (more_text k)).
Proof.
  intros Hlen out n.
  assert (n <= 10 -> forall k, ~ EndsWith out (more_text k)) as Hno.
  { intros Hn k E.
    pose proof (EndsWith_last_char _ _ _ E (last_char_more_text k)) as L.
    subst out n. unfold format_with, rows in *.
    destruct apiResponse as [[[[|tx txs]|] s]|]; try (simpl in L; discriminate L).
    apply Z.ltb_ge in Hn. rewrite Hn in L.
    rewrite app_nil_r, render_app, last_char_append, last_char_entries in L.
    - discriminate L.
    - apply firstn_nonempty. intros E0.
      apply (f_equal (@List.length _)) in E0. rewrite Hlen in E0. discriminate E0. }
  split; [|exact Hno]. split.
  - intros E. destruct (Z.lt_ge_cases 10 n) as [?|Hn]; [assumption|].
    exfalso. apply (Hno ltac:(lia) _ E).
  - intros Hn. subst out n. unfold format_with, rows in *.
    destruct apiResponse as [[[[|tx txs]|] s]|];
      try (unfold length_of in Hn; simpl in Hn; lia).
    apply Z.ltb_lt in Hn. rewrite Hn.
    rewrite app_assoc, render_app, render_and_more. eexists. reflexivity.
Qed.

(** C5. For every response given to the listing formatter, in either
    revision, the rendered message ends with the note "_... y N más._",
    N being the number of rows less ten, exactly when there are more than
    ten rows.  With ten rows or fewer the message ends with no such note,
    whatever its number; with eleven rows the note says 1. *)
Theorem and_more_note_iff_over_ten :
  forall h apiResponse,
    let n := length_of (rows apiResponse) in
    let unsorted := render h (Gastos.formatApiResponse apiResponse) in
    let sorted := render h (GastosByDate.formatApiResponse apiResponse) in
    (EndsWith unsorted (more_text (n - 10)) <-> 10 < n)
    /\ (EndsWith sorted (more_text (n - 10)) <-> 10 < n)
    /\ (n <= 10 -> forall k, ~ EndsWith unsorted (more_text k)
                             /\ ~ EndsWith sorted (more_text k))
    /\ (n = 11 -> EndsWith unsorted "_... y 1 más._"
                  /\ EndsWith sorted "_... y 1 más._").
Proof.
  intros h apiResponse n unsorted sorted.
  destruct (and_more_exactly_over_ten h (fun txs => txs) apiResponse
              (fun l => eq_refl)) as [U1 U2].
  destruct (and_more_exactly_over_ten h GastosByDate.sortedTransactions apiResponse
              (array_sort_length by_date_desc)) as [S1 S2].
  fold n in U1, U2, S1, S2.
  split; [exact U1|]. split; [exact S1|]. split.
  - intros Hn k. split; [apply U2 | apply S2]; exact Hn.
  - intros Hn. rewrite Hn in U1, S1.
    change (more_text (11 - 10)) with "_... y 1 más._" in U1, S1.
    split; [apply U1 | apply S1]; lia.
Qed.

Lemma and_more_note_iff_over_ten_witness :
  EndsWith (render terse_host
              (Gastos.formatApiResponse (listing (repeat first_of_july 11))))
           "_... y 1 más._"
  /\ ~ EndsWith (render terse_host
                   (Gastos.formatApiResponse (listing (repeat first_of_july 10))))
                "_... y 0 más._".
Proof.
  split.
  - destruct (and_more_note_iff_over_ten
                terse_host (listing (repeat first_of_july 11))) as [_ [_ [_ E]]].
    apply E. reflexivity.
  - destruct (and_more_note_iff_over_ten
                terse_host (listing (repeat first_of_july 10))) as [_ [_ [N _]]].
    apply (N ltac:(vm_compute; discriminate) 0).
Defined.

(** ** The rows of the narrative summary *)

Import ResumenAggregates.

(** After [normalize] the amount is a number, and not NaN. *)
Lemma normalize_amount_is_number tx :
  tx_amount (normalize tx) = VNum (amount_number (normalize tx))
  /\ amount_number (normalize tx) <> NaN.
Proof.
  unfold amount_number, normalize, num_or. simpl. split; [reflexivity|].
  destruct (parseFloat (tx_amount tx)); simpl; discriminate.
Qed.

(** After [normalize] the type is one of the two the aggregator filters on. *)
Lemma normalize_type tx :
  tx_type (normalize tx)
  = Some (if lt_zero (tx_amount tx) then "expense" else "income").
Proof. unfold normalize. simpl. destruct (lt_zero (tx_amount tx)); reflexivity. Qed.

Lemma has_type_normalize tx :
  has_type "expense" (normalize tx) = lt_zero (tx_amount tx)
  /\ has_type "income" (normalize tx) = negb (lt_zero (tx_amount tx)).
Proof.
  unfold has_type. rewrite normalize_type.
  destruct (lt_zero (tx_amount tx)); split; reflexivity.
Qed.

(** So the two filters of [analizarTransacciones] split the fetched rows. *)
Lemma partition_covers_fetched raw :
  let txs := map normalize raw in
  Permutation txs (gastos_of txs ++ ingresos_of txs)
  /\ forall tx, In tx txs ->
                has_type "expense" tx = negb (has_type "income" tx).
Proof.
  cbv zeta. split.
  - unfold gastos_of, ingresos_of.
    induction raw as [|r raw IH]; simpl; [constructor|].
    destruct (has_type_normalize r) as [-> ->].
    destruct (lt_zero (tx_amount r)); simpl.
    + apply perm_skip, IH.
    + apply Permutation_cons_app, IH.
  - intros tx H. apply in_map_iff in H. destruct H as [r [<- _]].
    destruct (has_type_normalize r) as [-> ->].
    destruct (lt_zero (tx_amount r)); reflexivity.
Qed.

(** Amounts that are not strings are typed by the sign of the amount that
    is kept: "expense" exactly when it is below zero. *)
Lemma normalize_agrees_off_strings tx :
  (forall s, tx_amount tx <> VStr s) ->
  (tx_type (normalize tx) = Some "expense"
   <-> num_lt (amount_number (normalize tx)) pos_zero = true)
  /\ (tx_type (normalize tx) = Some "income"
      <-> num_lt (amount_number (normalize tx)) pos_zero = false).
Proof.
  intros H. rewrite normalize_type. unfold amount_number, normalize. simpl.
  unfold lt_zero, num_or.
  destruct (tx_amount tx) as [| |[|]|x|s]; simpl;
    try (split; split; intros; try reflexivity; discriminate).
  - destruct x as [[|]|[|]| |[|] m e]; simpl;
      split; split; intros; try reflexivity; discriminate.
  - exfalso. apply (H s). reflexivity.
Qed.

(** C9, at a row whose amount is the text "-12,50".  [<] reads the whole
    text as a number, finds none and answers false, so the row is typed
    "income"; [parseFloat] reads the leading "-12", so the amount kept is
    -12, below zero.  The aggregator then counts the row as income, with a
    negative income. *)
Theorem text_amount_is_mistyped :
  let tx := normalize comma_row in
  toNumber (VStr "-12,50") = NaN
  /\ parseFloat (VStr "-12,50") = of_Z (-12)
  /\ tx_type tx = Some "income"
  /\ tx_amount tx = VNum (of_Z (-12))
  /\ num_lt (amount_number tx) pos_zero = true
  /\ gastos_of [tx] = []
  /\ ingresos_of [tx] = [tx]
  /\ monto_ingreso tx = of_Z (-12).
Proof. cbv zeta. repeat split; vm_compute; reflexivity. Qed.

(** ** Token store failures *)

Lemma submissions_some evs :
  submissions evs <> 0%nat -> exists b p, In (CreateTransaction b p) evs.
Proof.
  induction evs as [|e evs IH]; simpl; [congruence|].
  destruct e; try (intros H; destruct (IH H) as [b [p I]]; eauto).
  intros _. eauto.
Qed.

(** C8. Token store failure behaviour.  A read of a missing or unreadable
    token file returns the configured seed token and raises nothing.  A write
    that cannot be persisted is reported on the error console and returns
    normally, the file being left as it was.  The command in flight goes on
    with the access token it obtained: the refresh block returns it, and a
    recording that was going to create its transaction creates it, bearing
    that token. *)
Theorem token_store_failure_behaviour :
  forall sv fs,
    (unavailable fs = true ->
     readRefreshToken sv fs = (Return (GASTI_INITIAL_REFRESH_TOKEN sv), fs, []))
    /\ (fs_write_ok sv = false ->
        forall tok,
          writeRefreshToken tok sv fs =
          (Return tt, fs,
           [WriteTokenFile tok;
            ConsoleError
              "Error fatal: No se pudo escribir el nuevo refresh token en el archivo:"]))
    /\ (fs_write_ok sv = false ->
        forall failure td,
          refreshed sv = Some td -> truthy (accessToken td) = true ->
          result_of (refresh_session failure sv fs) = Return (accessToken td)
          /\ file_of (refresh_session failure sv fs) = fs)
    /\ (fs_write_ok sv = false ->
        forall chatId t,
          submits sv (parsed sv) = true ->
          exists td p,
            refreshed sv = Some td
            /\ In (CreateTransaction (accessToken td) p)
                  (events_of (expense_recorder chatId t sv fs))).
Proof.
  intros sv fs. split; [|split; [|split]].
  - apply read_degrades_to_seed.
  - intros H tok. apply write_failure_is_logged, H.
  - intros H failure td Htd Hacc.
    pose proof (refresh_session_spec failure sv fs) as [_ S].
    cbv zeta in S. rewrite Htd, Hacc, H, andb_false_r in S.
    destruct S as [S1 [_ S3]]. auto.
  - intros _ chatId t Hs.
    pose proof (expense_recorder_submissions chatId t sv fs) as N.
    rewrite Hs in N.
    destruct (submissions_some (events_of (expense_recorder chatId t sv fs)))
      as [b [p I]]; [rewrite N; discriminate|].
    destruct (expense_recorder_creates _ _ _ _ _ _ I)
      as [e [td [s [_ [_ [_ [_ [R [_ [-> _]]]]]]]]]].
    exists td, p. split; assumption.
Qed.

Lemma token_store_failure_behaviour_witness :
  readRefreshToken read_only_disk FileAbsent
  = (Return (VStr "seed-token"), FileAbsent, [])
  /\ writeRefreshToken (VStr "rotated-1") read_only_disk FileAbsent
     = (Return tt, FileAbsent,
        [WriteTokenFile (VStr "rotated-1");
         ConsoleError
           "Error fatal: No se pudo escribir el nuevo refresh token en el archivo:"])
  /\ result_of (refresh_session "failure" read_only_disk FileAbsent)
     = Return (VStr "access-1")
  /\ exists td p,
       refreshed read_only_dinner = Some td
       /\ In (CreateTransaction (accessToken td) p)
             (events_of (expense_recorder 7 "Cena con amigos 45.50 usd"
                                          read_only_dinner FileAbsent)).
Proof.
  destruct (token_store_failure_behaviour read_only_disk FileAbsent) as [R [W [S _]]].
  destruct (token_store_failure_behaviour read_only_dinner FileAbsent)
    as [_ [_ [_ F]]].
  split; [|split; [|split]].
  - apply R. reflexivity.
  - apply W. reflexivity.
  - apply (S eq_refl "failure"
             {| accessToken := VStr "access-1"; newRefreshToken := VStr "rotated-1" |});
      reflexivity.
  - apply F; reflexivity.
Defined.

(** ** C7: nothing to summarise *)

Lemma completions_app a b :
  completions (a ++ b) = (completions a + completions b)%nat.
Proof.
  induction a as [|e a IH]; simpl; [reflexivity|].
  destruct e; simpl; rewrite IH; reflexivity.
Qed.

Lemma refresh_session_completes_nothing failure sv fs :
  completions (events_of (refresh_session failure sv fs)) = 0%nat.
Proof.
  io_unfold.
  destruct fs; simpl;
    (destruct (token_endpoint sv) as [| | |data]; simpl; auto);
    (destruct (truthy (access_token data)); simpl; auto);
    (match goal with
     | |- context [truthy (refresh_token data) && ?b] =>
         destruct (truthy (refresh_token data) && b); simpl; auto
     end);
    destruct (fs_write_ok sv); simpl; auto.
Qed.

(** The summary command, when the backend has no rows for the period: after
    the refresh block there is the RPC and the edits of the chat message, the
    last of which carries the fixed text. *)
Lemma summary_of_no_rows msg sv fs td data :
  refreshed sv = Some td ->
  truthy (accessToken td) = true ->
  rpc_endpoint sv = Accepted (Some data) ->
  no_rows data = true ->
  let chatId := chat_id msg in
  let mid := telegram_message_id sv in
  completions (events_of (Resumen.handleResumenCommand msg sv fs)) = 0%nat
  /\ events_of (Resumen.handleResumenCommand msg sv fs)
     = (SendMessage chatId
          [Lit "🧠 Analizando tus gastos con IA... Esto puede tardar un momento."]
        :: events_of (refresh_session
                        "Fallo al obtener token de Gasti.pro para generar el resumen."
                        sv fs)
        ++ [Rpc "get_user_transactions_by_period" (accessToken td);
            EditMessageText chatId mid Resumen.NOTHING_TO_ANALYZE])%list.
Proof.
  intros Htd Hacc Hrpc Hrows chatId mid. subst chatId mid.
  assert (match transactions data with Some txs => txs | None => [] end = []) as E.
  { unfold no_rows in Hrows. destruct (transactions data) as [[|? ?]|];
      [reflexivity | discriminate | reflexivity]. }
  pose proof (refresh_session_result
                "Fallo al obtener token de Gasti.pro para generar el resumen." sv fs)
    as R.
  pose proof (refresh_session_completes_nothing
                "Fallo al obtener token de Gasti.pro para generar el resumen." sv fs)
    as C.
  rewrite Htd, Hacc in R.
  unfold Resumen.handleResumenCommand, Resumen.getAllTransactions,
    fetch, response_json, response_ok, sendMessage, editMessageText,
    console_error, try_catch, bind, ret, throw, emit, ask,
    result_of, file_of, events_of in *.
  rewrite Hrpc. simpl. rewrite E.
  destruct (refresh_session _ sv fs) as [[r fs1] ev1]. simpl in *. subst r.
  simpl. rewrite !completions_app, C. simpl.
  split; reflexivity.
Qed.

Lemma summary_of_no_rows_aggregates h msg sv fs td data :
  refreshed sv = Some td ->
  truthy (accessToken td) = true ->
  rpc_endpoint sv = Accepted (Some data) ->
  no_rows data = true ->
  let chatId := chat_id msg in
  let mid := telegram_message_id sv in
  completions (events_of (ResumenAggregates.handleResumenCommand h msg sv fs)) = 0%nat
  /\ events_of (ResumenAggregates.handleResumenCommand h msg sv fs)
     = (SendMessage chatId [Lit "🔍 Recopilando datos... Un momento."]
        :: events_of (refresh_session
                        "Fallo al obtener token de Gasti.pro para generar el resumen."
                        sv fs)
        ++ [Rpc "get_user_transactions_by_period" (accessToken td);
            EditMessageText chatId mid [Lit "⚙️ Procesando y calculando totales..."];
            EditMessageText chatId mid
              [Lit "🧠 Generando análisis y consejos con IA..."];
            EditMessageText chatId mid ResumenAggregates.NOTHING_TO_ANALYZE])%list.
Proof.
  intros Htd Hacc Hrpc Hrows chatId mid. subst chatId mid.
  assert (match transactions data with Some txs => txs | None => [] end = []) as E.
  { unfold no_rows in Hrows. destruct (transactions data) as [[|? ?]|];
      [reflexivity | discriminate | reflexivity]. }
  pose proof (refresh_session_result
                "Fallo al obtener token de Gasti.pro para generar el resumen." sv fs)
    as R.
  pose proof (refresh_session_completes_nothing
                "Fallo al obtener token de Gasti.pro para generar el resumen." sv fs)
    as C.
  rewrite Htd, Hacc in R.
  unfold ResumenAggregates.handleResumenCommand, ResumenAggregates.getAllTransactions,
    fetch, response_json, response_ok, sendMessage, editMessageText,
    console_error, try_catch, bind, ret, throw, emit, ask,
    result_of, file_of, events_of in *.
  rewrite Hrpc. simpl. rewrite E.
  destruct (refresh_session _ sv fs) as [[r fs1] ev1]. simpl in *. subst r.
  simpl. rewrite !completions_app, C. simpl.
  split; reflexivity.
Qed.

(** C7. Given an empty transaction list, the narrative step returns its fixed
    "nothing to analyse" message and calls no service, the completion API in
    particular: in the first revision [analyzeExpensesWithAI] answers at
    once; in the second [analizarTransacciones] yields the fixed message and
    [analyzeDataWithAI] hands it back untouched.  Accordingly a summary
    command for which the backend lists no row makes no completion call and
    ends by putting the fixed message in the chat. *)
Theorem empty_summary_short_circuits :
  forall sv fs,
    Resumen.analyzeExpensesWithAI [] sv fs
    = (Return [Lit "No hay transacciones para analizar. Registra algunos gastos primero."],
       fs, [])
    /\ ResumenAggregates.analizarTransacciones []
       = [Lit "No se encontraron transacciones para analizar."]
    /\ (forall h,
           ResumenAggregates.analyzeDataWithAI
             h (ResumenAggregates.analizarTransacciones []) sv fs
           = (Return [Lit "No se encontraron transacciones para analizar."], fs, []))
    /\ (forall msg td data,
           refreshed sv = Some td ->
           truthy (accessToken td) = true ->
           rpc_endpoint sv = Accepted (Some data) ->
           no_rows data = true ->
           (let run1 := Resumen.handleResumenCommand msg sv fs in
            completions (events_of run1) = 0%nat
            /\ In (EditMessageText (chat_id msg) (telegram_message_id sv)
                     [Lit "No hay transacciones para analizar. Registra algunos gastos primero."])
                  (events_of run1))
           /\ (forall h,
                  let run2 := ResumenAggregates.handleResumenCommand h msg sv fs in
                  completions (events_of run2) = 0%nat
                  /\ In (EditMessageText (chat_id msg) (telegram_message_id sv)
                           [Lit "No se encontraron transacciones para analizar."])
                        (events_of run2))).
Proof.
  intros sv fs. split; [reflexivity|]. split; [reflexivity|].
  split; [reflexivity|].
  intros msg td data Htd Hacc Hrpc Hrows. split.
  - destruct (summary_of_no_rows msg sv fs td data Htd Hacc Hrpc Hrows) as [C1 E1].
    cbv zeta. split; [exact C1|]. rewrite E1.
    right. apply in_or_app. right. right. left. reflexivity.
  - intros h.
    destruct (summary_of_no_rows_aggregates h msg sv fs td data Htd Hacc Hrpc Hrows)
      as [C2 E2].
    cbv zeta. split; [exact C2|]. rewrite E2.
    right. apply in_or_app. right. right. right. right. left. reflexivity.
Qed.

Lemma empty_summary_short_circuits_witness :
  let run1 := Resumen.handleResumenCommand (chat_message 7 "/resumen")
                                           rotating_backend FileAbsent in
  completions (events_of run1) = 0%nat
  /\ In (EditMessageText 7 100
           [Lit "No hay transacciones para analizar. Registra algunos gastos primero."])
        (events_of run1).
Proof.
  destruct (empty_summary_short_circuits rotating_backend FileAbsent)
    as [_ [_ [_ F]]].
  destruct (F (chat_message 7 "/resumen")
              {| accessToken := VStr "access-1"; newRefreshToken := VStr "rotated-1" |}
              {| transactions := Some []; summary := None |}
              eq_refl eq_refl eq_refl eq_refl) as [[C1 I1] _].
  split; [exact C1 | exact I1].
Defined.

(** With rows to analyse, both revisions do call the completion API. *)
Lemma rows_go_to_the_model h tx txs sv fs :
  hd_error (events_of (Resumen.analyzeExpensesWithAI (tx :: txs) sv fs))
  = Some (ChatCompletion SYSTEM_PROMPT_RESUMEN (Resumen.userPrompt (tx :: txs)))
  /\ hd_error (events_of (ResumenAggregates.analyzeDataWithAI
                            h (ResumenAggregates.analizarTransacciones (tx :: txs))
                            sv fs))
     = Some (ChatCompletion SYSTEM_PROMPT_RESUMEN_2
                            (ResumenAggregates.analizarTransacciones (tx :: txs))).
Proof.
  assert ((length_of (tx :: txs) =? 0) = false) as L
      by (apply Z.eqb_neq; unfold length_of; simpl List.length; lia).
  split.
  - unfold Resumen.analyzeExpensesWithAI. rewrite L.
    rewrite events_bind, fetch_events. reflexivity.
  - unfold ResumenAggregates.analyzeDataWithAI.
    assert (negb (truthy (VStr (render h (analizarTransacciones (tx :: txs)))))
            || startsWith (render h (analizarTransacciones (tx :: txs)))
                          "No se encontraron" = false) as ->
        by (unfold analizarTransacciones; rewrite L; reflexivity).
    rewrite events_bind, fetch_events. reflexivity.
Qed.

(* ================================================================== *)
(** * Further properties *)
(* ================================================================== *)

Lemma chat_messages_app a b :
  chat_messages (a ++ b) = (chat_messages a ++ chat_messages b)%list.
Proof.
  induction a as [|e a IH]; simpl; [reflexivity|].
  destruct e; simpl; rewrite IH; reflexivity.
Qed.

Lemma edits_app a b : edits (a ++ b) = (edits a ++ edits b)%list.
Proof.
  induction a as [|e a IH]; simpl; [reflexivity|].
  destruct e; simpl; rewrite IH; reflexivity.
Qed.

Lemma console_errors_app a b :
  console_errors (a ++ b) = (console_errors a ++ console_errors b)%list.
Proof.
  induction a as [|e a IH]; simpl; [reflexivity|].
  destruct e; simpl; rewrite IH; reflexivity.
Qed.

(** ** The auth refresher *)

(** X1. [getNewAccessToken] never throws and never touches the token file.
    It sends the token it is given, once; it returns the pair of tokens when
    the endpoint accepted and the body decoded, and [null] in every other
    case, which are exactly the cases in which it logs
    "Error al obtener el access_token:". *)
Theorem getNewAccessToken_never_throws :
  forall tok sv fs,
    let r := getNewAccessToken tok sv fs in
    result_of r = Return (refreshed sv)
    /\ file_of r = fs
    /\ token_requests (events_of r) = [tok]
    /\ (refreshed sv = None
        <-> In "Error al obtener el access_token:" (console_errors (events_of r)))
    /\ (forall data, token_endpoint sv = Accepted data ->
                     events_of r = [TokenRequest tok]).
Proof.
  intros tok sv fs r. subst r. unfold refreshed. io_unfold.
  destruct (token_endpoint sv) as [| | |data]; simpl;
    repeat split; auto; try discriminate; intros;
    repeat match goal with
           | H : _ \/ _ |- _ => destruct H
           | H : False |- _ => contradiction
           end; try discriminate; auto.
Qed.

(** ** The parse step *)

(** X2. [parseExpenseWithAI] never throws and makes one completion call,
    with the user's text.  It returns the decoded object when the model
    answered with one that carries no [error], and [null] otherwise.  A text
    the model flags as no expense is not a fault: nothing is written to the
    error console.  Every other [null] is logged. *)
Theorem parseExpenseWithAI_never_throws :
  forall t sv fs,
    let r := parseExpenseWithAI t sv fs in
    result_of r = Return (parsed sv)
    /\ file_of r = fs
    /\ hd_error (events_of r) = Some (ChatCompletion SYSTEM_PROMPT [Lit t])
    /\ completions (events_of r) = 1%nat
    /\ (console_errors (events_of r) = [] <-> parsed sv <> None \/ flagged sv = true).
Proof.
  intros t sv fs r. subst r. unfold parsed, flagged. io_unfold.
  destruct (expense_model sv) as [| | |[e|]]; simpl;
    try (repeat split; auto; try discriminate;
         intros [H|H]; [congruence | discriminate]).
  destruct (truthy (error e)); simpl; repeat split; auto; try discriminate.
  left. discriminate.
Qed.

(** ** The dispatcher *)

Lemma file_try_catch {A} (body : io A) (handler : string -> io A) sv fs :
  file_of (try_catch body handler sv fs)
  = match result_of (body sv fs) with
    | Return _ => file_of (body sv fs)
    | Throw err => file_of (handler err sv (file_of (body sv fs)))
    end.
Proof.
  unfold try_catch, result_of, file_of.
  destruct (body sv fs) as [[[a|err] fs1] ev1]; simpl; [reflexivity|].
  destruct (handler err sv fs1) as [[r fs2] ev2]. reflexivity.
Qed.

Lemma on_error_run chatId err sv fs :
  on_error chatId err sv fs
  = (Return tt, fs, [ConsoleError "[ERROR en el chat]"; SendMessage chatId SYSTEM_ERROR]).
Proof. reflexivity. Qed.

(** X3. What the message handler adds to the command it runs, Telegram
    taking the messages.  For a text that is not empty and does not start
    with "/start" the handler runs the listing command (for "/gastos") or
    the recorder.  When that returns, the trace of the handler is the trace
    of the command; when it throws, the handler logs the error once and sends
    the apology once, after everything the command did.  The token file is
    left as the command left it. *)
Theorem failed_command_is_reported_once :
  forall g msg t sv fs,
    text msg = Some t ->
    t <> EmptyString ->
    startsWith t "/start" = false ->
    let command :=
      if startsWith t "/gastos" then g msg else expense_recorder (chat_id msg) t in
    events_of (on_message g msg sv fs)
    = (events_of (command sv fs)
       ++ match result_of (command sv fs) with
          | Return _ => []
          | Throw _ => [ConsoleError "[ERROR en el chat]";
                        SendMessage (chat_id msg) SYSTEM_ERROR]
          end)%list
    /\ file_of (on_message g msg sv fs) = file_of (command sv fs).
Proof.
  intros g msg t sv fs Ht Hne H1 command. subst command.
  unfold on_message. rewrite Ht.
  assert (truthy (VStr t) = true) as ->
      by (destruct t; [contradiction | reflexivity]).
  cbn [negb]. rewrite H1.
  rewrite events_try_catch, file_try_catch.
  destruct (startsWith t "/gastos");
    match goal with
    | |- context [result_of ?r] => destruct (result_of r)
    end; split; reflexivity.
Qed.

Lemma failed_command_is_reported_once_witness :
  events_of (on_message GastosByDate.handleGastosCommand
                        (chat_message 7 "/gastos") read_only_disk FileAbsent)
  = (events_of (GastosByDate.handleGastosCommand
                  (chat_message 7 "/gastos") read_only_disk FileAbsent)
     ++ [ConsoleError "[ERROR en el chat]"; SendMessage 7 SYSTEM_ERROR])%list
  /\ chat_messages
       (events_of (on_message GastosByDate.handleGastosCommand
                              (chat_message 7 "/gastos") read_only_disk FileAbsent))
     = [[Lit "Buscando tus gastos en Gasti.pro..."]; SYSTEM_ERROR].
Proof.
  destruct (failed_command_is_reported_once GastosByDate.handleGastosCommand
              (chat_message 7 "/gastos") "/gastos" read_only_disk FileAbsent
              eq_refl ltac:(discriminate) eq_refl) as [E _].
  split; [exact E|]. rewrite E. vm_compute. reflexivity.
Defined.

(** ** Submission and what the chat is told *)

Lemma sendTransaction_run tok e sv fs :
  sendTransaction tok e sv fs
  = match or_else (currency e) (VStr "USD") with
    | VStr s =>
        (Return (answered_ok (transactions_endpoint sv)), fs,
         CreateTransaction tok (payload_of sv e (toUpperCase s))
         :: match transactions_endpoint sv with
            | Unreachable => [ConsoleError "Error al enviar la transacción:"]
            | Refused _ _ => [ConsoleError "Error de Gasti.pro:"]
            | _ => []
            end)
    | _ => (Throw "TypeError", fs, [])
    end.
Proof.
  io_unfold. unfold payload_of.
  destruct (or_else (currency e) (VStr "USD")); simpl; auto.
  destruct (transactions_endpoint sv); reflexivity.
Qed.

(** X4. [sendTransaction] leaves the token file alone and answers with the
    status of the backend: with a currency that is a string, or none, it
    makes exactly one creation call and returns [true] when the response
    carries an ok status and [false], after logging, when it does not or
    when the backend cannot be reached.  With a currency that is set and is
    no string it throws a TypeError before any call is made. *)
Theorem sendTransaction_reports_the_status :
  forall tok e sv fs,
    let r := sendTransaction tok e sv fs in
    file_of r = fs
    /\ match or_else (currency e) (VStr "USD") with
       | VStr s =>
           result_of r = Return (answered_ok (transactions_endpoint sv))
           /\ hd_error (events_of r)
              = Some (CreateTransaction tok (payload_of sv e (toUpperCase s)))
           /\ submissions (events_of r) = 1%nat
           /\ (answered_ok (transactions_endpoint sv) = false
               <-> console_errors (events_of r) <> [])
       | _ => result_of r = Throw "TypeError" /\ events_of r = []
       end.
Proof.
  intros tok e sv fs r. subst r. rewrite sendTransaction_run.
  destruct (or_else (currency e) (VStr "USD")); simpl; auto.
  destruct (transactions_endpoint sv); simpl; repeat split; auto;
    try discriminate; try congruence.
Qed.

Lemma parseExpenseWithAI_says_nothing t sv fs :
  chat_messages (events_of (parseExpenseWithAI t sv fs)) = [].
Proof.
  io_unfold. destruct (expense_model sv) as [| | |[e|]]; simpl; auto.
  destruct (truthy (error e)); reflexivity.
Qed.

Lemma refresh_session_says_nothing failure sv fs :
  chat_messages (events_of (refresh_session failure sv fs)) = []
  /\ edits (events_of (refresh_session failure sv fs)) = [].
Proof.
  io_unfold.
  destruct fs; simpl;
    (destruct (token_endpoint sv) as [| | |data]; simpl; auto);
    (destruct (truthy (access_token data)); simpl; auto);
    (match goal with
     | |- context [truthy (refresh_token data) && ?b] =>
         destruct (truthy (refresh_token data) && b); simpl; auto
     end);
    destruct (fs_write_ok sv); simpl; auto.
Qed.

Lemma refresh_session_session failure sv fs :
  result_of (refresh_session failure sv fs)
  = match session sv with
    | Some a => Return a
    | None => Throw failure
    end.
Proof.
  rewrite refresh_session_result. unfold session.
  destruct (refreshed sv) as [td|]; [|reflexivity].
  destruct (truthy (accessToken td)); reflexivity.
Qed.

(** What the continuation of the handler says and how it ends. *)
Lemma record_parsed_transcript chatId sv fs :
  let r := record_parsed chatId (parsed sv) sv fs in
  match understood sv with
  | None => result_of r = Return tt /\ chat_messages (events_of r) = [NOT_UNDERSTOOD]
  | Some e =>
      match or_else (currency e) (VStr "USD") with
      | VStr s =>
          if match session sv with Some _ => true | None => false end
             && answered_ok (transactions_endpoint sv)
          then result_of r = Return tt
               /\ chat_messages (events_of r)
                  = [confirmation e (toUpperCase s); REGISTERED]
          else (exists err, result_of r = Throw err)
               /\ chat_messages (events_of r) = [confirmation e (toUpperCase s)]
      | _ => (exists err, result_of r = Throw err)
             /\ chat_messages (events_of r) = []
      end
  end.
Proof.
  cbv zeta. unfold understood, record_parsed.
  destruct (parsed sv) as [e|]; [|split; reflexivity].
  destruct (truthy (amount e)); [|split; reflexivity].
  destruct (truthy (description e)); [|split; reflexivity]. cbn [andb negb orb].
  rewrite events_bind, result_bind.
  destruct (or_else (currency e) (VStr "USD")) as [| | | |s] eqn:Ecur; simpl;
    try (split; [eexists; reflexivity | reflexivity]).
  rewrite events_bind, result_bind, sendMessage_run. io_simpl.
  rewrite events_bind, result_bind, refresh_session_session.
  change (file_of (ret (toUpperCase s) sv fs)) with fs.
  cbn [chat_messages]. rewrite chat_messages_app.
  destruct (refresh_session_says_nothing
              "Fallo al obtener token de Gasti.pro. Verifica las credenciales y la conexión."
              sv fs) as [-> _].
  destruct (session sv) as [a|]; cbn [andb app chat_messages];
    [|split; [eexists; reflexivity | reflexivity]].
  rewrite events_bind, result_bind, sendTransaction_run, Ecur. io_simpl.
  destruct (transactions_endpoint sv); simpl;
    (split; [try reflexivity; eexists; reflexivity | reflexivity]).
Qed.

Lemma expense_recorder_result chatId t sv fs :
  result_of (expense_recorder chatId t sv fs)
  = result_of (record_parsed chatId (parsed sv) sv fs).
Proof.
  unfold expense_recorder.
  pose proof (parseExpenseWithAI_result t sv fs) as [Pr [Pf _]].
  rewrite result_bind, sendMessage_run. io_simpl.
  rewrite result_bind, Pr, Pf.
  rewrite result_bind, editMessageText_run. io_simpl. reflexivity.
Qed.

(** X5. What the chat is told about a text that is no command.  After
    "analysing" comes exactly one verdict.  "Could not understand" when the
    parse step gave no expense with amount and description.  Otherwise the
    confirmation, then "registered" when an access token was obtained and
    the backend answered the creation call with an ok status, and the
    apology in every other case; the apology alone when the currency cannot
    be upper-cased.  So "registered" is never said of a transaction the
    backend refused. *)
Theorem recording_transcript :
  forall g msg t sv fs,
    text msg = Some t ->
    t <> "" ->
    startsWith t "/start" = false ->
    startsWith t "/gastos" = false ->
    let said := chat_messages (events_of (on_message g msg sv fs)) in
    said
    = THINKING
      :: match understood sv with
         | None => [NOT_UNDERSTOOD]
         | Some e =>
             match or_else (currency e) (VStr "USD") with
             | VStr s =>
                 [confirmation e (toUpperCase s);
                  if match session sv with Some _ => true | None => false end
                     && answered_ok (transactions_endpoint sv)
                  then REGISTERED else SYSTEM_ERROR]
             | _ => [SYSTEM_ERROR]
             end
         end
    /\ (In REGISTERED said ->
        session sv <> None /\ answered_ok (transactions_endpoint sv) = true).
Proof.
  intros g msg t sv fs Ht Hne H1 H2 said.
  assert (said
          = THINKING
            :: match understood sv with
               | None => [NOT_UNDERSTOOD]
               | Some e =>
                   match or_else (currency e) (VStr "USD") with
                   | VStr s =>
                       [confirmation e (toUpperCase s);
                        if match session sv with Some _ => true | None => false end
                           && answered_ok (transactions_endpoint sv)
                        then REGISTERED else SYSTEM_ERROR]
                   | _ => [SYSTEM_ERROR]
                   end
               end) as E.
  { subst said. rewrite (on_message_records g msg t sv fs Ht H1 H2).
    assert (truthy (VStr t) = true) as ->.
    { simpl. destruct (String.eqb_spec t ""); [contradiction | reflexivity]. }
    rewrite events_try_catch, expense_recorder_result, expense_recorder_events.
    rewrite chat_messages_app. cbn [chat_messages].
    rewrite chat_messages_app, parseExpenseWithAI_says_nothing. cbn [chat_messages app].
    pose proof (record_parsed_transcript (chat_id msg) sv fs) as T. cbv zeta in T.
    destruct (understood sv) as [e|].
    - destruct (or_else (currency e) (VStr "USD")) as [| | | |s];
        try (destruct T as [[err ->] ->]; reflexivity).
      destruct (match session sv with Some _ => true | None => false end
                && answered_ok (transactions_endpoint sv)).
      + destruct T as [-> ->]. reflexivity.
      + destruct T as [[err ->] ->]. reflexivity.
    - destruct T as [-> ->]. reflexivity. }
  split; [exact E|].
  rewrite E. intros I.
  destruct I as [I|I]; [discriminate I|].
  destruct (understood sv) as [e|].
  - destruct (or_else (currency e) (VStr "USD")) as [| | | |s];
      try (destruct I as [I|[]]; discriminate I).
    destruct I as [I|[I|[]]]; [discriminate I|].
    destruct (session sv); [|discriminate I].
    destruct (answered_ok (transactions_endpoint sv)); [|discriminate I].
    split; [discriminate | reflexivity].
  - destruct I as [I|[]]. discriminate I.
Qed.

Lemma recording_transcript_witness :
  chat_messages
    (events_of (on_message Gastos.handleGastosCommand
                           (chat_message 7 "Cena con amigos 45.50 usd")
                           dinner FileAbsent))
  = [THINKING; confirmation cena_con_amigos "USD"; REGISTERED]
  /\ session dinner <> None.
Proof.
  destruct (recording_transcript Gastos.handleGastosCommand
              (chat_message 7 "Cena con amigos 45.50 usd")
              "Cena con amigos 45.50 usd" dinner FileAbsent
              eq_refl ltac:(discriminate) eq_refl eq_refl) as [E R].
  split; [rewrite E; reflexivity|].
  apply R. rewrite E. right. right. left. reflexivity.
Defined.

(** ** The listing command, in its three revisions *)

Lemma completions_none evs :
  completions evs = 0%nat -> forall p m, ~ In (ChatCompletion p m) evs.
Proof.
  induction evs as [|e evs IH]; simpl; intros H p m HI; [contradiction|].
  destruct HI as [E|I].
  - subst e. discriminate.
  - destruct e; try discriminate; eapply IH; eauto.
Qed.

Ltac refresh_facts f sv fs :=
  pose proof (refresh_session_session f sv fs) as Rres;
  pose proof (refresh_session_says_nothing f sv fs) as [Rchat Redit];
  pose proof (refresh_session_submits_nothing f sv fs) as Rsub;
  pose proof (refresh_session_completes_nothing f sv fs) as Rcomp.

Ltac traces_done :=
  simpl;
  rewrite ?chat_messages_app, ?edits_app, ?submissions_app, ?completions_app;
  simpl;
  repeat match goal with
         | H : chat_messages ?e = [] |- _ => rewrite H
         | H : edits ?e = [] |- _ => rewrite H
         | H : submissions ?e = 0%nat |- _ => rewrite H
         | H : completions ?e = 0%nat |- _ => rewrite H
         end;
  simpl; repeat split; eauto.

Ltac unfold_listing :=
  unfold Gastos.handleGastosCommand, Gastos.getMonthlyExpenses,
    Gastos.formatApiResponse,
    GastosByDate.handleGastosCommand, GastosByDate.getMonthlyExpenses,
    GastosByDate.formatApiResponse,
    GastosQuiet.handleGastosCommand, GastosQuiet.getMonthlyExpenses,
    GastosQuiet.formatApiResponse, listed,
    fetch, response_json, response_ok, sendMessage, editMessageText,
    console_error, try_catch, bind, ret, throw, emit, ask,
    result_of, file_of, events_of in *.

(** X6. The listing command of resumen.js and of part_001 sends one
    message, "Buscando...", and edits it exactly once: to the formatted
    listing when it obtained the body of the RPC, and then it returns; to
    the error text in every other case, and then it rethrows.  It creates no
    transaction and calls no model. *)
Theorem listing_edits_once :
  forall msg sv fs,
    let outcome_of (r : outcome unit * file_state * list event)
                   (format : option api_response -> message) :=
      chat_messages (events_of r) = [[Lit "Buscando tus gastos en Gasti.pro..."]]
      /\ submissions (events_of r) = 0%nat
      /\ completions (events_of r) = 0%nat
      /\ match listed sv with
         | Some body =>
             result_of r = Return tt /\ edits (events_of r) = [format body]
         | None =>
             (exists err, result_of r = Throw err)
             /\ edits (events_of r) = [GastosQuiet.LISTING_ERROR]
         end in
    outcome_of (Gastos.handleGastosCommand msg sv fs) Gastos.formatApiResponse
    /\ outcome_of (GastosByDate.handleGastosCommand msg sv fs)
                  GastosByDate.formatApiResponse.
Proof.
  intros msg sv fs. cbv zeta.
  refresh_facts "Fallo al obtener token de Gasti.pro para ver los gastos." sv fs.
  unfold_listing.
  destruct (refresh_session _ sv fs) as [[r fs1] ev1]. simpl in *.
  destruct (session sv) as [a|]; subst r; simpl.
  - destruct (rpc_endpoint sv); split; traces_done.
  - split; traces_done.
Qed.

(** X7. The listing command of part_000 reports a failure once.  Its
    [getMonthlyExpenses] never throws: it returns the body of the RPC when
    the response is ok and decodes, and [null] after logging in every other
    case.  The command, Telegram taking the messages, sends "Buscando..."
    and edits it exactly once: to the formatted listing when the RPC gave a
    body that is not [null], to the error text otherwise (a [null] body
    included).  It does not rethrow, so the apology of the message handler
    does not follow the error text. *)
Theorem quiet_listing_reports_once :
  forall msg sv fs,
    let r := GastosQuiet.handleGastosCommand msg sv fs in
    (forall tok,
        let q := GastosQuiet.getMonthlyExpenses tok sv fs in
        result_of q = Return (match rpc_endpoint sv with
                              | Accepted body => body
                              | _ => None
                              end)
        /\ file_of q = fs
        /\ (console_errors (events_of q) = []
            <-> exists body, rpc_endpoint sv = Accepted body))
    /\ chat_messages (events_of r) = [[Lit "Buscando tus gastos en Gasti.pro..."]]
    /\ edits (events_of r)
       = [match listed sv with
          | Some (Some data) => GastosQuiet.formatApiResponse (Some data)
          | _ => GastosQuiet.LISTING_ERROR
          end]
    /\ submissions (events_of r) = 0%nat
    /\ (forall t,
           text msg = Some t ->
           startsWith t "/start" = false ->
           startsWith t "/gastos" = true ->
           chat_messages
             (events_of (on_message GastosQuiet.handleGastosCommand msg sv fs))
           = [[Lit "Buscando tus gastos en Gasti.pro..."]]).
Proof.
  intros msg sv fs r.
  assert (result_of r = Return tt
          /\ chat_messages (events_of r) = [[Lit "Buscando tus gastos en Gasti.pro..."]]
          /\ edits (events_of r)
             = [match listed sv with
                | Some (Some data) => GastosQuiet.formatApiResponse (Some data)
                | _ => GastosQuiet.LISTING_ERROR
                end]
          /\ submissions (events_of r) = 0%nat) as [R [C [E S]]].
  { subst r.
    refresh_facts "Fallo al obtener token de Gasti.pro para ver los gastos." sv fs.
    unfold_listing.
    destruct (refresh_session _ sv fs) as [[r fs1] ev1]. simpl in *.
    destruct (session sv) as [a|]; subst r; simpl.
    - destruct (rpc_endpoint sv) as [| | |[data|]]; traces_done.
    - traces_done. }
  split.
  { intros tok. cbv zeta. unfold_listing.
    destruct (rpc_endpoint sv) as [| | |body]; simpl;
      (split; [reflexivity|]); (split; [reflexivity|]);
      (split; [intros H; try discriminate H; eauto
              | intros [b Hb]; try discriminate Hb; reflexivity]). }
  repeat split; auto.
  intros t Ht H1 H2. unfold on_message. rewrite Ht.
  assert (truthy (VStr t) = true) as ->
      by (destruct t; [discriminate H2 | reflexivity]).
  cbn [negb]. rewrite H1, H2, events_try_catch. fold r. rewrite R, app_nil_r.
  exact C.
Qed.

Lemma quiet_listing_reports_once_witness :
  chat_messages
    (events_of (on_message GastosQuiet.handleGastosCommand
                           (chat_message 7 "/gastos") read_only_disk FileAbsent))
  = [[Lit "Buscando tus gastos en Gasti.pro..."]]
  /\ edits (events_of (GastosQuiet.handleGastosCommand
                         (chat_message 7 "/gastos") read_only_disk FileAbsent))
     = [GastosQuiet.LISTING_ERROR].
Proof.
  destruct (quiet_listing_reports_once (chat_message 7 "/gastos")
              read_only_disk FileAbsent) as [_ [_ [E [_ Q]]]].
  split; [apply (Q "/gastos"); reflexivity | exact E].
Defined.

(** ** The summary command, in its two revisions *)

Ltac unfold_summary :=
  unfold Resumen.handleResumenCommand, Resumen.getAllTransactions,
    Resumen.analyzeExpensesWithAI,
    ResumenAggregates.handleResumenCommand, ResumenAggregates.getAllTransactions,
    ResumenAggregates.analyzeDataWithAI, fetched, listed, rows,
    fetch, response_json, response_ok, sendMessage, editMessageText,
    console_error, try_catch, bind, ret, throw, emit, ask,
    result_of, file_of, events_of in *.

Lemma model_calls_app a b :
  model_calls (a ++ b) = (model_calls a ++ model_calls b)%list.
Proof.
  induction a as [|e a IH]; simpl; [reflexivity|].
  destruct e; simpl; rewrite IH; reflexivity.
Qed.

Lemma model_calls_none evs : completions evs = 0%nat -> model_calls evs = [].
Proof.
  induction evs as [|e evs IH]; simpl; [reflexivity|].
  destruct e; intros H; try discriminate; auto.
Qed.

Ltac summary_done :=
  simpl;
  rewrite ?model_calls_app, ?submissions_app;
  simpl;
  repeat match goal with
         | H : model_calls ?e = [] |- _ => rewrite H
         | H : submissions ?e = 0%nat |- _ => rewrite H
         end;
  simpl;
  first [ reflexivity | lia
        | intros ? HI; simpl in HI;
          repeat (destruct HI as [HI|HI]; [symmetry; exact HI|]); contradiction ].

(** X8. What the summary command sends to the model.  A run makes at most
    one completion call and creates no transaction.  The first revision
    sends its own prompt with the rows the RPC returned, one line each; the
    second sends the narrative prompt with nothing but the block of
    aggregates [analizarTransacciones] computed from the normalised rows:
    no row of the user reaches the model in that revision. *)
Theorem summary_model_calls :
  forall h msg sv fs,
    let e1 := events_of (Resumen.handleResumenCommand msg sv fs) in
    let e2 := events_of (ResumenAggregates.handleResumenCommand h msg sv fs) in
    submissions e1 = 0%nat
    /\ submissions e2 = 0%nat
    /\ (List.length (model_calls e1) <= 1)%nat
    /\ (List.length (model_calls e2) <= 1)%nat
    /\ (forall c, In c (model_calls e1) ->
                  c = (SYSTEM_PROMPT_RESUMEN, Resumen.userPrompt (fetched sv)))
    /\ (forall c, In c (model_calls e2) ->
                  c = (SYSTEM_PROMPT_RESUMEN_2,
                       ResumenAggregates.analizarTransacciones
                         (map ResumenAggregates.normalize (fetched sv)))).
Proof.
  intros h msg sv fs. cbv zeta.
  refresh_facts "Fallo al obtener token de Gasti.pro para generar el resumen." sv fs.
  pose proof (model_calls_none _ Rcomp) as Rmodel.
  unfold_summary.
  destruct (refresh_session _ sv fs) as [[r fs1] ev1]. simpl in *.
  destruct (session sv) as [a|]; subst r; simpl.
  2: repeat apply conj; summary_done.
  destruct (rpc_endpoint sv) as [| | |[[[txs|]]|]]; simpl;
    repeat match goal with
           | |- context [if ?b then _ else _] => destruct b; simpl
           | |- context [match summary_model sv with _ => _ end] =>
               destruct (summary_model sv); simpl
           end;
    repeat apply conj; summary_done.
Qed.

(** ** The token store across commands *)

Lemma flow_leaves_token c sv fs :
  token_requests (events_of (run c sv fs)) <> [] ->
  token_requests (events_of (run c sv fs)) = [stored_token sv fs]
  /\ file_of (run c sv fs)
     = match refreshed sv with
       | Some td =>
           if truthy (accessToken td) && rotates td (stored_token sv fs)
              && fs_write_ok sv
           then FileToken (json_roundtrip (newRefreshToken td))
           else fs
       | None => fs
       end.
Proof.
  intros Hreq.
  destruct (flow_token_trace c sv fs) as [[H _]|[failure [Hr [_ Hf]]]];
    [contradiction|].
  rewrite Hr, Hf.
  pose proof (refresh_session_spec failure sv fs) as S. cbv zeta in S.
  destruct S as [S1 S2]. split; [exact S1|].
  destruct (refreshed sv) as [td|]; [|apply S2].
  destruct (truthy (accessToken td)); simpl; apply S2.
Qed.

(** X9. Two commands in a row, the process keeping its seed token.  When
    both reach the token endpoint, the first presents the stored token (the
    seed when the file is missing or unreadable).  The second presents the
    token the backend returned to the first when that one was stored: the
    exchange gave an access token, the returned token was set and new, and
    the write succeeded.  In every other case, a failed write included, the
    second command presents again the token the first one presented. *)
Theorem next_command_presents_the_stored_token :
  forall c1 c2 sv1 sv2 fs,
    GASTI_INITIAL_REFRESH_TOKEN sv2 = GASTI_INITIAL_REFRESH_TOKEN sv1 ->
    token_requests (events_of (run c1 sv1 fs)) <> [] ->
    token_requests (events_of (run c2 sv2 (file_of (run c1 sv1 fs)))) <> [] ->
    let first := stored_token sv1 fs in
    token_requests (events_of (run c1 sv1 fs)) = [first]
    /\ token_requests (events_of (run c2 sv2 (file_of (run c1 sv1 fs))))
       = [match refreshed sv1 with
          | Some td =>
              if truthy (accessToken td) && rotates td first && fs_write_ok sv1
              then json_roundtrip (newRefreshToken td)
              else first
          | None => first
          end].
Proof.
  intros c1 c2 sv1 sv2 fs Hseed H1 H2 first.
  destruct (flow_leaves_token c1 sv1 fs H1) as [R1 F1].
  destruct (flow_leaves_token c2 sv2 _ H2) as [R2 _].
  split; [exact R1|]. rewrite R2, F1. subst first.
  assert (stored_token sv2 fs = stored_token sv1 fs) as Hs
      by (destruct fs; simpl; auto).
  destruct (refreshed sv1) as [td|]; [|rewrite Hs; reflexivity].
  destruct (truthy (accessToken td) && rotates td (stored_token sv1 fs)
            && fs_write_ok sv1); [reflexivity | rewrite Hs; reflexivity].
Qed.

Lemma next_command_presents_the_stored_token_witness :
  token_requests
    (events_of (run (List_expenses (chat_message 7 "/gastos")) rotating_backend
                    FileAbsent))
  = [VStr "seed-token"]
  /\ token_requests
       (events_of (run (Summarize (chat_message 7 "/resumen")) rotating_backend
                       (file_of (run (List_expenses (chat_message 7 "/gastos"))
                                     rotating_backend FileAbsent))))
     = [VStr "rotated-1"]
  /\ token_requests
       (events_of (run (Summarize (chat_message 7 "/resumen")) read_only_disk
                       (file_of (run (List_expenses (chat_message 7 "/gastos"))
                                     read_only_disk FileAbsent))))
     = [VStr "seed-token"].
Proof.
  split; [|split].
  - apply (next_command_presents_the_stored_token
             (List_expenses (chat_message 7 "/gastos"))
             (Summarize (chat_message 7 "/resumen"))
             rotating_backend rotating_backend FileAbsent);
      [reflexivity | discriminate | discriminate].
  - apply (next_command_presents_the_stored_token
             (List_expenses (chat_message 7 "/gastos"))
             (Summarize (chat_message 7 "/resumen"))
             rotating_backend rotating_backend FileAbsent);
      [reflexivity | discriminate | discriminate].
  - apply (next_command_presents_the_stored_token
             (List_expenses (chat_message 7 "/gastos"))
             (Summarize (chat_message 7 "/resumen"))
             read_only_disk read_only_disk FileAbsent);
      [reflexivity | discriminate | discriminate].
Defined.

(** ** The categories of the aggregates *)

Lemma firstn_incl {A} n (l : list A) x : In x (firstn n l) -> In x l.
Proof.
  intros H. rewrite <- (firstn_skipn n l). apply in_or_app. left. exact H.
Qed.

Lemma firstn_NoDup {A} n (l : list A) : NoDup l -> NoDup (firstn n l).
Proof.
  intros H. rewrite <- (firstn_skipn n l) in H.
  eapply NoDup_app_remove_r, H.
Qed.

Lemma accumulate_keys k x l k' :
  In k' (map fst (accumulate k x l)) <-> k' = k \/ In k' (map fst l).
Proof.
  induction l as [|[k0 v] l IH]; simpl.
  - intuition.
  - destruct (String.eqb k k0) eqn:E; simpl.
    + apply String.eqb_eq in E. subst k0. intuition.
    + rewrite IH. intuition.
Qed.

Lemma accumulate_NoDup k x l :
  NoDup (map fst l) -> NoDup (map fst (accumulate k x l)).
Proof.
  induction l as [|[k0 v] l IH]; simpl; intros H.
  - constructor; [intros []|constructor].
  - inversion H as [|? ? Hn Hd]; subst.
    destruct (String.eqb k k0) eqn:E; simpl.
    + constructor; assumption.
    + constructor; [|apply IH, Hd].
      rewrite accumulate_keys. intros [->|I]; [|contradiction].
      rewrite String.eqb_refl in E. discriminate.
Qed.

Lemma accumulate_length k x l :
  (List.length l <= List.length (accumulate k x l))%nat.
Proof.
  induction l as [|[k0 v] l IH]; simpl; [lia|].
  destruct (String.eqb k k0); simpl; lia.
Qed.

Lemma tally_keys txs : forall start k,
  In k (map fst (tally txs start))
  <-> In k (map fst start)
      \/ exists t, In t txs /\ k = category_or (tx_category t) "Sin Categoría".
Proof.
  induction txs as [|t txs IH]; intros start k; simpl.
  - split; [auto | intros [H|[t [[] _]]]; exact H].
  - unfold tally in *. simpl. rewrite IH, accumulate_keys. split.
    + intros [[->|H]|[t' [I E]]]; eauto.
    + intros [H|[t' [[->|I] E]]]; eauto.
Qed.

Lemma tally_NoDup txs : forall start,
  NoDup (map fst start) -> NoDup (map fst (tally txs start)).
Proof.
  induction txs as [|t txs IH]; intros start H; simpl; [exact H|].
  apply IH, accumulate_NoDup, H.
Qed.

Lemma tally_length txs : forall start,
  (List.length start <= List.length (tally txs start))%nat.
Proof.
  induction txs as [|t txs IH]; intros start; simpl; [lia|].
  etransitivity; [apply accumulate_length | apply IH].
Qed.

Lemma tally_occupied t txs start :
  (1 <= List.length (tally (t :: txs) start))%nat.
Proof.
  simpl. etransitivity; [|apply tally_length].
  destruct start as [|[k v] r]; simpl; [lia|].
  destruct (String.eqb _ k); simpl; lia.
Qed.

(** X10. Given rows whose categories are not named like a member of
    [Object.prototype], [getTopCategorias] lists at most five categories,
    none of them twice, and each the category of one of the rows it was
    given, rows without a category counting under "Sin Categoría"; the list
    is empty only when no row was given.  (A category "__proto__" sets no
    key of the object and "constructor" adds to a function: hence the
    condition.) *)
Theorem top_categories_are_distinct :
  forall listaGastos,
    own_categories listaGastos ->
    let top := getTopCategorias listaGastos in
    (List.length top <= 5)%nat
    /\ NoDup (map fst top)
    /\ (forall k, In k (map fst top) ->
                  exists t, In t listaGastos
                            /\ k = category_or (tx_category t) "Sin Categoría")
    /\ (top = [] <-> listaGastos = []).
Proof.
  intros txs _ top. subst top. unfold getTopCategorias. fold (tally txs []).
  set (after := fun a b : string * number => num_lt pos_zero (num_sub (snd b) (snd a))).
  pose proof (array_sort_perm after (tally txs [])) as P.
  split; [apply firstn_le_length|].
  split.
  { rewrite <- firstn_map. apply firstn_NoDup.
    eapply Permutation_NoDup; [apply Permutation_map, P|].
    apply tally_NoDup. constructor. }
  split.
  { intros k I. rewrite <- firstn_map in I. apply firstn_incl in I.
    eapply Permutation_in in I; [|apply Permutation_sym, Permutation_map, P].
    apply tally_keys in I. destruct I as [[]|I]; exact I. }
  split.
  - intros E. destruct txs as [|t txs]; [reflexivity|]. exfalso.
    apply (f_equal (@List.length _)) in E.
    rewrite length_firstn, array_sort_length in E.
    pose proof (tally_occupied t txs []) as L.
    set (n := List.length (tally (t :: txs) [])) in *.
    cbn [List.length] in E. lia.
  - intros ->. reflexivity.
Qed.

Lemma top_categories_are_distinct_witness :
  map fst (getTopCategorias [first_of_july; late_july]) = ["🛒 Supermercado"]
  /\ NoDup (map fst (getTopCategorias [first_of_july; late_july])).
Proof.
  split; [vm_compute; reflexivity|].
  apply (top_categories_are_distinct [first_of_july; late_july]).
  repeat constructor.
Defined.

(** ** The sort of the listing *)

Lemma insert_by_date_at_instant d x l :
  at_instant d (insert_sorted by_date_desc x l) = at_instant d (x :: l).
Proof.
  unfold at_instant. induction l as [|y r IH]; [reflexivity|].
  cbn [insert_sorted]. unfold by_date_desc at 1.
  destruct (tx_date x <? tx_date y) eqn:E; [|reflexivity].
  apply Z.ltb_lt in E. cbn [filter]. rewrite IH. cbn [filter].
  destruct (tx_date x =? d) eqn:Ex; destruct (tx_date y =? d) eqn:Ey;
    try reflexivity.
  apply Z.eqb_eq in Ex, Ey. lia.
Qed.

Lemma sorted_stays txs :
  StronglySorted later_first txs -> GastosByDate.sortedTransactions txs = txs.
Proof.
  unfold GastosByDate.sortedTransactions.
  induction 1 as [|x r Hs IH Hall]; [reflexivity|].
  cbn [array_sort]. rewrite IH.
  destruct r as [|y r']; [reflexivity|].
  cbn [insert_sorted]. unfold by_date_desc.
  inversion Hall as [|? ? Hxy _]; subst. unfold later_first in Hxy.
  destruct (tx_date x <? tx_date y) eqn:E; [|reflexivity].
  apply Z.ltb_lt in E. lia.
Qed.

(** X11. The sort of part_001 is stable and loses nothing: the rows of one
    instant stand in the sorted copy in the order the backend sent them, and
    the copy holds the rows of the backend, each as often as it was sent. *)
Theorem by_date_sort_is_stable :
  forall txs,
    Permutation txs (GastosByDate.sortedTransactions txs)
    /\ forall d,
         at_instant d (GastosByDate.sortedTransactions txs) = at_instant d txs.
Proof.
  intros txs. split; [apply array_sort_perm|].
  intros d. unfold GastosByDate.sortedTransactions.
  induction txs as [|x r IH]; [reflexivity|].
  cbn [array_sort]. rewrite insert_by_date_at_instant.
  unfold at_instant in *. cbn [filter]. rewrite IH. reflexivity.
Qed.

(** X12. The two revisions of [formatApiResponse] give the same message
    whenever the backend sends the rows latest first: the revision of
    resumen.js differs from that of part_001 on the other orders only. *)
Theorem revisions_agree_on_descending_rows :
  forall apiResponse,
    StronglySorted later_first (rows apiResponse) ->
    GastosByDate.formatApiResponse apiResponse
    = Gastos.formatApiResponse apiResponse.
Proof.
  intros [[[txs|] summary]|] H; try reflexivity.
  unfold GastosByDate.formatApiResponse, Gastos.formatApiResponse, format_with.
  simpl in H. rewrite (sorted_stays _ H). reflexivity.
Qed.

Lemma revisions_agree_on_descending_rows_witness :
  GastosByDate.formatApiResponse (listing [late_july; first_of_july])
  = Gastos.formatApiResponse (listing [late_july; first_of_july]).
Proof.
  apply revisions_agree_on_descending_rows. simpl.
  repeat constructor; unfold later_first; simpl; lia.
Defined.

(** ** The results of a query (src/unnamed/part_001) *)

Lemma Return_inj {A} (a b : A) : Return a = Return b -> a = b.
Proof. intros H. injection H as H. exact H. Qed.

Lemma strict_eq_text v s : strict_eq v (VStr s) = true <-> v = VStr s.
Proof.
  destruct v; simpl; split; intros H; try discriminate.
  - apply String.eqb_eq in H. subst. reflexivity.
  - injection H as ->. apply String.eqb_refl.
Qed.

Lemma below_and_above_zero x :
  num_lt x pos_zero = true -> num_lt pos_zero x = true -> False.
Proof.
  destruct x as [[|]|[|]| |[|] m e]; simpl; discriminate.
Qed.

Lemma filter_filter_length {A} (p q c : A -> bool) l :
  (forall x, p x = true -> q x = true -> False) ->
  (List.length (filter c (filter p l)) + List.length (filter c (filter q l))
   <= List.length (filter c l))%nat.
Proof.
  intros D. induction l as [|x l IH]; simpl; [lia|].
  destruct (p x) eqn:P; destruct (q x) eqn:Q; simpl;
    [exfalso; eapply D; eauto | | |];
    destruct (c x); simpl; lia.
Qed.

Lemma filter_all {A} (l : list A) : filter (fun _ => true) l = l.
Proof. induction l as [|x l IH]; simpl; [|rewrite IH]; reflexivity. Qed.

Lemma filter_filter_and {A} (p c : A -> bool) l :
  filter c (filter p l) = filter (fun x => p x && c x) l.
Proof.
  induction l as [|x l IH]; simpl; [reflexivity|].
  destruct (p x); simpl; [destruct (c x); rewrite IH|]; auto.
Qed.

(** The rows that pass the two filters are the rows given that a test keeps,
    and the test says what the query asks. *)
Lemma filtered_is_a_filter R txs q found :
  InfoQuery.filtered R txs q = Return found ->
  exists keep,
    found = filter keep txs
    /\ forall t,
         keep t = true
         <-> (InfoQuery.q_type q = VStr "expense" -> lt_zero (tx_amount t) = true)
             /\ (InfoQuery.q_type q = VStr "income"
                 -> InfoQuery.gt_zero (tx_amount t) = true)
             /\ (forall c, InfoQuery.wanted_category q = Some c ->
                   exists test tc,
                     R c = Some test /\ tx_category t = Some tc
                     /\ tc <> EmptyString /\ test tc = true).
Proof.
  intros H. unfold InfoQuery.filtered in H.
  set (ty := InfoQuery.q_type q) in *.
  set (tk := fun t : transaction =>
               if strict_eq ty (VStr "expense") then lt_zero (tx_amount t)
               else if strict_eq ty (VStr "income")
               then InfoQuery.gt_zero (tx_amount t) else true).
  assert ((if strict_eq ty (VStr "expense")
           then filter (fun t => lt_zero (tx_amount t)) txs
           else if strict_eq ty (VStr "income")
           then filter (fun t => InfoQuery.gt_zero (tx_amount t)) txs
           else txs) = filter tk txs) as Hty.
  { subst tk. destruct (strict_eq ty (VStr "expense"));
      [reflexivity|]. destruct (strict_eq ty (VStr "income")); [reflexivity|].
    symmetry. apply filter_all. }
  assert (forall t, tk t = true
                    <-> (ty = VStr "expense" -> lt_zero (tx_amount t) = true)
                        /\ (ty = VStr "income"
                            -> InfoQuery.gt_zero (tx_amount t) = true)) as Htk.
  { intros t. subst tk. cbv beta.
    pose proof (strict_eq_text ty "expense") as He.
    pose proof (strict_eq_text ty "income") as Hi.
    destruct (strict_eq ty (VStr "expense")) eqn:E1.
    - assert (ty = VStr "expense") as Hy by (apply He; reflexivity).
      split.
      + intros T. split; [auto|]. intros Q. rewrite Hy in Q. discriminate Q.
      + intros [T _]. auto.
    - destruct (strict_eq ty (VStr "income")) eqn:E2.
      + assert (ty = VStr "income") as Hy by (apply Hi; reflexivity).
        split.
        * intros T. split; [|auto]. intros Q. rewrite Hy in Q. discriminate Q.
        * intros [_ T]. auto.
      + split; [|reflexivity]. intros _.
        split; intros Q; [apply He in Q | apply Hi in Q]; discriminate Q. }
  rewrite Hty in H. clear Hty.
  destruct (InfoQuery.wanted_category q) as [c|].
  - destruct (R c) as [test|] eqn:ER; [|discriminate H].
    apply Return_inj in H. subst found. rewrite filter_filter_and.
    eexists. split; [reflexivity|]. intros t. cbv beta.
    rewrite andb_true_iff, Htk. split.
    + intros [[T1 T2] C]. split; [exact T1|]. split; [exact T2|].
      intros c' Hc. injection Hc as <-.
      destruct (tx_category t) as [tc|]; [|discriminate C].
      apply andb_prop in C. destruct C as [C1 C2].
      exists test, tc. repeat split; auto. intros ->. discriminate C1.
    + intros [T1 [T2 C]]. split; [split; assumption|].
      destruct (C c eq_refl) as [test' [tc [Et [Ec [Hne Ht]]]]].
      rewrite Ec. rewrite ER in Et. injection Et as <-.
      rewrite Ht, andb_true_r.
      destruct (String.eqb_spec tc ""); [contradiction | reflexivity].
  - apply Return_inj in H. subst found.
    exists tk. split; [reflexivity|]. intros t. rewrite Htk. split.
    + intros [T1 T2]. split; [exact T1|]. split; [exact T2|].
      intros c Hc. discriminate Hc.
    + intros [T1 [T2 _]]. split; assumption.
Qed.

(** X13. What [formatResults] prints.  The message is the heading, then one
    entry for each row that passes, in the order given, then the totals and
    the count of those rows; or the heading and "No se encontraron
    transacciones..." exactly when no row passes.  A row passes when, under
    the type "expense", its amount compares below zero, under "income",
    above zero, and, when a category is asked, it carries a category that
    the pattern matches.  With neither type nor category every row given is
    printed, however many. *)
Theorem query_results_pass_the_filters :
  forall RegExp_i transactions q m,
    InfoQuery.formatResults RegExp_i transactions q = Return m ->
    exists keep,
      let found := filter keep transactions in
      (forall t,
          keep t = true
          <-> (InfoQuery.q_type q = VStr "expense" -> lt_zero (tx_amount t) = true)
              /\ (InfoQuery.q_type q = VStr "income"
                  -> InfoQuery.gt_zero (tx_amount t) = true)
              /\ (forall c, InfoQuery.wanted_category q = Some c ->
                    exists test tc,
                      RegExp_i c = Some test /\ tx_category t = Some tc
                      /\ tc <> EmptyString /\ test tc = true))
      /\ m = (InfoQuery.results_heading q
              ++ match found with
                 | [] => InfoQuery.NO_MATCH
                 | _ :: _ =>
                     flat_map InfoQuery.result_entry found
                     ++ [InfoQuery.Plain (Lit ("*Resumen del Período:*" ++ nl))]
                     ++ (if InfoQuery.num_neq_zero (InfoQuery.balance "USD" found)
                         then [InfoQuery.Plain (Lit "*Balance en USD:* ");
                               InfoQuery.Balance "en-US" "USD"
                                 (InfoQuery.balance "USD" found);
                               InfoQuery.Plain (Lit nl)]
                         else [])
                     ++ (if InfoQuery.num_neq_zero (InfoQuery.balance "ARS" found)
                         then [InfoQuery.Plain (Lit "*Balance en ARS:* ");
                               InfoQuery.Balance "es-AR" "ARS"
                                 (InfoQuery.balance "ARS" found);
                               InfoQuery.Plain (Lit nl)]
                         else [])
                     ++ [InfoQuery.Plain (Lit "*Total de transacciones:* ");
                         InfoQuery.Plain (Lit (decimal (length_of found)))]
                 end)%list
      /\ (m = (InfoQuery.results_heading q ++ InfoQuery.NO_MATCH)%list
          <-> found = [])
      /\ (InfoQuery.q_type q <> VStr "expense" ->
          InfoQuery.q_type q <> VStr "income" ->
          InfoQuery.wanted_category q = None -> found = transactions).
Proof.
  intros R txs q m H. unfold InfoQuery.formatResults in H.
  destruct (InfoQuery.filtered R txs q) as [found|err] eqn:F;
    [|discriminate H].
  destruct (filtered_is_a_filter R txs q found F) as [keep [Hf Hk]].
  exists keep. cbv zeta. rewrite <- Hf.
  split; [exact Hk|].
  assert (m = (InfoQuery.results_heading q
               ++ match found with
                  | [] => InfoQuery.NO_MATCH
                  | _ :: _ =>
                      flat_map InfoQuery.result_entry found
                      ++ [InfoQuery.Plain (Lit ("*Resumen del Período:*" ++ nl))]
                      ++ (if InfoQuery.num_neq_zero (InfoQuery.balance "USD" found)
                          then [InfoQuery.Plain (Lit "*Balance en USD:* ");
                                InfoQuery.Balance "en-US" "USD"
                                  (InfoQuery.balance "USD" found);
                                InfoQuery.Plain (Lit nl)]
                          else [])
                      ++ (if InfoQuery.num_neq_zero (InfoQuery.balance "ARS" found)
                          then [InfoQuery.Plain (Lit "*Balance en ARS:* ");
                                InfoQuery.Balance "es-AR" "ARS"
                                  (InfoQuery.balance "ARS" found);
                                InfoQuery.Plain (Lit nl)]
                          else [])
                      ++ [InfoQuery.Plain (Lit "*Total de transacciones:* ");
                          InfoQuery.Plain (Lit (decimal (length_of found)))]
                  end)%list) as Hm.
  { destruct found as [|t r]; apply Return_inj in H; subst m; reflexivity. }
  split; [exact Hm|]. split.
  - destruct found as [|t r]; [split; [reflexivity | intros _; exact Hm]|].
    split; [|discriminate]. intros E. exfalso. rewrite Hm in E.
    apply app_inv_head in E. simpl in E.
    destruct (num_lt (parseFloat (tx_amount t)) pos_zero); discriminate E.
  - intros N1 N2 Hc. rewrite Hf. rewrite <- (filter_all txs) at 2.
    apply filter_ext. intros t. apply Hk.
    split; [intros Q; contradiction|].
    split; [intros Q; contradiction|].
    intros c Q. rewrite Hc in Q. discriminate Q.
Qed.

Lemma query_results_pass_the_filters_witness :
  InfoQuery.formatResults
    (fun _ => Some (fun _ => true))
    [first_of_july; row 1753228800000 "Sueldo" 500000]
    {| InfoQuery.date_from := VStr "2025-07-01";
       InfoQuery.date_to := VStr "2025-07-31";
       InfoQuery.q_type := VStr "expense";
       InfoQuery.q_category := None |}
  = Return
      (InfoQuery.results_heading
         {| InfoQuery.date_from := VStr "2025-07-01";
            InfoQuery.date_to := VStr "2025-07-31";
            InfoQuery.q_type := VStr "expense";
            InfoQuery.q_category := None |}
       ++ InfoQuery.result_entry first_of_july
       ++ [InfoQuery.Plain (Lit ("*Resumen del Período:*" ++ nl));
           InfoQuery.Plain (Lit "*Balance en ARS:* ");
           InfoQuery.Balance "es-AR" "ARS" (of_Z (-3500));
           InfoQuery.Plain (Lit nl);
           InfoQuery.Plain (Lit "*Total de transacciones:* ");
           InfoQuery.Plain (Lit "1")])%list
  /\ exists keep,
       keep first_of_july = true
       /\ keep (row 1753228800000 "Sueldo" 500000) = false.
Proof.
  split; [vm_compute; reflexivity|].
  destruct (query_results_pass_the_filters
              (fun _ => Some (fun _ => true))
              [first_of_july; row 1753228800000 "Sueldo" 500000]
              {| InfoQuery.date_from := VStr "2025-07-01";
                 InfoQuery.date_to := VStr "2025-07-31";
                 InfoQuery.q_type := VStr "expense";
                 InfoQuery.q_category := None |}
              _ eq_refl) as [keep [K _]].
  exists keep. split.
  - apply K. split; [intros _; vm_compute; reflexivity|].
    split; [intros Q; discriminate Q | intros c Q; discriminate Q].
  - destruct (keep (row 1753228800000 "Sueldo" 500000)) eqn:E; [|reflexivity].
    apply K in E. destruct E as [E _]. specialize (E eq_refl).
    vm_compute in E. discriminate E.
Defined.

(** X14. The two types of a query never overlap, and need not cover the
    period: for one period and one category, no row is printed both under
    "expense" and under "income", and the two answers together print at most
    as many rows as the answer that asks for no type.  A row whose amount is
    zero, or is no number, is under neither type. *)
Theorem query_types_do_not_overlap :
  forall RegExp_i transactions df dt cat expenses incomes every,
    let q ty := {| InfoQuery.date_from := df; InfoQuery.date_to := dt;
                   InfoQuery.q_type := ty; InfoQuery.q_category := cat |} in
    InfoQuery.filtered RegExp_i transactions (q (VStr "expense")) = Return expenses ->
    InfoQuery.filtered RegExp_i transactions (q (VStr "income")) = Return incomes ->
    InfoQuery.filtered RegExp_i transactions (q VUndef) = Return every ->
    (forall t, In t expenses -> ~ In t incomes)
    /\ (List.length expenses + List.length incomes <= List.length every)%nat
    /\ (forall t, In t expenses \/ In t incomes ->
                  truthy (VNum (toNumber (tx_amount t))) = true).
Proof.
  intros R txs df dt cat expenses incomes every q He Hi Ha.
  assert (forall t, lt_zero (tx_amount t) = true ->
                    InfoQuery.gt_zero (tx_amount t) = true -> False) as D
      by (intros t; apply below_and_above_zero).
  unfold InfoQuery.filtered, InfoQuery.wanted_category in He, Hi, Ha.
  simpl in He, Hi, Ha.
  assert (forall t, lt_zero (tx_amount t) = true \/
                    InfoQuery.gt_zero (tx_amount t) = true ->
                    truthy (VNum (toNumber (tx_amount t))) = true) as Z.
  { intros t. unfold lt_zero, InfoQuery.gt_zero, truthy.
    destruct (toNumber (tx_amount t)) as [[|]|[|]| |[|] m e]; simpl;
      intros [H|H]; try discriminate H; reflexivity. }
  destruct cat as [c|]; [destruct (String.eqb c ""); [|destruct (R c) as [test|]]|];
    try discriminate He;
    injection He as <-; injection Hi as <-; injection Ha as <-.
  - split; [|split].
    + intros t I1 I2. apply filter_In in I1, I2. eapply D; [apply I1 | apply I2].
    + pose proof (filter_filter_length _ _ (fun _ => true) txs D) as L.
      rewrite !filter_all in L. exact L.
    + intros t [I|I]; apply filter_In in I; apply Z; tauto.
  - split; [|split].
    + intros t I1 I2. apply filter_In in I1, I2. destruct I1 as [I1 _], I2 as [I2 _].
      apply filter_In in I1, I2. eapply D; [apply I1 | apply I2].
    + apply filter_filter_length, D.
    + intros t [I|I]; apply filter_In in I; destruct I as [I _];
        apply filter_In in I; apply Z; tauto.
  - split; [|split].
    + intros t I1 I2. apply filter_In in I1, I2. eapply D; [apply I1 | apply I2].
    + pose proof (filter_filter_length _ _ (fun _ => true) txs D) as L.
      rewrite !filter_all in L. exact L.
    + intros t [I|I]; apply filter_In in I; apply Z; tauto.
Qed.

Lemma query_types_do_not_overlap_witness :
  ~ In first_of_july [row 1753228800000 "Sueldo" 500000]
  /\ (List.length [first_of_july]
      + List.length [row 1753228800000 "Sueldo" 500000]
      <= List.length [first_of_july; row 1753228800000 "Sueldo" 500000;
                      row 1753228800000 "Ajuste" 0])%nat.
Proof.
  destruct (query_types_do_not_overlap
              (fun _ => Some (fun _ => true))
              [first_of_july; row 1753228800000 "Sueldo" 500000;
               row 1753228800000 "Ajuste" 0]
              (VStr "2025-07-01") (VStr "2025-07-31") None
              [first_of_july]
              [row 1753228800000 "Sueldo" 500000]
              [first_of_july; row 1753228800000 "Sueldo" 500000;
               row 1753228800000 "Ajuste" 0]) as [D [L _]];
    [vm_compute; reflexivity | vm_compute; reflexivity | vm_compute; reflexivity |].
  split; [apply D; left; reflexivity | exact L].
Defined.

(** X15. [formatResults] throws exactly when a category is asked and is no
    source of a regular expression; it then throws whatever the rows, an
    empty list included.  In every other case it returns a message that
    starts with the heading of the query. *)
Theorem query_throws_on_a_bad_pattern :
  forall RegExp_i transactions q,
    (InfoQuery.formatResults RegExp_i transactions q = Throw "SyntaxError"
     <-> exists c, InfoQuery.q_category q = Some c /\ c <> EmptyString
                   /\ RegExp_i c = None)
    /\ (forall err, InfoQuery.formatResults RegExp_i transactions q = Throw err ->
                    InfoQuery.formatResults RegExp_i [] q = Throw err)
    /\ (forall m, InfoQuery.formatResults RegExp_i transactions q = Return m ->
                  exists rest, m = (InfoQuery.results_heading q ++ rest)%list).
Proof.
  intros R txs q.
  assert (InfoQuery.filtered R txs q = Throw "SyntaxError"
          <-> exists c, InfoQuery.q_category q = Some c /\ c <> EmptyString
                        /\ R c = None) as Hthrow.
  { unfold InfoQuery.filtered, InfoQuery.wanted_category.
    destruct (InfoQuery.q_category q) as [c|].
    - destruct (String.eqb c "") eqn:Ec.
      + apply String.eqb_eq in Ec. subst c.
        split; [discriminate|]. intros [c [E [N _]]]. injection E as <-.
        contradiction.
      + destruct (R c) as [test|] eqn:ER.
        * split; [discriminate|]. intros [c' [E [_ N]]]. injection E as <-.
          rewrite ER in N. discriminate N.
        * split; [|reflexivity]. intros _. exists c. repeat split; auto.
          intros ->. discriminate Ec.
    - split; [discriminate|]. intros [c [E _]]. discriminate E. }
  assert (forall l err, InfoQuery.filtered R l q = Throw err ->
                        InfoQuery.filtered R [] q = Throw err) as Hany.
  { intros l err. unfold InfoQuery.filtered.
    destruct (InfoQuery.wanted_category q) as [c|]; [|discriminate].
    destruct (R c); [discriminate | auto]. }
  unfold InfoQuery.formatResults.
  split; [|split].
  - rewrite <- Hthrow.
    destruct (InfoQuery.filtered R txs q) as [[|t r]|err];
      split; intros E; try discriminate E; injection E as ->; reflexivity.
  - intros err E.
    destruct (InfoQuery.filtered R txs q) as [[|t r]|err'] eqn:F;
      try discriminate E.
    rewrite (Hany _ _ F). exact E.
  - intros m E.
    destruct (InfoQuery.filtered R txs q) as [[|t r]|err'];
      try discriminate E; apply Return_inj in E; subst m; eexists; reflexivity.
Qed.

(** ** The router of the message handler *)

Lemma record_parsed_calls_no_model chatId oe sv fs :
  model_calls (events_of (record_parsed chatId oe sv fs)) = [].
Proof.
  unfold record_parsed. destruct oe as [e|]; [|reflexivity].
  destruct (truthy (amount e)); [|reflexivity].
  destruct (truthy (description e)); [|reflexivity]. simpl.
  rewrite events_bind.
  pose proof (sendTransaction_run) as ST.
  destruct (or_else (currency e) (VStr "USD")) as [| | | |s] eqn:Ecur; simpl;
    try reflexivity.
  rewrite events_bind, sendMessage_run. io_simpl. cbn [model_calls].
  rewrite events_bind, refresh_session_result, model_calls_app,
    (model_calls_none _ (refresh_session_completes_nothing _ sv fs)).
  destruct (refreshed sv) as [td|]; [|reflexivity].
  destruct (truthy (accessToken td)); [|reflexivity].
  rewrite events_bind, model_calls_app.
  match goal with
  | |- context [sendTransaction ?tok e sv ?f] =>
      specialize (ST tok e sv f); rewrite Ecur in ST; rewrite ST
  end.
  destruct (transactions_endpoint sv); reflexivity.
Qed.

(** X16. The router matches commands by prefix and knows two of them.  A
    text that starts with "/start" gets the welcome and nothing else: no
    service is called and the listing command is not run, whatever follows
    the prefix.  Every other text that does not start with "/gastos", a
    command the router does not know such as "/resumen" included, is read as
    an expense: it is sent to the model once, with the parsing prompt. *)
Theorem commands_are_matched_by_prefix :
  forall g msg t sv fs,
    text msg = Some t ->
    t <> EmptyString ->
    (startsWith t "/start" = true ->
     on_message g msg sv fs = (Return tt, fs, [SendMessage (chat_id msg) WELCOME]))
    /\ (startsWith t "/start" = false ->
        startsWith t "/gastos" = false ->
        model_calls (events_of (on_message g msg sv fs))
        = [(SYSTEM_PROMPT, [Lit t])]).
Proof.
  intros g msg t sv fs Ht Hne.
  assert (truthy (VStr t) = true) as Htr
      by (destruct t; [contradiction | reflexivity]).
  split.
  - intros H1. unfold on_message. rewrite Ht, Htr. cbn [negb]. rewrite H1.
    reflexivity.
  - intros H1 H2. rewrite (on_message_records g msg t sv fs Ht H1 H2), Htr.
    rewrite events_try_catch, model_calls_app, expense_recorder_events.
    cbn [model_calls]. rewrite model_calls_app. cbn [model_calls].
    rewrite record_parsed_calls_no_model, app_nil_r.
    assert (model_calls (events_of (parseExpenseWithAI t sv fs))
            = [(SYSTEM_PROMPT, [Lit t])]) as ->.
    { io_unfold. destruct (expense_model sv) as [| | |[e|]]; simpl; auto.
      destruct (truthy (error e)); reflexivity. }
    destruct (result_of (expense_recorder (chat_id msg) t sv fs)); reflexivity.
Qed.

Lemma commands_are_matched_by_prefix_witness :
  on_message Gastos.handleGastosCommand
             (chat_message 7 "/starting with lunch 50 usd") dinner FileAbsent
  = (Return tt, FileAbsent, [SendMessage 7 WELCOME])
  /\ model_calls (events_of (on_message Gastos.handleGastosCommand
                                        (chat_message 7 "/resumen") dinner
                                        FileAbsent))
     = [(SYSTEM_PROMPT, [Lit "/resumen"])].
Proof.
  split.
  - apply (commands_are_matched_by_prefix Gastos.handleGastosCommand
             (chat_message 7 "/starting with lunch 50 usd")
             "/starting with lunch 50 usd" dinner FileAbsent);
      [reflexivity | discriminate | reflexivity].
  - apply (commands_are_matched_by_prefix Gastos.handleGastosCommand
             (chat_message 7 "/resumen") "/resumen" dinner FileAbsent);
      [reflexivity | discriminate | reflexivity | reflexivity].
Defined.

(** ** What the summary command tells the chat *)

(** X17. The summary command sends one message and ends with one verdict,
    Telegram taking the messages.  The rows are those of the model: each has
    an instant as date and a text as description; and no category is named
    like a member of [Object.prototype], on which the aggregates of the
    second revision fail.  The first revision edits the message once: to the
    narrative, to the fixed text when the period has no row, or to the error
    text, and it throws exactly in the last case.  The second revision shows
    its two progress notes once the rows are fetched, and then the same
    verdict.  A body of the RPC that is [null] counts as a failure in
    both. *)
Theorem summary_ends_with_one_verdict :
  forall h msg sv fs,
    own_categories (fetched sv) ->
    let r1 := Resumen.handleResumenCommand msg sv fs in
    let r2 := ResumenAggregates.handleResumenCommand h msg sv fs in
    let progress :=
      [[Lit "⚙️ Procesando y calculando totales..."];
       [Lit "🧠 Generando análisis y consejos con IA..."]] in
    chat_messages (events_of r1)
    = [[Lit "🧠 Analizando tus gastos con IA... Esto puede tardar un momento."]]
    /\ chat_messages (events_of r2) = [[Lit "🔍 Recopilando datos... Un momento."]]
    /\ match summary_verdict Resumen.NOTHING_TO_ANALYZE sv with
       | Some m => result_of r1 = Return tt /\ edits (events_of r1) = [m]
       | None => (exists err, result_of r1 = Throw err)
                 /\ edits (events_of r1) = [SUMMARY_ERROR]
       end
    /\ match summary_verdict ResumenAggregates.NOTHING_TO_ANALYZE sv with
       | Some m => result_of r2 = Return tt
                   /\ edits (events_of r2) = (progress ++ [m])%list
       | None => (exists err, result_of r2 = Throw err)
                 /\ edits (events_of r2)
                    = (match listed sv with
                       | Some (Some _) => progress
                       | _ => []
                       end ++ [SUMMARY_ERROR])%list
       end.
Proof.
  intros h msg sv fs _. cbv zeta.
  refresh_facts "Fallo al obtener token de Gasti.pro para generar el resumen." sv fs.
  unfold summary_verdict, narrative, no_rows. unfold_summary.
  destruct (refresh_session _ sv fs) as [[r fs1] ev1]. simpl in *.
  destruct (session sv) as [a|]; subst r; simpl.
  2: repeat apply conj; traces_done.
  destruct (rpc_endpoint sv) as [| | |[[[[|tx txs]|] summary]|]];
    try solve [simpl; repeat apply conj; traces_done].
  assert ((length_of (tx :: txs) =? 0) = false) as L
      by (apply Z.eqb_neq; unfold length_of; simpl List.length; lia).
  assert ((length_of (map normalize (tx :: txs)) =? 0) = false) as L'
      by (apply Z.eqb_neq; unfold length_of; simpl List.length; lia).
  assert (negb (truthy (VStr (render h (analizarTransacciones
                                          (map normalize (tx :: txs))))))
          || startsWith (render h (analizarTransacciones
                                     (map normalize (tx :: txs))))
                        "No se encontraron" = false) as N
      by (unfold analizarTransacciones; rewrite L'; reflexivity).
  unfold truthy in N. cbn [transactions negb]. rewrite L, N.
  destruct (summary_model sv); simpl; repeat apply conj; traces_done.
Qed.

Lemma summary_ends_with_one_verdict_witness :
  edits (events_of (ResumenAggregates.handleResumenCommand
                      terse_host (chat_message 7 "/resumen")
                      (setup true (VStr "rotated-1") Unreachable
                             (Accepted (listing [first_of_july; late_july])))
                      FileAbsent))
  = [[Lit "⚙️ Procesando y calculando totales..."];
     [Lit "🧠 Generando análisis y consejos con IA..."];
     SUMMARY_ERROR]
  /\ edits (events_of (Resumen.handleResumenCommand
                         (chat_message 7 "/resumen") rotating_backend FileAbsent))
     = [Resumen.NOTHING_TO_ANALYZE].
Proof.
  split.
  - apply (summary_ends_with_one_verdict terse_host (chat_message 7 "/resumen")
             (setup true (VStr "rotated-1") Unreachable
                    (Accepted (listing [first_of_july; late_july])))
             FileAbsent).
    repeat constructor.
  - apply (summary_ends_with_one_verdict terse_host (chat_message 7 "/resumen")
             rotating_backend FileAbsent).
    constructor.
Defined.

(** ** The listing without rows *)

(** X18. Every revision of [formatApiResponse] answers "No se encontraron
    gastos recientes." exactly when the response carries no row: it is
    [null], has no [transactions], or an empty list.  The totals of a
    [summary] that comes without rows are not shown. *)
Theorem no_recent_iff_no_rows :
  forall apiResponse,
    (Gastos.formatApiResponse apiResponse = NO_RECENT <-> rows apiResponse = [])
    /\ (GastosByDate.formatApiResponse apiResponse = NO_RECENT
        <-> rows apiResponse = [])
    /\ (GastosQuiet.formatApiResponse apiResponse = NO_RECENT
        <-> rows apiResponse = []).
Proof.
  intros [[[[|tx txs]|] summary]|];
    unfold Gastos.formatApiResponse, GastosByDate.formatApiResponse,
      GastosQuiet.formatApiResponse, format_with, rows, heading;
    repeat split; intros H; try reflexivity; try discriminate H.
Qed.

(** ** Rows in other currencies *)

Lemma other_currency_is_skipped c p t txs :
  in_currency c t = false ->
  filter (in_currency c) (filter p (t :: txs))
  = filter (in_currency c) (filter p txs).
Proof.
  intros H. simpl. destruct (p t); [simpl; rewrite H|]; reflexivity.
Qed.

Lemma amounts_of_app (a b : message) :
  amounts_of (a ++ b)%list = (amounts_of a ++ amounts_of b)%list.
Proof.
  induction a as [|x a IH]; simpl; [reflexivity|].
  destruct x; simpl; rewrite IH; reflexivity.
Qed.

(** X19. The block of aggregates has totals for USD and ARS only.  A row in
    any other currency is counted among the transactions and changes no
    amount of the block: totals, balances and top categories are those of
    the other rows. *)
Theorem other_currencies_reach_no_total :
  forall t txs,
    txs <> [] ->
    in_currency "USD" t = false ->
    in_currency "ARS" t = false ->
    amounts_of (analizarTransacciones (t :: txs))
    = amounts_of (analizarTransacciones txs).
Proof.
  intros t txs Hne Hu Ha. unfold analizarTransacciones.
  assert ((length_of (t :: txs) =? 0) = false) as ->
      by (apply Z.eqb_neq; unfold length_of; simpl List.length; lia).
  assert ((length_of txs =? 0) = false) as ->
      by (apply Z.eqb_neq; unfold length_of; destruct txs;
          [contradiction | simpl List.length; lia]).
  cbv zeta. unfold gastos_of, ingresos_of.
  rewrite !(other_currency_is_skipped "USD" _ t txs Hu),
    !(other_currency_is_skipped "ARS" _ t txs Ha).
  rewrite !amounts_of_app. reflexivity.
Qed.

Lemma other_currencies_reach_no_total_witness :
  amounts_of (analizarTransacciones
                [{| tx_date := 1753228800000; tx_description := "Hotel";
                    tx_amount := VNum (of_Z (-120)); tx_currency := "EUR";
                    tx_category := Some "🌴 Vacaciones";
                    tx_type := Some "expense" |};
                 first_of_july])
  = amounts_of (analizarTransacciones [first_of_july]).
Proof.
  apply other_currencies_reach_no_total;
    [discriminate | reflexivity | reflexivity].
Defined.
(** ** Sample runs *)

(** A dinner told in free text becomes one negative transaction, and the
    rotated token is stored on the way. *)
Example dinner_is_recorded :
  on_message Gastos.handleGastosCommand
             (chat_message 7 "Cena con amigos 45.50 usd") dinner FileAbsent
  = (Return tt, FileToken (VStr "rotated-1"),
     [SendMessage 7 THINKING;
      ChatCompletion SYSTEM_PROMPT [Lit "Cena con amigos 45.50 usd"];
      EditMessageText 7 100 ANALYSIS_DONE;
      SendMessage 7 (confirmation cena_con_amigos "USD");
      TokenRequest (VStr "seed-token");
      WriteTokenFile (VStr "rotated-1");
      CreateTransaction (VStr "access-1") (payload_of dinner cena_con_amigos "USD");
      SendMessage 7 REGISTERED]).
Proof. vm_compute. reflexivity. Qed.

(** A listing that fails after the refresh: the handler reports in the chat
    message it had sent and rethrows; the dispatcher logs and apologises. *)
Example listing_failure_is_reported_twice :
  events_of (on_message GastosByDate.handleGastosCommand
                        (chat_message 7 "/gastos") read_only_disk
                        (FileToken (VStr "stored-0")))
  = [SendMessage 7 [Lit "Buscando tus gastos en Gasti.pro..."];
     TokenRequest (VStr "stored-0");
     WriteTokenFile (VStr "rotated-1");
     ConsoleError "Error fatal: No se pudo escribir el nuevo refresh token en el archivo:";
     Rpc "get_user_transactions_by_period" (VStr "access-1");
     ConsoleError "Error procesando el comando /gastos:";
     EditMessageText 7 100
       [Lit "🔥 ¡Ups! Hubo un error y no pude obtener tus gastos. Revisa los logs del servidor."];
     ConsoleError "[ERROR en el chat]";
     SendMessage 7 SYSTEM_ERROR].
Proof. vm_compute. reflexivity. Qed.

(** How the two conversions read some texts. *)
Example reading_numbers :
  parseFloat (VStr "50000 pesos") = of_Z 50000
  /\ toNumber (VStr "50000 pesos") = NaN
  /\ toNumber (VStr " 42 ") = of_Z 42
  /\ toNumber (VStr "") = pos_zero
  /\ parseFloat (VStr "") = NaN
  /\ toNumber (VStr "0x10") = of_Z 16
  /\ parseFloat (VStr "0x10") = pos_zero
  /\ parseFloat (VStr "1e3") = of_Z 1000
  /\ parseFloat (VStr ".5e1") = of_Z 5
  /\ parseFloat (VNum neg_zero) = pos_zero
  /\ parseFloat (VStr "-0") = neg_zero.
Proof. repeat split; vm_compute; reflexivity. Qed.

Example parseFloat_45_50 :
  parseFloat (VStr "45.50") = S754_finite false 6403555720167424 (-47).
Proof. vm_compute. reflexivity. Qed.
